(** * SPAECE retrieval core: chunker, extractors, indexer and retriever

    A shallow embedding of the retrieval functions of [streamlit_app.py]
    ([dividir_em_chunks], [extrair_tabelas_do_md],
    [extrair_secoes_importantes], [criar_indice_similaridade],
    [processar_md_com_rag], [buscar_informacoes_relevantes]) together with
    the properties the specification states about them.

    Python values are modelled as follows.
    - [int] is [Z]; list positions produced by [enumerate] and [argsort]
      are [nat].
    - [str] is a list of Unicode code points ([list N]); literals are
      written [py "..."] and decoded from the UTF-8 bytes of the source.
    - [float] scores are rationals ([Q]); the literals 0.05, 0.4 and 0.3
      are the exact values of their binary64 representations, and a score
      the library computes is the exact value of the float it returns.
    - a raised exception is the [Raise] branch of [result]; a function
      with a [try]/[except Exception] around its body goes through
      [try_except].
    - what the program calls in the Python runtime, [re], NumPy and
      scikit-learn is the interface [Lib]. *)

From Stdlib Require Import ZArith QArith Lia Permutation Sorted.
From Stdlib Require Import Ascii String.
From Stdlib Require Floats Uint63.
From stdpp Require Import base tactics option list sorting strings gmap.

Local Open Scope Z_scope.

(* ===================================================================== *)
(** ** Exceptions *)
(* ===================================================================== *)

Inductive exn : Type :=
| ValueError
| IndexError
| OtherError.

Inductive result (A : Type) : Type :=
| Ok (a : A)
| Raise (e : exn).
Arguments Ok {A} a.
Arguments Raise {A} e.

#[global] Instance result_ret : MRet result := fun A a => Ok a.
#[global] Instance result_bind : MBind result := fun A B f m =>
  match m with
  | Ok a => f a
  | Raise e => Raise e
  end.

(** [try: body except Exception as e: handler] *)
Definition try_except {A} (body : result A) (handler : exn -> result A) : result A :=
  match body with
  | Ok a => Ok a
  | Raise e => handler e
  end.

(* ===================================================================== *)
(** ** Python strings and sequences *)
(* ===================================================================== *)

Module Py.

(** A [str] is a sequence of code points. *)
Abbreviation str := (list N).

(** Decoding of the UTF-8 bytes of a literal of this file. *)
Fixpoint utf8_decode (bs : list N) : str :=
  match bs with
  | [] => []
  | b :: r =>
      if (b <? 128)%N then b :: utf8_decode r
      else if (b <? 224)%N then
        match r with
        | b1 :: r1 => ((b - 192) * 64 + (b1 - 128))%N :: utf8_decode r1
        | [] => []
        end
      else if (b <? 240)%N then
        match r with
        | b1 :: b2 :: r2 =>
            ((b - 224) * 4096 + (b1 - 128) * 64 + (b2 - 128))%N :: utf8_decode r2
        | _ => []
        end
      else
        match r with
        | b1 :: b2 :: b3 :: r3 =>
            ((b - 240) * 262144 + (b1 - 128) * 4096 + (b2 - 128) * 64 + (b3 - 128))%N
              :: utf8_decode r3
        | _ => []
        end
  end.

Definition py (s : string) : str :=
  utf8_decode (map N_of_ascii (list_ascii_of_string s)).

(** [len(x)] *)
Definition len {A} (l : list A) : Z := Z.of_nat (length l).

(** [str.isspace] on one code point: the characters [str.split()],
    [str.strip()] and the regular expression class [\s] treat as
    whitespace. *)
Definition isspace (c : N) : bool :=
  ((9 <=? c) && (c <=? 13) || (28 <=? c) && (c <=? 32)
   || (c =? 133) || (c =? 160) || (c =? 5760)
   || (8192 <=? c) && (c <=? 8202)
   || (c =? 8232) || (c =? 8233) || (c =? 8239) || (c =? 8287)
   || (c =? 12288))%N.

(** [s.split()]: the maximal runs of non-whitespace characters. [w] is the
    word being read, most recent character first. *)
Fixpoint split_go (w : str) (s : str) : list str :=
  match s with
  | [] => match w with [] => [] | _ => [rev w] end
  | c :: s' =>
      if isspace c then
        match w with
        | [] => split_go [] s'
        | _ => rev w :: split_go [] s'
        end
      else split_go (c :: w) s'
  end.

Definition split (s : str) : list str := split_go [] s.

(** [sep.join(ws)] *)
Fixpoint join (sep : str) (ws : list str) : str :=
  match ws with
  | [] => []
  | [w] => w
  | w :: ws' => w ++ sep ++ join sep ws'
  end.

(** [s.strip()]: leading and trailing whitespace removed. *)
Fixpoint lstrip (s : str) : str :=
  match s with
  | [] => []
  | c :: s' => if isspace c then lstrip s' else s
  end.

Definition strip (s : str) : str := rev (lstrip (rev (lstrip s))).

(** Truth value of a sequence: non-empty. *)
Definition truthy {A} (l : list A) : bool :=
  match l with [] => false | _ => true end.

(** Slice bounds as CPython adjusts them: a negative bound counts from the
    end, and both are clipped to [0, n]. *)
Definition clamp_index (n i : Z) : Z :=
  if i <? 0 then Z.max 0 (i + n) else Z.min i n.

(** [l[lo:hi]] *)
Definition slice {A} (l : list A) (lo hi : Z) : list A :=
  let a := clamp_index (len l) lo in
  let b := clamp_index (len l) hi in
  take (Z.to_nat (b - a)) (drop (Z.to_nat a) l).

(** [l[:hi]] *)
Definition slice_to {A} (l : list A) (hi : Z) : list A := slice l 0 hi.

(** [l[lo:]] *)
Definition slice_from {A} (l : list A) (lo : Z) : list A := slice l lo (len l).

(** [range(start, stop, step)], which raises ValueError on a zero step. *)
Definition range (start stop step : Z) : result (list Z) :=
  if step =? 0 then Raise ValueError
  else
    let n := if 0 <? step then (stop - start + step - 1) / step
             else (start - stop - step - 1) / (- step) in
    Ok (map (fun k : nat => start + Z.of_nat k * step) (seq 0 (Z.to_nat n))).

(** [a in b] on strings: [a] occurs in [b] as a contiguous substring. *)
Fixpoint startswith (s p : str) : bool :=
  match p, s with
  | [], _ => true
  | _ :: _, [] => false
  | x :: p', y :: s' => (x =? y)%N && startswith s' p'
  end.

Fixpoint contains (a b : str) : bool :=
  startswith b a ||
  match b with
  | [] => false
  | _ :: b' => contains a b'
  end.

End Py.
Import Py.

(* ===================================================================== *)
(** ** Chunker *)
(* ===================================================================== *)

Module Chunk.
Record t : Type := mk
  { texto : str;
    indice : Z;
    posicao_inicial : Z }.
End Chunk.

Definition espaco : str := py " ".

(** One iteration of the loop of [dividir_em_chunks]. *)
Definition chunk_passo (palavras : list str) (tamanho_chunk : Z)
    (chunks : list Chunk.t) (i : Z) : list Chunk.t :=
  let chunk := join espaco (slice palavras i (i + tamanho_chunk)) in
  if truthy (strip chunk) then
    chunks ++ [ {| Chunk.texto := chunk;
                   Chunk.indice := len chunks;
                   Chunk.posicao_inicial := i |} ]
  else chunks.

Definition dividir_em_chunks (texto : str) (tamanho_chunk sobreposicao : Z)
    : result (list Chunk.t) :=
  let palavras := split texto in
  posicoes ← range 0 (len palavras) (tamanho_chunk - sobreposicao);
  mret (fold_left (chunk_passo palavras tamanho_chunk) posicoes []).

(* ===================================================================== *)
(** ** The libraries the program calls *)
(* ===================================================================== *)

(** What [streamlit_app.py] uses of the Python runtime ([str.lower]), of
    [re] ([findall], [finditer] with [re.IGNORECASE]), of scikit-learn
    ([TfidfVectorizer], [cosine_similarity]) and of NumPy ([argsort]).
    Library calls that can raise return a [result]. *)
Class Lib : Type :=
  { (** [s.lower()] *)
    lower : str -> str;
    (** [re.findall(pattern, s)] for a pattern with one group: the text of
        the group of every match, left to right. *)
    findall : str -> str -> list str;
    (** [re.finditer(pattern, s, re.IGNORECASE)]: [(m.start(), m.end())] of
        every match, left to right. *)
    finditer : str -> str -> list (Z * Z);
    (** A fitted [TfidfVectorizer] and a sparse matrix. *)
    Vectorizer : Type;
    Matrix : Type;
    (** [TfidfVectorizer(max_features=1000, stop_words=None,
        ngram_range=(1, 2)).fit_transform(textos)] *)
    fit_transform : list str -> result (Vectorizer * Matrix);
    (** [vectorizer.transform(docs)] *)
    transform : Vectorizer -> list str -> result Matrix;
    (** [cosine_similarity(X, Y)]: one row per row of [X]. *)
    cosine_similarity : Matrix -> Matrix -> result (list (list Q));
    (** [np.argsort(a)] *)
    argsort : list Q -> list nat }.

(** [a[i]] for [i >= 0]. *)
Definition index {A} (l : list A) (i : nat) : result A :=
  match l !! i with
  | Some x => Ok x
  | None => Raise IndexError
  end.

(** [a[p]], with 0 outside of [a]. *)
Definition valor (a : list Q) (p : nat) : Q := default 0%Q (a !! p).

(** The contract of [np.argsort]: the positions of [a], each once, in
    ascending order of the values. *)
Class ArgsortOk `{Lib} : Prop :=
  { argsort_perm : forall a : list Q, Permutation (argsort a) (seq 0 (length a));
    argsort_sorted : forall a : list Q,
      StronglySorted (fun p q => (valor a p <= valor a q)%Q) (argsort a) }.

(* ===================================================================== *)
(** ** Table extractor *)
(* ===================================================================== *)

(** [s.split(sep)] for a non-empty [sep]. [skip] characters of a separator
    that was just found are still to be passed over; [cur] is the piece
    being read, most recent character first. *)
Fixpoint split_sep_go (sep : str) (skip : nat) (cur : str) (s : str) : list str :=
  match skip, s with
  | S k, _ :: s' => split_sep_go sep k cur s'
  | S _, [] => [rev cur]
  | O, [] => [rev cur]
  | O, c :: s' =>
      if startswith s sep then rev cur :: split_sep_go sep (length sep - 1) [] s'
      else split_sep_go sep 0 (c :: cur) s'
  end.

Definition split_sep (s sep : str) : list str := split_sep_go sep 0 [] s.

Module Tabela.
Record t : Type := mk
  { conteudo : str;
    secao : str;
    dados_numericos : list str }.
End Tabela.

(** The separator ['\n---']. *)
Definition delimitador : str := 10%N :: py "---".

Definition padrao_tabela : str := py "(\d+(?:\.\d+)?(?:\s+\d+(?:\.\d+)?)*)".

Section Extractors.
Context `{Lib}.

(** The body of the loop over [ultimas_secoes]. *)
Definition tabela_passo (tabelas_encontradas : list Tabela.t) (secao : str)
    : list Tabela.t :=
  let matches := findall padrao_tabela secao in
  if truthy matches then
    let conteudo_tabela :=
      py "Dados numéricos encontrados: " ++ join (py ", ") (slice_to matches 10) in
    tabelas_encontradas ++
      [ {| Tabela.conteudo := conteudo_tabela;
           Tabela.secao := if 200 <? len secao
                           then slice_to secao 200 ++ py "..."
                           else secao;
           Tabela.dados_numericos := slice_to matches 10 |} ]
  else tabelas_encontradas.

Definition ultimas_secoes (texto_md : str) : list str :=
  let secoes := split_sep texto_md delimitador in
  if 5 <? len secoes then slice_from secoes (-5) else secoes.

Definition extrair_tabelas_do_md (texto_md : str) : result (list Tabela.t) :=
  try_except
    (mret (fold_left tabela_passo (ultimas_secoes texto_md) []))
    (fun _ => mret []).

(* ===================================================================== *)
(** ** Section extractor *)
(* ===================================================================== *)

Definition padroes_secoes : list (str * str) :=
  [ (py "metodologia", py "(metodologia|método|procedimento)");
    (py "indicadores", py "(indicador|métrica|medida)");
    (py "resultados", py "(resultado|conclusão|achado)");
    (py "recomendacoes", py "(recomenda|sugestão|orientação)");
    (py "tabelas", py "(tabela|quadro|dados)");
    (py "graficos", py "(gráfico|figura|chart)");
    (py "habilidades", py "(habilidade|competência|capacidade)");
    (py "componentes", py "(componente|disciplina|área)");
    (py "relacoes", py "(relação|relacionamento|conexão|vinculação)");
    (py "proficiencia", py "(proficiência|desempenho|rendimento)");
    (py "avaliacao", py "(avaliação|teste|exame)");
    (py "curriculo", py "(currículo|conteúdo|programa)");
    (py "bncc_competencias",
      py "(competência geral|competência específica|habilidade essencial)");
    (py "bncc_campos", py "(campo de experiência|área de conhecimento)");
    (py "bncc_objetivos",
      py "(objetivo de aprendizagem|expectativa de aprendizagem)");
    (py "bncc_etapas", py "(educação infantil|ensino fundamental|ensino médio)");
    (py "bncc_areas", py "(linguagens|matemática|ciências|humanas)");
    (py "bncc_objetivos_gerais", py "(objetivo geral|finalidade|propósito)");
    (py "bncc_principios", py "(princípio|fundamento|base)");
    (py "bncc_organizacao", py "(organização|estrutura|distribuição)");
    (py "bncc_avaliacao",
      py "(avaliação formativa|avaliação diagnóstica|avaliação somativa)");
    (py "dcrc_competencias_especificas",
      py "(competência específica|habilidade específica|descrição da habilidade)");
    (py "dcrc_descricoes_habilidades",
      py "(descrição|caracterização|definição.*habilidade)");
    (py "dcrc_relacoes_habilidades",
      py "(relação.*habilidade|vinculação.*competência|conexão.*componente)") ].

(** The context window of one match. *)
Definition contexto (texto_md : str) (m : Z * Z) : str :=
  let inicio := Z.max 0 (fst m - 500) in
  let fim := Z.min (len texto_md) (snd m + 500) in
  slice texto_md inicio fim.

(** The body of the loop over the matches of one pattern. *)
Definition secao_passo (texto_md nome_secao : str)
    (secoes : gmap str (list str)) (m : Z * Z) : gmap str (list str) :=
  let secoes :=
    match secoes !! nome_secao with
    | None => <[nome_secao := []]> secoes
    | Some _ => secoes
    end in
  alter (fun l => l ++ [contexto texto_md m]) nome_secao secoes.

(** The loop over the entries of a table of patterns. *)
Definition percorre (texto_md : str) (padroes : list (str * str))
    (secoes : gmap str (list str)) : gmap str (list str) :=
  fold_left
    (fun secoes '(nome_secao, padrao) =>
       fold_left (secao_passo texto_md nome_secao) (finditer padrao texto_md) secoes)
    padroes secoes.

Definition extrair_secoes_importantes (texto_md : str) : gmap str (list str) :=
  percorre texto_md padroes_secoes ∅.

End Extractors.

(* ===================================================================== *)
(** ** Similarity index *)
(* ===================================================================== *)

Module Indice.
Record t `{Lib} : Type := mk
  { vectorizer : Vectorizer;
    tfidf_matrix : Matrix;
    chunks : list Chunk.t }.
End Indice.

Module DadosRag.
Record t `{Lib} : Type := mk
  { chunks : list Chunk.t;
    tabelas : list Tabela.t;
    secoes_importantes : gmap str (list str);
    indice_similaridade : option Indice.t;
    texto_completo : str }.
End DadosRag.

Module Resultado.
(** A result dictionary. The entry ['fonte'] is optional: [None] is a
    dictionary without that key. *)
Record t : Type := mk
  { chunk : Chunk.t;
    similaridade : Q;
    texto : str;
    fonte : option str }.
End Resultado.

(** The float literals of the retriever, as the rationals they denote. *)
Definition limiar : Q := 3602879701896397 # 72057594037927936.        (* 0.05 *)
Definition sim_habilidade : Q := 3602879701896397 # 9007199254740992. (* 0.4 *)
Definition sim_palavra_chave : Q := 5404319552844595 # 18014398509481984. (* 0.3 *)

(** [a > b] on floats. *)
Definition Qgtb (a b : Q) : bool := negb (Qle_bool a b).

Section Retrieval.
Context `{Lib}.

Definition criar_indice_similaridade (chunks : list Chunk.t)
    : result (option Indice.t) :=
  try_except
    (if negb (truthy chunks) then mret None
     else
       let textos := map Chunk.texto chunks in
       '(vectorizer, tfidf_matrix) ← fit_transform textos;
       mret (Some {| Indice.vectorizer := vectorizer;
                     Indice.tfidf_matrix := tfidf_matrix;
                     Indice.chunks := chunks |}))
    (fun _ => mret None).

Definition processar_md_com_rag (texto_md : str) : result (option DadosRag.t) :=
  try_except
    (chunks ← dividir_em_chunks texto_md 1000 200;
     tabelas ← extrair_tabelas_do_md texto_md;
     let secoes_importantes := extrair_secoes_importantes texto_md in
     indice_similaridade ← criar_indice_similaridade chunks;
     mret (Some {| DadosRag.chunks := chunks;
                   DadosRag.tabelas := tabelas;
                   DadosRag.secoes_importantes := secoes_importantes;
                   DadosRag.indice_similaridade := indice_similaridade;
                   DadosRag.texto_completo := texto_md |}))
    (fun _ => mret None).

(* ===================================================================== *)
(** ** Retriever *)
(* ===================================================================== *)

(** ['habilidade' in consulta.lower() or 'competência' in consulta.lower()] *)
Definition consulta_habilidade (consulta : str) : bool :=
  contains (py "habilidade") (lower consulta)
  || contains (py "competência") (lower consulta).

Definition consulta_expandida (consulta : str) : str :=
  if consulta_habilidade consulta then
    consulta ++ py " habilidade competência capacidade componente relação entre componentes proximidade habilidades SPAECE DCRC BNCC avaliação proficiência competência geral competência específica habilidade essencial descrição da habilidade caracterização habilidade específica vinculação competência conexão componente relação dentro próprio componente competências específicas descrições habilidades relações habilidades objeto de conhecimento campo de experiência prática de linguagem percurso aprendizado progressão sequência dependência pré-requisito hierarquia metodologia estratégia ensino objetivo aprendizagem expectativa aprendizagem direito aprendizagem base nacional comum curricular documento curricular referencial"
  else if contains (py "proficiência") (lower consulta)
          || contains (py "desempenho") (lower consulta) then
    consulta ++ py " proficiência desempenho rendimento SPAECE DCRC BNCC avaliação competência objetivo de aprendizagem competência específica"
  else if contains (py "participação") (lower consulta) then
    consulta ++ py " participação frequência presença SPAECE DCRC BNCC educação básica"
  else
    consulta ++ py " educação avaliação SPAECE DCRC BNCC metodologia indicadores competência geral competência específica habilidade essencial descrição habilidade".

(** ["BNCC" if idx % 2 == 0 else "DCRC"] *)
Definition fonte_paridade (idx : nat) : str :=
  if Nat.even idx then py "BNCC" else py "DCRC".

(** Provenance of a chunk of the ranking pass. *)
Definition fonte_documento (chunk_texto : str) (idx : nat) : str :=
  if contains (py "BNCC") chunk_texto
     || contains (py "Base Nacional Comum Curricular") chunk_texto
     || contains (py "BNCC_20dez_site") chunk_texto then py "BNCC"
  else if contains (py "DCRC") chunk_texto
          || contains (py "Documento Curricular Referencial") chunk_texto
          || contains (py "dcrc") (lower chunk_texto) then py "DCRC"
  else fonte_paridade idx.

(** The loop over [top_indices]. *)
Fixpoint ranking (similaridades : list Q) (chunks : list Chunk.t)
    (top_indices : list nat) (resultados : list Resultado.t)
    : result (list Resultado.t) :=
  match top_indices with
  | [] => mret resultados
  | idx :: resto =>
      s ← index similaridades idx;
      if Qgtb s limiar then
        c ← index chunks idx;
        let chunk_texto := Chunk.texto c in
        ranking similaridades chunks resto
          (resultados ++
             [ {| Resultado.chunk := c;
                  Resultado.similaridade := s;
                  Resultado.texto := chunk_texto;
                  Resultado.fonte := Some (fonte_documento chunk_texto idx) |} ])
      else ranking similaridades chunks resto resultados
  end.

Definition palavras_habilidade : list str :=
  [ py "habilidade"; py "competência"; py "capacidade"; py "componente";
    py "relação"; py "vinculação"; py "conexão"; py "descrição";
    py "caracterização"; py "específica"; py "geral"; py "essencial";
    py "dcrc"; py "documento curricular"; py "bncc";
    py "base nacional comum curricular" ].

(** [any(palavra in texto for palavra in palavras)] *)
Definition alguma_palavra (palavras : list str) (texto : str) : bool :=
  existsb (fun palavra => contains palavra texto) palavras.

(** Provenance of a chunk of the topic pass. *)
Definition fonte_habilidade (chunk_texto : str) (i : nat) : str :=
  if contains (py "BNCC") chunk_texto
     || contains (py "Base Nacional Comum Curricular") chunk_texto then py "BNCC"
  else if contains (py "DCRC") chunk_texto
          || contains (py "Documento Curricular Referencial") chunk_texto then py "DCRC"
  else fonte_paridade i.

(** [any(r['chunk']['indice'] == chunk['indice'] for r in resultados)] *)
Definition ja_presente (resultados : list Resultado.t) (chunk : Chunk.t) : bool :=
  existsb (fun r => Chunk.indice (Resultado.chunk r) =? Chunk.indice chunk) resultados.

(** The topic pass: [for i, chunk in enumerate(chunks)] from position [i],
    left by [break] once [top_k * 2] results are reached. *)
Fixpoint busca_habilidades (top_k : Z) (i : nat) (chunks : list Chunk.t)
    (resultados : list Resultado.t) : list Resultado.t :=
  match chunks with
  | [] => resultados
  | chunk :: resto =>
      let texto_chunk := lower (Chunk.texto chunk) in
      if alguma_palavra palavras_habilidade texto_chunk
         && negb (ja_presente resultados chunk) then
        let resultados :=
          resultados ++
            [ {| Resultado.chunk := chunk;
                 Resultado.similaridade := sim_habilidade;
                 Resultado.texto := Chunk.texto chunk;
                 Resultado.fonte :=
                   Some (fonte_habilidade (Chunk.texto chunk) i) |} ] in
        if top_k * 2 <=? len resultados then resultados
        else busca_habilidades top_k (S i) resto resultados
      else busca_habilidades top_k (S i) resto resultados
  end.

(** The keyword pass, left by [break] once [top_k] results are reached. *)
Fixpoint busca_palavras_chave (top_k : Z) (palavras_chave : list str)
    (chunks : list Chunk.t) (resultados : list Resultado.t) : list Resultado.t :=
  match chunks with
  | [] => resultados
  | chunk :: resto =>
      let texto_chunk := lower (Chunk.texto chunk) in
      if alguma_palavra palavras_chave texto_chunk then
        let resultados :=
          resultados ++
            [ {| Resultado.chunk := chunk;
                 Resultado.similaridade := sim_palavra_chave;
                 Resultado.texto := Chunk.texto chunk;
                 Resultado.fonte := None |} ] in
        if top_k <=? len resultados then resultados
        else busca_palavras_chave top_k palavras_chave resto resultados
      else busca_palavras_chave top_k palavras_chave resto resultados
  end.

(** [np.argsort(similaridades)[::-1][:top_k]] *)
Definition top_indices (similaridades : list Q) (top_k : Z) : list nat :=
  slice_to (rev (argsort similaridades)) top_k.

(** The three passes over a loaded index, given the similarity scores. *)
Definition passes (consulta : str) (chunks : list Chunk.t)
    (similaridades : list Q) (top_k : Z) : result (list Resultado.t) :=
  resultados ← ranking similaridades chunks (top_indices similaridades top_k) [];
  let resultados :=
    if consulta_habilidade consulta
    then busca_habilidades top_k 0 chunks resultados
    else resultados in
  let resultados :=
    if negb (truthy resultados)
    then busca_palavras_chave top_k (split (lower consulta)) chunks resultados
    else resultados in
  mret resultados.

Definition buscar_informacoes_relevantes (consulta : str)
    (dados_rag : option DadosRag.t) (top_k : Z) : result (list Resultado.t) :=
  try_except
    (match dados_rag ≫= DadosRag.indice_similaridade with
     | None => mret []
     | Some indice =>
         let vectorizer := Indice.vectorizer indice in
         let tfidf_matrix := Indice.tfidf_matrix indice in
         let chunks := Indice.chunks indice in
         consulta_vector ← transform vectorizer [consulta_expandida consulta];
         linhas ← cosine_similarity consulta_vector tfidf_matrix;
         let similaridades := concat linhas in
         passes consulta chunks similaridades top_k
     end)
    (fun _ => mret []).

End Retrieval.

(* ===================================================================== *)
(** ** A small executable library *)
(* ===================================================================== *)

(** An executable member of [Lib], used to run the program on concrete
    corpora. It follows the libraries on text in Latin-1 with ASCII
    digits:
    - [lower] lowers A-Z and the Latin-1 capitals;
    - [findall] scans for the matches of [padrao_tabela];
    - [finditer] matches a parenthesised alternation of literals that may
      contain [.*], ignoring case, as [re] does on such patterns;
    - the vectorizer tokenises as [TfidfVectorizer] does by default (lower
      case, tokens of two or more word characters, unigrams and bigrams)
      and raises ValueError on an empty vocabulary; the vocabulary is not
      capped, and in place of the TF-IDF cosine the similarity of two
      documents is the Jaccard index of their term sets, which like the
      cosine is 0 exactly when they share no vocabulary term; on the
      corpora and queries evaluated in this file the query and each chunk
      have either no common term or the same terms with the same counts,
      where the Jaccard index is 0, respectively 1, and so is the exact
      cosine; the float the library returns in the second case can be
      one unit in the last place above 1 (see [Binary64]), and on other
      inputs the two scores differ;
    - [argsort] is a stable insertion sort. The default sort of NumPy is
      not stable: on equal values it can return the positions in another
      order. On the arrays of two equal values evaluated in this file it
      returns them as this one does, in increasing order. *)
Module SmallLib.

Definition lower_char (c : N) : N :=
  if ((65 <=? c) && (c <=? 90)
      || (192 <=? c) && (c <=? 222) && negb (c =? 215))%N
  then (c + 32)%N else c.

Definition lower (s : str) : str := map lower_char s.

Definition isdigit (c : N) : bool := ((48 <=? c) && (c <=? 57))%N.

(** The longest prefix of [s] whose characters satisfy [p], and the rest. *)
Fixpoint span (p : N -> bool) (s : str) : str * str :=
  match s with
  | [] => ([], [])
  | c :: s' =>
      if p c then let '(a, b) := span p s' in (c :: a, b) else ([], s)
  end.

(** [(?:\.\d+)?] at the head of [s]. *)
Definition fracao (s : str) : str * str :=
  match s with
  | c :: s' =>
      if (c =? 46)%N then
        match span isdigit s' with
        | ([], _) => ([], s)
        | (ds, r) => (c :: ds, r)
        end
      else ([], s)
  | [] => ([], s)
  end.

(** [\d+(?:\.\d+)?] at the head of [s]. *)
Definition numero (s : str) : option (str * str) :=
  match span isdigit s with
  | ([], _) => None
  | (ds, r) => let '(f, r') := fracao r in Some (ds ++ f, r')
  end.

(** [(?:\s+\d+(?:\.\d+)?)*] at the head of [s]. *)
Fixpoint repeticoes (fuel : nat) (s : str) : str * str :=
  match fuel with
  | O => ([], s)
  | S fuel' =>
      match span isspace s with
      | ([], _) => ([], s)
      | (ws, r) =>
          match numero r with
          | None => ([], s)
          | Some (n, r') =>
              let '(m, r'') := repeticoes fuel' r' in (ws ++ n ++ m, r'')
          end
      end
  end.

Fixpoint findall_go (fuel : nat) (s : str) : list str :=
  match fuel with
  | O => []
  | S fuel' =>
      match s with
      | [] => []
      | _ :: s' =>
          match numero s with
          | None => findall_go fuel' s'
          | Some (n, r) =>
              let '(m, r') := repeticoes (length r) r in
              (n ++ m) :: findall_go fuel' r'
          end
      end
  end.

Definition findall (padrao s : str) : list str := findall_go (length s) s.

(** Literal match ignoring case. *)
Fixpoint startswith_ci (s p : str) : bool :=
  match p, s with
  | [], _ => true
  | _ :: _, [] => false
  | x :: p', y :: s' => (lower_char x =? lower_char y)%N && startswith_ci s' p'
  end.

(** The pieces of an alternative between its [.*]. *)
Definition segmentos (alt : str) : list str := split_sep alt (py ".*").

(** The alternatives of [(a|b|c)]. *)
Definition alternativas (padrao : str) : list (list str) :=
  match padrao with
  | _ :: p => map segmentos (split_sep (take (length p - 1) p) (py "|"))
  | [] => []
  end.

(** Characters [.*] can take at the head of [s]: up to the line end. *)
Definition ate_fim_de_linha (s : str) : nat :=
  length (fst (span (fun c => negb (c =? 10)%N) s)).

(** The segments matched at the head of [s], a greedy [.*] between two
    of them: the length of the match. *)
Fixpoint casa_segmentos (segs : list str) (s : str) : option nat :=
  match segs with
  | [] => Some O
  | seg :: segs' =>
      if startswith_ci s seg then
        let r := drop (length seg) s in
        match segs' with
        | [] => Some (length seg)
        | _ =>
            (fix recua (k : nat) : option nat :=
               match casa_segmentos segs' (drop k r) with
               | Some n => Some (length seg + k + n)%nat
               | None => match k with O => None | S k' => recua k' end
               end) (ate_fim_de_linha r)
        end
      else None
  end.

Fixpoint casa_alternativas (alts : list (list str)) (s : str) : option nat :=
  match alts with
  | [] => None
  | segs :: alts' =>
      match casa_segmentos segs s with
      | Some n => Some n
      | None => casa_alternativas alts' s
      end
  end.

(** Scan of [s], whose head is at position [pos]; [skip] characters of
    the last match are still to be passed over. *)
Fixpoint finditer_go (alts : list (list str)) (skip pos : nat) (s : str)
    : list (Z * Z) :=
  match s with
  | [] => []
  | _ :: s' =>
      match skip with
      | S k => finditer_go alts k (S pos) s'
      | O =>
          match casa_alternativas alts s with
          | Some (S n) =>
              (Z.of_nat pos, Z.of_nat (pos + S n)) :: finditer_go alts n (S pos) s'
          | _ => finditer_go alts 0 (S pos) s'
          end
      end
  end.

Definition finditer (padrao s : str) : list (Z * Z) :=
  finditer_go (alternativas padrao) 0 0 s.

(** Word characters of [\w] in Latin-1. *)
Definition isword (c : N) : bool :=
  ((48 <=? c) && (c <=? 57) || (65 <=? c) && (c <=? 90) || (c =? 95)
   || (97 <=? c) && (c <=? 122)
   || (c =? 170) || (c =? 178) || (c =? 179) || (c =? 181)
   || (c =? 185) || (c =? 186) || (188 <=? c) && (c <=? 190)
   || (192 <=? c) && (c <=? 255) && negb (c =? 215) && negb (c =? 247))%N.

(** The matches of [\b\w\w+\b]; [w] is the run of word characters being
    read, most recent first. *)
Fixpoint tokens_go (w : str) (s : str) : list str :=
  let fecha (k : list str) :=
    match w with
    | _ :: _ :: _ => rev w :: k
    | _ => k
    end in
  match s with
  | [] => fecha []
  | c :: s' => if isword c then tokens_go (c :: w) s' else fecha (tokens_go [] s')
  end.

Definition tokens (doc : str) : list str := tokens_go [] (lower doc).

Fixpoint bigramas (ts : list str) : list str :=
  match ts with
  | a :: (b :: _) as r => (a ++ espaco ++ b) :: bigramas r
  | _ => []
  end.

(** The terms of a document for [ngram_range=(1, 2)]. *)
Definition termos (doc : str) : list str :=
  let ts := tokens doc in ts ++ bigramas ts.

Definition fit_transform (textos : list str) : result (list str * list (list str)) :=
  let vocabulario := remove_dups (concat (map termos textos)) in
  if truthy vocabulario
  then Ok (vocabulario, map (fun d => remove_dups (termos d)) textos)
  else Raise ValueError.

Definition transform (vocabulario : list str) (docs : list str)
    : result (list (list str)) :=
  Ok (map (fun d => remove_dups (filter (fun t => t ∈ vocabulario) (termos d))) docs).

Definition jaccard (x y : list str) : Q :=
  let u := remove_dups (x ++ y) in
  match length u with
  | O => 0
  | S _ =>
      Z.of_nat (length (filter (fun t => t ∈ x ∧ t ∈ y) u)) # Pos.of_nat (length u)
  end.

Definition cosine_similarity (X Y : list (list str)) : result (list (list Q)) :=
  Ok (map (fun x => map (jaccard x) Y) X).

(** Insertion of [(v, i)] before the first entry whose value is not
    smaller. *)
Fixpoint insere (x : Q * nat) (l : list (Q * nat)) : list (Q * nat) :=
  match l with
  | [] => [x]
  | y :: l' =>
      if Qgtb (fst x) (fst y) then y :: insere x l' else x :: l
  end.

Fixpoint ordena (l : list (Q * nat)) : list (Q * nat) :=
  match l with
  | [] => []
  | x :: l' => insere x (ordena l')
  end.

Definition argsort (a : list Q) : list nat :=
  map snd (ordena (combine a (seq 0 (length a)))).

(** Order of the entries [(value, position)] of a stable ascending sort. *)
Definition antes (x y : Q * nat) : Prop :=
  (fst x <= fst y)%Q /\ ((fst x == fst y)%Q -> (snd x < snd y)%nat).

#[export] Instance lib : Lib :=
  Build_Lib lower findall finditer (list str) (list (list str))
    fit_transform transform cosine_similarity argsort.

End SmallLib.

(* ===================================================================== *)
(** ** Vocabulary of the properties *)
(* ===================================================================== *)

(** A word as [split] produces it: not empty, without whitespace. *)
Definition palavra (w : str) : Prop :=
  w <> [] /\ Forall (fun c => isspace c = false) w.

(** The word positions of the corpus a chunk covers end here. *)
Definition posicao_final (c : Chunk.t) : Z :=
  Chunk.posicao_inicial c + len (split (Chunk.texto c)).

(** Number of word positions of the corpus that two chunks both cover. *)
Definition palavras_comuns (c1 c2 : Chunk.t) : Z :=
  Z.max 0 (Z.min (posicao_final c1) (posicao_final c2)
           - Z.max (Chunk.posicao_inicial c1) (Chunk.posicao_inicial c2)).

(** The chunk the loop of [dividir_em_chunks] emits for its [k]-th
    position when the stride is [passo]. *)
Definition janela (palavras : list str) (tamanho_chunk passo : Z) (k : nat)
    : Chunk.t :=
  {| Chunk.texto :=
       join espaco (slice palavras (Z.of_nat k * passo)
                      (Z.of_nat k * passo + tamanho_chunk));
     Chunk.indice := Z.of_nat k;
     Chunk.posicao_inicial := Z.of_nat k * passo |}.

(** Number of positions [0, passo, 2 passo, ...] below [n]. *)
Definition n_janelas (n passo : Z) : nat := Z.to_nat ((n + passo - 1) / passo).

(** What the loop emits for a section with at least one match. *)
Definition candidata `{Lib} (secao : str) (t : Tabela.t) : Prop :=
  findall padrao_tabela secao <> []
  /\ Tabela.dados_numericos t = take 10 (findall padrao_tabela secao)
  /\ Tabela.conteudo t
     = py "Dados numéricos encontrados: "
       ++ join (py ", ") (take 10 (findall padrao_tabela secao))
  /\ Tabela.secao t
     = if 200 <? len secao then take 200 secao ++ py "..." else secao.

(** A section of 201 characters that holds one number. *)
Definition secao_201 : str := py "7" ++ repeat 120%N 200.

(** A session whose index is built from the chunks of [texto] for the
    given chunk size and overlap. *)
Definition carregar `{Lib} (texto : str) (tamanho_chunk sobreposicao : Z)
    : option DadosRag.t :=
  match dividir_em_chunks texto tamanho_chunk sobreposicao with
  | Ok chunks =>
      match criar_indice_similaridade chunks with
      | Ok indice =>
          Some {| DadosRag.chunks := chunks;
                  DadosRag.tabelas := [];
                  DadosRag.secoes_importantes := ∅;
                  DadosRag.indice_similaridade := indice;
                  DadosRag.texto_completo := texto |}
      | Raise _ => None
      end
  | Raise _ => None
  end.

(** The score at position [idx] exceeds the threshold. *)
Definition acima_do_limiar (similaridades : list Q) (idx : nat) : bool :=
  match similaridades !! idx with
  | Some s => Qgtb s limiar
  | None => false
  end.

(** A result and the position of its chunk in the index. *)
Definition resultado_de (similaridades : list Q) (chunks : list Chunk.t)
    (idx : nat) (r : Resultado.t) : Prop :=
  chunks !! idx = Some (Resultado.chunk r)
  /\ similaridades !! idx = Some (Resultado.similaridade r).

(** One of the two source labels. *)
Definition rotulo (f : option str) : Prop :=
  f = Some (py "BNCC") \/ f = Some (py "DCRC").

(** What the ranking pass appends for the position [idx]. *)
Definition do_ranking `{Lib} (similaridades : list Q) (chunks : list Chunk.t)
    (idx : nat) (r : Resultado.t) : Prop :=
  resultado_de similaridades chunks idx r
  /\ (limiar < Resultado.similaridade r)%Q
  /\ Resultado.texto r = Chunk.texto (Resultado.chunk r)
  /\ Resultado.fonte r
     = Some (fonte_documento (Chunk.texto (Resultado.chunk r)) idx).

(** Two chunks with the same text, and the results the ranking pass
    gives for them. *)
Definition corpus_par : str := py "spaece dcrc bncc spaece dcrc bncc".

Definition chunk_par (k : nat) : Chunk.t :=
  {| Chunk.texto := py "spaece dcrc bncc";
     Chunk.indice := Z.of_nat k;
     Chunk.posicao_inicial := 3 * Z.of_nat k |}.

Definition resultado_par (k : nat) : Resultado.t :=
  {| Resultado.chunk := chunk_par k;
     Resultado.similaridade := 5 # 5;
     Resultado.texto := py "spaece dcrc bncc";
     Resultado.fonte := Some (py "DCRC") |}.

(* ===================================================================== *)
(** ** Comparison context built from the sections *)
(* ===================================================================== *)

(** The line break ['\n']. *)
Definition nl : str := [10%N].

(** A text given line by line. *)
Definition linhas (ls : list str) : str := join nl ls.

(** The decimal digits of [n], most significant first, before [acc]. *)
Fixpoint digitos (fuel : nat) (n : N) (acc : str) : str :=
  match fuel with
  | O => acc
  | S fuel' =>
      let acc' := (48 + n mod 10)%N :: acc in
      if (n <? 10)%N then acc' else digitos fuel' (n / 10) acc'
  end.

(** [str(z)] for an [int]. *)
Definition str_int (z : Z) : str :=
  if z <? 0 then 45%N :: digitos (S (N.size_nat (Z.to_N (- z)))) (Z.to_N (- z)) []
  else digitos (S (N.size_nat (Z.to_N z))) (Z.to_N z) [].

(** ["BNCC" if "BNCC" in comp or "Base Nacional Comum Curricular" in comp
    else "DCRC"] *)
Definition fonte_secao (comp : str) : str :=
  if contains (py "BNCC") comp
     || contains (py "Base Nacional Comum Curricular") comp
  then py "BNCC" else py "DCRC".

(** [f"{i}. [{fonte}] {comp[:400]}...\n\n"] *)
Definition item_comparacao (i : Z) (comp : str) : str :=
  str_int i ++ py ". [" ++ fonte_secao comp ++ py "] "
  ++ slice_to comp 400 ++ py "..." ++ nl ++ nl.

(** The text added by [for i, comp in enumerate(lista[:n], 1)]. *)
Definition itens_comparacao (lista : list str) (n : Z) : str :=
  concat (imap (fun k comp => item_comparacao (Z.of_nat k + 1) comp)
            (slice_to lista n)).

Definition cabecalho_comparacao : str :=
  nl ++ nl
  ++ py "===== ANÁLISE DE HABILIDADES COM BASE NAS RELAÇÕES E COMPETÊNCIAS BNCC/DCRC ====="
  ++ nl.

Definition titulo_competencias : str :=
  nl ++ py "🎯 COMPETÊNCIAS ESPECÍFICAS IDENTIFICADAS NOS DOCUMENTOS BNCC/DCRC:" ++ nl.

Definition titulo_descricoes : str :=
  nl ++ py "📝 DESCRIÇÕES DE HABILIDADES ENCONTRADAS NOS DOCUMENTOS BNCC/DCRC:" ++ nl.

Definition titulo_relacoes : str :=
  nl ++ py "🔗 RELAÇÕES ENTRE HABILIDADES IDENTIFICADAS NOS DOCUMENTOS BNCC/DCRC:" ++ nl.

Definition instrucoes_comparacao : str :=
  linhas
    [ py "";
      py "🔧 INSTRUÇÕES OBRIGATÓRIAS PARA ANÁLISE DE HABILIDADES:";
      py "";
      py "1. PROXIMIDADE ENTRE HABILIDADES:";
      py "   - IDENTIFIQUE habilidades que aparecem próximas nos dados";
      py "   - ANALISE se habilidades com desempenho similar estão relacionadas";
      py "   - EXPLIQUE por que certas habilidades têm padrões similares";
      py "   - SUGIRA intervenções que trabalhem habilidades relacionadas juntas";
      py "";
      py "2. RELAÇÃO DENTRO DO PRÓPRIO COMPONENTE:";
      py "   - FOQUE nas habilidades que pertencem ao mesmo componente";
      py "   - IDENTIFIQUE hierarquias dentro do componente";
      py "   - ANALISE dependências entre habilidades do mesmo componente";
      py "   - SUGIRA sequências de ensino baseadas nas relações internas";
      py "";
      py "3. RELAÇÃO ENTRE COMPONENTES:";
      py "   - MAPEIE como habilidades de diferentes componentes se conectam";
      py "   - IDENTIFIQUE competências que dependem de múltiplos componentes";
      py "   - ANALISE transferências de conhecimento entre componentes";
      py "   - SUGIRA abordagens interdisciplinares baseadas nas relações";
      py "";
      py "4. COMPETÊNCIAS ESPECÍFICAS:";
      py "   - RELACIONE cada habilidade com competências específicas do DCRC";
      py "   - IDENTIFIQUE quais competências são mais críticas";
      py "   - ANALISE lacunas entre habilidades e competências esperadas";
      py "   - SUGIRA desenvolvimento de competências específicas";
      py "";
      py "5. DESCRIÇÕES DAS HABILIDADES:";
      py "   - USE as descrições do DCRC para entender o que cada habilidade envolve";
      py "   - COMPARE descrições com desempenho real nos dados";
      py "   - IDENTIFIQUE habilidades mal compreendidas pelos estudantes";
      py "   - SUGIRA reformulações pedagógicas baseadas nas descrições";
      py "";
      py "6. ANÁLISE INTEGRADA:";
      py "   - COMBINE proximidade, relações e competências na análise";
      py "   - IDENTIFIQUE padrões complexos de desempenho";
      py "   - SUGIRA intervenções sistêmicas baseadas nas relações";
      py "   - MONITORE progresso considerando as interconexões";
      py "" ].

(** [secoes.get(chave, [])] *)
Definition secao_ou_vazia (secoes : gmap str (list str)) (chave : str) : list str :=
  default [] (secoes !! chave).

(** The text built from the three lists of section windows. *)
Definition texto_comparacao (competencias_especificas descricoes_habilidades
    relacoes_habilidades : list str) : str :=
  if truthy competencias_especificas || truthy descricoes_habilidades then
    cabecalho_comparacao
    ++ (if truthy competencias_especificas
        then titulo_competencias ++ itens_comparacao competencias_especificas 3
        else [])
    ++ (if truthy descricoes_habilidades
        then titulo_descricoes ++ itens_comparacao descricoes_habilidades 3
        else [])
    ++ (if truthy relacoes_habilidades
        then titulo_relacoes ++ itens_comparacao relacoes_habilidades 2
        else [])
    ++ instrucoes_comparacao
  else [].

Definition comparar_habilidades_competencias `{Lib}
    (dados_rag : option DadosRag.t) (nome_habilidade : str) : result str :=
  try_except
    (match dados_rag with
     | None => mret []
     | Some d =>
         let secoes := DadosRag.secoes_importantes d in
         if bool_decide (secoes = ∅) then mret []
         else
           mret (texto_comparacao
                   (secao_ou_vazia secoes (py "dcrc_competencias_especificas"))
                   (secao_ou_vazia secoes (py "dcrc_descricoes_habilidades"))
                   (secao_ou_vazia secoes (py "dcrc_relacoes_habilidades")))
     end)
    (fun _ => mret []).

(* ===================================================================== *)
(** ** Assessment data: hierarchy codes and substitutions *)
(* ===================================================================== *)

(** A cell of a pandas column: a string, a number or a missing value. *)
Inductive Celula : Type :=
| Texto (s : str)
| Numero (x : Q)
| Nulo.

Module DataFrame.
(** The columns of a frame by name, and its number of rows. *)
Record t : Type := mk
  { n_linhas : nat;
    colunas : gmap str (list Celula) }.
End DataFrame.

(** [df.empty]: no row or no column. *)
Definition df_empty (df : DataFrame.t) : bool :=
  bool_decide (DataFrame.n_linhas df = O)
  || bool_decide (DataFrame.colunas df = ∅).

(** Order of [str]: by code point, position by position. *)
Fixpoint str_leb (a b : str) : bool :=
  match a, b with
  | [], _ => true
  | _ :: _, [] => false
  | x :: a', y :: b' =>
      if (x <? y)%N then true
      else if (x =? y)%N then str_leb a' b' else false
  end.

Definition str_le (a b : str) : Prop := str_leb a b = true.

#[global] Instance str_le_dec (a b : str) : Decision (str_le a b).
Proof. unfold str_le. apply _. Defined.

(** [sorted(xs)] on strings. *)
Definition sorted (xs : list str) : list str := merge_sort str_le xs.

(** [[cod.strip() for cod in valor.split('/') if cod.strip()]] *)
Definition codigos_de (valor : str) : list str :=
  List.filter truthy (map strip (split_sep valor (py "/"))).

(** The body of the loop over [df['DC_HIERARQUIA'].dropna()]. *)
Definition agregados_passo (agregados : gset str) (valor : Celula) : gset str :=
  match valor with
  | Texto s => agregados ∪ list_to_set (codigos_de s)
  | _ => agregados
  end.

(** [serie.dropna()] *)
Definition dropna (serie : list Celula) : list Celula :=
  List.filter (fun c => match c with Nulo => false | _ => true end) serie.

Definition extrair_agregados_hierarquia (df : DataFrame.t) : list str :=
  match DataFrame.colunas df !! py "DC_HIERARQUIA" with
  | None => []
  | Some serie =>
      sorted (elements (fold_left agregados_passo (dropna serie) ∅))
  end.

(** [d.get(k)] for a dictionary literal. *)
Fixpoint procurar (tabela : list (str * str)) (k : str) : option str :=
  match tabela with
  | [] => None
  | (k', v) :: resto => if bool_decide (k' = k) then Some v else procurar resto k
  end.

(** [serie.replace(tabela)] on one cell. *)
Definition substituir (tabela : list (str * str)) (c : Celula) : Celula :=
  match c with
  | Texto s =>
      match procurar tabela s with
      | Some v => Texto v
      | None => c
      end
  | _ => c
  end.

(** [if col in df.columns: df[col] = df[col].replace(tabela)] *)
Definition substituir_coluna (col : str) (tabela : list (str * str))
    (df : DataFrame.t) : DataFrame.t :=
  match DataFrame.colunas df !! col with
  | Some serie =>
      {| DataFrame.n_linhas := DataFrame.n_linhas df;
         DataFrame.colunas :=
           <[col := map (substituir tabela) serie]> (DataFrame.colunas df) |}
  | None => df
  end.

Definition subst_disciplina : list (str * str) :=
  [ (py "LP", py "Língua Portuguesa");
    (py "MT", py "Matemática") ].

Definition subst_rede : list (str * str) :=
  [ (py "ESTADUAL", py "Estadual");
    (py "MUNICIPAL", py "Municipal");
    (py "PUBLICA", py "Pública");
    (py "PÚBLICA", py "Pública") ].

Definition subst_etapa : list (str * str) :=
  [ (py "ENSINO FUNDAMENTAL DE 9 ANOS - 2º ANO", py "2º Ano - Fundamental");
    (py "ENSINO FUNDAMENTAL DE 9 ANOS - 5º ANO", py "5º Ano - Fundamental");
    (py "ENSINO FUNDAMENTAL DE 9 ANOS - 9º ANO", py "9º Ano - Fundamental");
    (py "ENSINO MEDIO - 3ª SERIE", py "3ª Série - Médio");
    (py "EJA DO ENSINO MEDIO - 3ª SÉRIE", py "3ª Série - Médio EJA");
    (py "ENSINO MEDIO - 2ª SERIE", py "2ª Série - Médio") ].

Definition subst_tipo_entidade : list (str * str) :=
  [ (py "ESTADO", py "Ceará");
    (py "REGIONAL", py "CREDE");
    (py "MUNICIPIO", py "Município");
    (py "ESCOLA", py "Escola") ].

(** The four replacements, in the order of the source. *)
Definition substituicoes : list (str * list (str * str)) :=
  [ (py "VL_FILTRO_DISCIPLINA", subst_disciplina);
    (py "VL_FILTRO_REDE", subst_rede);
    (py "VL_FILTRO_ETAPA", subst_etapa);
    (py "DC_TIPO_ENTIDADE", subst_tipo_entidade) ].

Definition aplicar_substituicoes (df : option DataFrame.t) : option DataFrame.t :=
  match df with
  | None => None
  | Some d =>
      if df_empty d then Some d
      else
        Some (substituir_coluna (py "DC_TIPO_ENTIDADE") subst_tipo_entidade
                (substituir_coluna (py "VL_FILTRO_ETAPA") subst_etapa
                   (substituir_coluna (py "VL_FILTRO_REDE") subst_rede
                      (substituir_coluna (py "VL_FILTRO_DISCIPLINA")
                         subst_disciplina d))))
  end.

(* ===================================================================== *)
(** ** Request to the assessment portal *)
(* ===================================================================== *)

(** What [config_api.py] takes from its environment: the indicator list of
    [gerar_todos_indicadores("Estadual")], the type of a filter, and the
    outcome of [st.secrets.get("api", {})]. *)
Class Config : Type :=
  { Indicadores : Type;
    INDICADORES : Indicadores;
    Filtro : Type;
    secrets_api : result (gmap str str) }.

Module AppConfig.
Record t : Type := mk
  { _ApplicationId : str;
    _ClientVersion : str;
    _InstallationId : str;
    _SessionToken : str }.
End AppConfig.

Definition get_app_config `{Config} : AppConfig.t :=
  match secrets_api with
  | Ok secrets =>
      let session_token :=
        default (py "r:2aaf6c70b36f2f3ba29b35a5f021ab2c") (secrets !! py "session_token") in
      let installation_id :=
        default (py "a0cfb234-b326-4ceb-aa2b-813625851c54") (secrets !! py "installation_id") in
      {| AppConfig._ApplicationId := py "portal";
         AppConfig._ClientVersion := py "js2.19.0";
         AppConfig._InstallationId := installation_id;
         AppConfig._SessionToken := session_token |}
  | Raise _ =>
      {| AppConfig._ApplicationId := py "portal";
         AppConfig._ClientVersion := py "js2.19.0";
         AppConfig._InstallationId := py "a0cfb234-b326-4ceb-aa2b-813625851c54";
         AppConfig._SessionToken := py "r:2aaf6c70b36f2f3ba29b35a5f021ab2c" |}
  end.

Definition APP_CONFIG `{Config} : AppConfig.t := get_app_config.

Module Payload.
(** The request body. The four entries of [**APP_CONFIG] are the field
    [app_config]. *)
Record t `{Config} : Type := mk
  { CD_INDICADOR : Indicadores;
    agregado : str;
    filtros : list Filtro;
    filtrosAdicionais : list Filtro;
    nivelAbaixo : str;
    ordenacao : option str;
    collectionResultado : option str;
    CD_INDICADOR_LABEL : list str;
    TP_ENTIDADE_LABEL : str;
    app_config : AppConfig.t }.
End Payload.

Definition criar_payload `{Config} (indicadores : option Indicadores)
    (agregado : str) (filtros filtros_adicionais : option (list Filtro))
    (nivel_abaixo : str) : Payload.t :=
  let indicadores := default INDICADORES indicadores in
  let filtros := default [] filtros in
  let filtros_adicionais := default [] filtros_adicionais in
  {| Payload.CD_INDICADOR := indicadores;
     Payload.agregado := agregado;
     Payload.filtros := filtros;
     Payload.filtrosAdicionais := filtros_adicionais;
     Payload.nivelAbaixo := nivel_abaixo;
     Payload.ordenacao := None;
     Payload.collectionResultado := None;
     Payload.CD_INDICADOR_LABEL := [];
     Payload.TP_ENTIDADE_LABEL := py "01";
     Payload.app_config := APP_CONFIG |}.

(** An exception of the request, by the first [except] clause of
    [consultar_api] that catches it. *)
Inductive ReqExn : Type :=
| Timeout
| ConnectionError
| HTTPError (status_code : Z) (reason : str)
| RequestException (msg : str)
| JSONDecodeError
| Inesperado (msg : str).

(** The portal as [consultar_api] sees it in one call: the outcome of
    [requests.post], of [response.raise_for_status()] and of
    [response.json()], and the truth value of the decoded data. *)
Class Rede `{Config} : Type :=
  { Resposta : Type;
    Json : Type;
    requests_post : Payload.t -> ReqExn + Resposta;
    raise_for_status : Resposta -> option ReqExn;
    response_json : Resposta -> ReqExn + Json;
    json_truthy : Json -> bool }.

(** What a call does besides returning: messages on the page and requests
    sent, in order. *)
Inductive Evento `{Config} : Type :=
| StError (msg : str)
| StWarning (msg : str)
| Post (payload : Payload.t).

(** The message of the [except] clause that catches [e]. *)
Definition mensagem_erro (agregado : str) (e : ReqExn) : str :=
  match e with
  | Timeout => py "⏱️ Timeout ao consultar agregado " ++ agregado ++ py ". Tente novamente."
  | ConnectionError => py "🌐 Erro de conexão. Verifique sua internet."
  | HTTPError status_code reason =>
      py "❌ Erro HTTP " ++ str_int status_code ++ py ": " ++ reason
  | RequestException msg => py "❌ Erro na requisição: " ++ msg
  | JSONDecodeError => py "❌ Erro ao decodificar resposta da API"
  | Inesperado msg => py "❌ Erro inesperado: " ++ msg
  end.

Definition consultar_api `{Rede} (agregado : str)
    : option Json * list Evento :=
  if negb (truthy agregado) || negb (truthy (strip agregado)) then
    (None, [StError (py "❌ Código da Entidade não pode estar vazio")])
  else
    let payload :=
      criar_payload (Some INDICADORES) (strip agregado) (Some []) None (py "0") in
    match requests_post payload with
    | inl e => (None, [Post payload; StError (mensagem_erro agregado e)])
    | inr response =>
        match raise_for_status response with
        | Some e => (None, [Post payload; StError (mensagem_erro agregado e)])
        | None =>
            match response_json response with
            | inl e => (None, [Post payload; StError (mensagem_erro agregado e)])
            | inr data =>
                if json_truthy data then (Some data, [Post payload])
                else (None, [Post payload;
                             StWarning (py "⚠️ Nenhum dado retornado para o agregado " ++ agregado)])
            end
        end
    end.

(** The hierarchy codes the page goes on to query:
    [agregados_hierarquia = []] and, [if len(agregado) > 2],
    [[ag for ag in extrair_agregados_hierarquia(df) if ag != agregado]]. *)
Definition agregados_a_consultar (df : DataFrame.t) (agregado : str) : list str :=
  if 2 <? len agregado then
    List.filter (fun ag => negb (bool_decide (ag = agregado)))
      (extrair_agregados_hierarquia df)
  else [].

(* ===================================================================== *)
(** ** Vocabulary of the further properties *)
(* ===================================================================== *)

(** The entry the keyword pass appends for a chunk. *)
Definition resultado_palavra_chave (chunk : Chunk.t) : Resultado.t :=
  {| Resultado.chunk := chunk;
     Resultado.similaridade := sim_palavra_chave;
     Resultado.texto := Chunk.texto chunk;
     Resultado.fonte := None |}.

(** The test of the keyword pass on a chunk. *)
Definition casa_consulta `{Lib} (consulta : str) (chunk : Chunk.t) : bool :=
  alguma_palavra (split (lower consulta)) (lower (Chunk.texto chunk)).

(** The test of the topic pass on the text of a chunk. *)
Definition casa_habilidade `{Lib} (chunk : Chunk.t) : bool :=
  alguma_palavra palavras_habilidade (lower (Chunk.texto chunk)).

(** [r['chunk']['indice']] *)
Definition indice_do_resultado (r : Resultado.t) : Z :=
  Chunk.indice (Resultado.chunk r).

(** The entry the topic pass appends for the chunk at position [i]. *)
Definition resultado_habilidade `{Lib} (chunk : Chunk.t) (i : nat) : Resultado.t :=
  {| Resultado.chunk := chunk;
     Resultado.similaridade := sim_habilidade;
     Resultado.texto := Chunk.texto chunk;
     Resultado.fonte := Some (fonte_habilidade (Chunk.texto chunk) i) |}.

(** A corpus of two chunks of three words: the first has the terms
    'spaece dcrc bncc' of every expanded query, the second only the topic
    word 'geral', inside 'geralmente'. *)
Definition corpus_topico : str := py "spaece dcrc bncc zebra geralmente".

Definition sessao_topico : option (DadosRag.t (H := SmallLib.lib)) :=
  carregar (H := SmallLib.lib) corpus_topico 3 0.

Definition indice_topico : Indice.t (H := SmallLib.lib) :=
  Indice.mk SmallLib.lib
    [ py "spaece"; py "dcrc"; py "bncc"; py "spaece dcrc"; py "dcrc bncc";
      py "zebra"; py "geralmente"; py "zebra geralmente" ]
    [ [ py "spaece"; py "dcrc"; py "bncc"; py "spaece dcrc"; py "dcrc bncc" ];
      [ py "zebra"; py "geralmente"; py "zebra geralmente" ] ]
    [ chunk_par 0; Chunk.mk (py "zebra geralmente") 1 3 ].

(** A corpus of one chunk that shares no term with the query 'zebra'. *)
Definition sessao_zebras : option (DadosRag.t (H := SmallLib.lib)) :=
  carregar (H := SmallLib.lib) (py "zebras") 1000 200.

Definition indice_zebras : Indice.t (H := SmallLib.lib) :=
  Indice.mk SmallLib.lib [ py "zebras" ] [ [ py "zebras" ] ]
    [ Chunk.mk (py "zebras") 0 0 ].

(** [s] does not start with whitespace. *)
Definition sem_espaco_inicial (s : str) : Prop :=
  match s with
  | [] => True
  | c :: _ => isspace c = false
  end.

(** A session whose text matches the relation pattern only. *)
Definition texto_relacoes : str := py "relação da habilidade".

Definition sessao_relacoes : DadosRag.t (H := SmallLib.lib) :=
  DadosRag.mk SmallLib.lib [] []
    (extrair_secoes_importantes (H := SmallLib.lib) texto_relacoes) None
    texto_relacoes.

(** The table a column is rewritten with: none for a column that
    [aplicar_substituicoes] leaves alone. *)
Fixpoint tabela_em (tabelas : list (str * list (str * str))) (col : str)
    : list (str * str) :=
  match tabelas with
  | [] => []
  | (c, tabela) :: resto =>
      if bool_decide (c = col) then tabela else tabela_em resto col
  end.

Definition tabela_da_coluna (col : str) : list (str * str) :=
  tabela_em substituicoes col.

(** A portal that answers every request with one record, for a
    configuration without a secrets file. *)
Module PortalTeste.

Definition config : Config :=
  Build_Config (list str) [py "TX_PARTICIPACAO"] str (Raise OtherError).

Definition rede : Rede (H := config) :=
  Build_Rede config Z (list str)
    (fun _ => inr 200) (fun _ => None) (fun _ => inr [py "registro"]) truthy.

End PortalTeste.

(** A frame whose hierarchy column names the state, a regional office
    and a municipality, with a missing and a numeric cell. *)
Definition df_hierarquia : DataFrame.t :=
  {| DataFrame.n_linhas := 4;
     DataFrame.colunas :=
       {[ py "DC_HIERARQUIA" :=
            [ Texto (py "23 / 2301/230101"); Nulo; Numero 1; Texto (py "23/2301") ] ]} |}.

(** The request body [consultar_api] builds for a code. *)
Definition payload_de `{Config} (agregado : str) : Payload.t :=
  {| Payload.CD_INDICADOR := INDICADORES;
     Payload.agregado := agregado;
     Payload.filtros := [];
     Payload.filtrosAdicionais := [];
     Payload.nivelAbaixo := py "0";
     Payload.ordenacao := None;
     Payload.collectionResultado := None;
     Payload.CD_INDICADOR_LABEL := [];
     Payload.TP_ENTIDADE_LABEL := py "01";
     Payload.app_config := APP_CONFIG |}.

(** An event that is a message on the page, not a request. *)
Definition mensagem `{Config} (e : Evento) : Prop :=
  match e with
  | Post _ => False
  | _ => True
  end.

(* ===================================================================== *)
(** ** Learning-path context built from five queries *)
(* ===================================================================== *)

(** [str.upper], a function of the Python runtime. *)
Class Maiusculas : Type :=
  { upper : str -> str }.

(** The double quote character inside a text. *)
Definition aspas : str := [34%N].

Definition consultas_percurso (nome_habilidade : str) : list str :=
  [ py "percurso aprendizado progressão sequência " ++ nome_habilidade;
    py "dependência pré-requisito hierarquia habilidade " ++ nome_habilidade;
    py "relação conexão vinculação habilidade componente " ++ nome_habilidade;
    py "competência específica objetivo aprendizagem " ++ nome_habilidade;
    py "metodologia estratégia ensino habilidade " ++ nome_habilidade ].

Definition cabecalho_percursos : str :=
  nl ++ nl
  ++ py "===== ANÁLISE HIERÁRQUICA DE PERCURSOS DE APRENDIZADO ====="
  ++ nl.

Definition instrucoes_percursos : str :=
  linhas
    [ py "";
      py "🎯 INSTRUÇÕES HIERÁRQUICAS PARA ANÁLISE DE PERCURSOS DE APRENDIZADO:";
      py "";
      py "**ANÁLISE HIERÁRQUICA OBRIGATÓRIA - PERSPECTIVA POR NÍVEL EDUCACIONAL:**";
      py "";
      py "1. MAPEAMENTO HIERÁRQUICO DE DEPENDÊNCIAS:";
      py "   - IDENTIFIQUE EXATAMENTE quais habilidades são pré-requisito para outras conforme BNCC/DCRC";
      py "   - MAPEIE a hierarquia ESPECÍFICA: habilidades básicas → intermediárias → avançadas";
      (py "   - ANALISE habilidades " ++ aspas ++ py "gargalo" ++ aspas ++ py " ESPECÍFICAS que bloqueiam o desenvolvimento de outras");
      py "   - IDENTIFIQUE habilidades que se reforçam mutuamente de forma CONCRETA";
      py "   - SUGIRA sequências de ensino ESPECÍFICAS baseadas nas dependências identificadas";
      py "   - **PERSPECTIVA HIERÁRQUICA**: Considere como a entidade se posiciona em relação aos níveis superiores e inferiores";
      py "";
      py "2. PERCURSOS HIERÁRQUICOS ESTRUTURADOS:";
      py "   - DESENHE percursos de aprendizado ESPECÍFICOS: quais habilidades devem ser desenvolvidas primeiro";
      py "   - MAPEIE pontos de convergência CONCRETOS onde múltiplas habilidades se encontram";
      py "   - IDENTIFIQUE competências ESPECÍFICAS que dependem de múltiplos componentes";
      py "   - ANALISE transferências de conhecimento ESPECÍFICAS entre componentes";
      py "   - SUGIRA abordagens interdisciplinares ESPECÍFICAS baseadas nos percursos";
      py "   - **PERSPECTIVA HIERÁRQUICA**: Considere como a entidade se posiciona em relação aos níveis superiores e inferiores";
      py "";
      py "3. RELAÇÕES HIERÁRQUICAS ENTRE HABILIDADES:";
      py "   - IDENTIFIQUE habilidades que aparecem próximas nos dados ESPECÍFICOS";
      py "   - ANALISE se habilidades com desempenho similar estão relacionadas de forma CONCRETA";
      py "   - EXPLIQUE por que certas habilidades têm padrões similares de forma ESPECÍFICA";
      py "   - MAPEIE como habilidades de diferentes componentes se conectam de forma CONCRETA";
      py "   - SUGIRA intervenções ESPECÍFICAS que trabalhem habilidades relacionadas juntas";
      py "   - **PERSPECTIVA HIERÁRQUICA**: Considere como a entidade se posiciona em relação aos níveis superiores e inferiores";
      py "";
      py "4. COMPETÊNCIAS E OBJETIVOS HIERÁRQUICOS:";
      py "   - RELACIONE cada habilidade com competências específicas do BNCC/DCRC de forma CONCRETA";
      py "   - IDENTIFIQUE objetivos de aprendizagem ESPECÍFICOS para cada habilidade";
      py "   - ANALISE lacunas ESPECÍFICAS entre habilidades e competências esperadas";
      py "   - MAPEIE competências gerais da BNCC desenvolvidas através das habilidades de forma CONCRETA";
      py "   - SUGIRA desenvolvimento de competências ESPECÍFICO baseado nos documentos";
      py "   - **PERSPECTIVA HIERÁRQUICA**: Considere como a entidade se posiciona em relação aos níveis superiores e inferiores";
      py "";
      py "5. METODOLOGIAS E ESTRATÉGIAS HIERÁRQUICAS:";
      py "   - USE metodologias ESPECÍFICAS sugeridas nos documentos BNCC/DCRC para cada habilidade";
      py "   - IDENTIFIQUE recursos e materiais ESPECÍFICOS recomendados nos documentos";
      py "   - MAPEIE estratégias ESPECÍFICAS para desenvolvimento de cada habilidade";
      py "   - SUGIRA reformulações pedagógicas ESPECÍFICAS baseadas nas descrições dos documentos";
      py "   - IDENTIFIQUE práticas de linguagem e campos de experiência ESPECÍFICOS relevantes";
      py "   - **PERSPECTIVA HIERÁRQUICA**: Considere como a entidade se posiciona em relação aos níveis superiores e inferiores";
      py "";
      py "6. INTERVENÇÕES HIERÁRQUICAS SISTÊMICAS:";
      py "   - DESENHE planos de ação ESPECÍFICOS baseados nos percursos de aprendizado identificados";
      py "   - IDENTIFIQUE pontos de intervenção mais eficazes de forma CONCRETA baseado nas dependências";
      py "   - MAPEIE como melhorar uma habilidade impacta outras habilidades de forma ESPECÍFICA";
      py "   - SUGIRA intervenções sistêmicas ESPECÍFICAS baseadas nas relações identificadas";
      py "   - MONITORE progresso considerando as interconexões de forma CONCRETA conforme BNCC/DCRC";
      py "   - **PERSPECTIVA HIERÁRQUICA**: Considere como a entidade se posiciona em relação aos níveis superiores e inferiores";
      py "";
      py "**REFERENCIAMENTO HIERÁRQUICO OBRIGATÓRIO:**";
      (py "- REFERENCIE SEMPRE: " ++ aspas ++ py "Conforme a BNCC" ++ aspas ++ py ", " ++ aspas ++ py "Segundo o DCRC" ++ aspas ++ py ", " ++ aspas ++ py "Baseado nos percursos identificados" ++ aspas);
      py "- CITE competências específicas e objetivos de aprendizagem mencionados nos documentos de forma CONCRETA";
      py "- REFERENCIE metodologias e recursos sugeridos nos documentos de forma ESPECÍFICA";
      py "- IDENTIFIQUE campos de experiência e práticas de linguagem dos documentos de forma CONCRETA";
      py "- DIFERENCIE entre informações dos documentos vs. análises genéricas de forma CLARA";
      py "- SEJA ESPECÍFICO: evite generalizações, foque nos dados específicos da entidade";
      py "- **CITE OBRIGATORIAMENTE BNCC E DCRC**: Sempre que possível, referencie tanto a BNCC quanto o DCRC como fontes principais das metodologias, competências e diretrizes curriculares";
      py "- **PERSPECTIVA HIERÁRQUICA**: Considere como a entidade se posiciona em relação aos níveis superiores e inferiores";
      py "" ].

(** [info.get('fonte', 'Documento')] *)
Definition fonte_ou_documento (info : Resultado.t) : str :=
  default (py "Documento") (Resultado.fonte info).

(** The body of the loop over [informacoes]:
    [contexto_percursos += f"[{fonte}] {info['texto'][:300]}...\n\n"]. *)
Definition trecho_passo (contexto_percursos : str) (info : Resultado.t) : str :=
  let fonte := fonte_ou_documento info in
  contexto_percursos
  ++ py "[" ++ fonte ++ py "] " ++ slice_to (Resultado.texto info) 300
  ++ py "..." ++ nl ++ nl.

Section Percursos.
Context `{Lib} `{Maiusculas}.

(** The loop over [consultas_percurso]. *)
Fixpoint percorre_consultas (dados_rag : option DadosRag.t)
    (consultas : list str) (contexto_percursos : str) : result str :=
  match consultas with
  | [] => mret contexto_percursos
  | consulta :: resto =>
      informacoes ← buscar_informacoes_relevantes consulta dados_rag 3;
      if truthy informacoes then
        let contexto_percursos :=
          contexto_percursos
          ++ nl ++ py "🔍 INFORMAÇÕES SOBRE: " ++ upper consulta ++ nl in
        percorre_consultas dados_rag resto
          (fold_left trecho_passo informacoes contexto_percursos)
      else percorre_consultas dados_rag resto contexto_percursos
  end.

Definition analisar_percursos_aprendizado (dados_rag : option DadosRag.t)
    (nome_habilidade : str) : result str :=
  try_except
    (match dados_rag ≫= DadosRag.indice_similaridade with
     | None => mret []
     | Some _ =>
         contexto_percursos ←
           percorre_consultas dados_rag (consultas_percurso nome_habilidade)
             cabecalho_percursos;
         mret (contexto_percursos ++ instrucoes_percursos)
     end)
    (fun _ => mret []).

End Percursos.

(** The block of one query in the learning-path context. *)
Definition bloco_percurso `{Maiusculas} (consulta : str)
    (informacoes : list Resultado.t) : str :=
  if truthy informacoes then
    nl ++ py "🔍 INFORMAÇÕES SOBRE: " ++ upper consulta ++ nl
    ++ concat (map (trecho_passo []) informacoes)
  else [].

(** [str.upper] on text in Latin-1. *)
Definition upper_char (c : N) : str :=
  if ((97 <=? c) && (c <=? 122))%N then [(c - 32)%N]
  else if (c =? 181)%N then [924%N]
  else if (c =? 223)%N then [83%N; 83%N]
  else if ((224 <=? c) && (c <=? 254) && negb (c =? 247))%N then [(c - 32)%N]
  else if (c =? 255)%N then [376%N]
  else [c].

Definition maiusculas_latin1 : Maiusculas :=
  {| upper := fun s => concat (map upper_char s) |}.

(* ===================================================================== *)
(** ** The library with another sort, and with binary64 scores *)
(* ===================================================================== *)

(** The library with [f] in the place of [np.argsort]. *)
Definition com_argsort (L : Lib) (f : list Q -> list nat) : Lib :=
  Build_Lib (@lower L) (@findall L) (@finditer L) (@Vectorizer L) (@Matrix L)
    (@fit_transform L) (@transform L) (@cosine_similarity L) f.

(** No two positions of [a] hold equal values. *)
Definition sem_empates (a : list Q) : Prop :=
  forall p q : nat, (p < q < length a)%nat -> ~ (valor a p == valor a q)%Q.

(** [s] is one of the cosines the library returns for the expanded query
    against the index of the session. *)
Definition cosseno_da_consulta `{Lib} (consulta : str)
    (dados_rag : option DadosRag.t) (s : Q) : Prop :=
  exists indice cv linhas,
    dados_rag ≫= DadosRag.indice_similaridade = Some indice
    /\ transform (Indice.vectorizer indice) [consulta_expandida consulta] = Ok cv
    /\ cosine_similarity cv (Indice.tfidf_matrix indice) = Ok linhas
    /\ s ∈ concat linhas.

(** A second sort that meets the contract of [np.argsort]: an insertion
    sort that puts a value after the values equal to it, so that the
    positions of equal values come out in decreasing order. *)
Fixpoint insere_apos (x : Q * nat) (l : list (Q * nat)) : list (Q * nat) :=
  match l with
  | [] => [x]
  | y :: l' => if Qgtb (fst y) (fst x) then x :: l else y :: insere_apos x l'
  end.

Fixpoint ordena_apos (l : list (Q * nat)) : list (Q * nat) :=
  match l with
  | [] => []
  | x :: l' => insere_apos x (ordena_apos l')
  end.

Definition argsort_inverso (a : list Q) : list nat :=
  map snd (ordena_apos (combine a (seq 0 (length a)))).

(** [SmallLib] with scores computed in binary64, as scikit-learn computes
    them, in place of the Jaccard index. A document is the row of the
    counts of the vocabulary terms in it, the vocabulary in ascending
    order of its terms; [TfidfVectorizer] divides each row by its
    Euclidean norm, [cosine_similarity] normalises the rows of both
    matrices once more and returns their dot products. Sums run over the
    terms in the order of the vocabulary, and every operation is the
    IEEE 754 binary64 operation, rounded to nearest. A score is the exact
    rational value of the resulting float.

    The inverse document frequency of every term is taken as 1, which is
    what [TfidfVectorizer] computes ([ln((1 + n) / (1 + df)) + 1] with
    [df = n]) when every term occurs in every document of the corpus;
    other corpora are outside this model, as are vocabularies of more than
    1000 terms. *)
Module Binary64.

(** The exact value of a finite float. *)
Definition to_Q (x : PrimFloat.float) : Q :=
  match FloatOps.Prim2SF x with
  | SpecFloat.S754_finite s m e =>
      let n := if s then Z.neg m else Z.pos m in
      match e with
      | Z.neg k => n # (2 ^ k)%positive
      | _ => (n * 2 ^ e) # 1
      end
  | _ => 0%Q
  end.

Definition of_nat (n : nat) : PrimFloat.float :=
  PrimFloat.of_uint63 (Uint63.of_Z (Z.of_nat n)).

(** The number of occurrences of the term [t] among [ts]. *)
Definition contagem (t : str) (ts : list str) : nat :=
  length (List.filter (fun u => bool_decide (u = t)) ts).

Definition soma_quadrados (v : list PrimFloat.float) : PrimFloat.float :=
  fold_left (fun s x => PrimFloat.add s (PrimFloat.mul x x)) v PrimFloat.zero.

(** [normalize(X, norm='l2')] on one row; a row of zeros is left as it
    is. *)
Definition normalize (v : list PrimFloat.float) : list PrimFloat.float :=
  let s := soma_quadrados v in
  if PrimFloat.eqb s PrimFloat.zero then v
  else let n := PrimFloat.sqrt s in map (fun x => PrimFloat.div x n) v.

Definition linha (vocabulario : list str) (doc : str) : list PrimFloat.float :=
  normalize
    (map (fun t => of_nat (contagem t (SmallLib.termos doc))) vocabulario).

Definition fit_transform (textos : list str)
    : result (list str * list (list PrimFloat.float)) :=
  let vocabulario := sorted (remove_dups (concat (map SmallLib.termos textos))) in
  if truthy vocabulario
  then Ok (vocabulario, map (linha vocabulario) textos)
  else Raise ValueError.

Definition transform (vocabulario : list str) (docs : list str)
    : result (list (list PrimFloat.float)) :=
  Ok (map (linha vocabulario) docs).

Definition produto (x y : list PrimFloat.float) : PrimFloat.float :=
  fold_left (fun s '(a, b) => PrimFloat.add s (PrimFloat.mul a b)) (combine x y)
    PrimFloat.zero.

Definition cosine_similarity (X Y : list (list PrimFloat.float))
    : result (list (list Q)) :=
  let Xn := map normalize X in
  let Yn := map normalize Y in
  Ok (map (fun x => map (fun y => to_Q (produto x y)) Yn) Xn).

#[export] Instance lib : Lib :=
  Build_Lib SmallLib.lower SmallLib.findall SmallLib.finditer
    (list str) (list (list PrimFloat.float))
    fit_transform transform cosine_similarity SmallLib.argsort.

(** Every term of the corpus occurs in every document: the corpora on
    which the weights of this model are those of [TfidfVectorizer]. *)
Definition pesos_iguais (textos : list str) : bool :=
  forallb
    (fun t => forallb (fun d => bool_decide (t ∈ SmallLib.termos d)) textos)
    (concat (map SmallLib.termos textos)).

End Binary64.
(* ===================================================================== *)
(** * Properties *)
(* ===================================================================== *)

(** ** Exceptions *)

Lemma try_except_total {A} (body : result A) (d : A) :
  exists a, try_except body (fun _ => Ok d) = Ok a.
Proof. destruct body; simpl; eauto. Qed.

(** ** Sequences *)

Lemma len_nonneg {A} (l : list A) : 0 <= len l.
Proof. unfold len. lia. Qed.

Lemma slice_length {A} (l : list A) (lo hi : Z) :
  0 <= lo -> lo <= hi ->
  len (slice l lo hi) = Z.max 0 (Z.min hi (len l) - lo).
Proof.
  intros Hlo Hhi. unfold slice, clamp_index, len.
  destruct (Z.ltb_spec lo 0); [lia|].
  destruct (Z.ltb_spec hi 0); [lia|].
  rewrite length_take, length_drop. lia.
Qed.

Lemma slice_take_drop {A} (l : list A) (lo hi : Z) :
  0 <= lo -> lo <= hi ->
  slice l lo hi = take (Z.to_nat (hi - lo)) (drop (Z.to_nat lo) l).
Proof.
  intros Hlo Hhi. unfold slice, clamp_index, len.
  destruct (Z.ltb_spec lo 0); [lia|].
  destruct (Z.ltb_spec hi 0); [lia|].
  destruct (Z.le_gt_cases lo (Z.of_nat (length l))) as [Hin|Hout].
  - destruct (Z.le_gt_cases hi (Z.of_nat (length l))).
    + repeat rewrite Z.min_l by lia. reflexivity.
    + rewrite (Z.min_r hi) by lia. rewrite (Z.min_l lo) by lia.
      rewrite !take_ge; [reflexivity | |]; rewrite length_drop; lia.
  - rewrite !drop_ge by lia. by rewrite !take_nil.
Qed.

(** ** The small library on sample inputs *)

Example findall_sample :
  SmallLib.findall padrao_tabela (10%N :: py "a 12.5 7 .3 8. 9 10 x1.2.3")
  = [py "12.5 7"; py "3 8"; py "9 10"; py "1.2"; py "3"].
Proof. vm_compute. reflexivity. Qed.

Example finditer_sample :
  SmallLib.finditer
    (py "(relação.*habilidade|vinculação.*competência|conexão.*componente)")
    (py "A Relação da habilidade com habilidade x" ++ 10%N :: py "habilidade")
  = [(2, 38)].
Proof. vm_compute. reflexivity. Qed.

Example termos_sample :
  SmallLib.termos (py "A Relação da habilidade-x é 7")
  = [py "relação"; py "da"; py "habilidade"; py "relação da"; py "da habilidade"].
Proof. vm_compute. reflexivity. Qed.

Example argsort_sample :
  SmallLib.argsort [1 # 2; 1 # 3; 1 # 2; 1 # 3; 0 # 1]%Q = [4; 1; 3; 0; 2]%nat.
Proof. vm_compute. reflexivity. Qed.

Example split_sep_sample :
  split_sep (py "a" ++ delimitador ++ py "b" ++ delimitador ++ py "---c")
    delimitador
  = [py "a"; py "b"; py "---c"].
Proof. vm_compute. reflexivity. Qed.

Example dividir_em_chunks_sample :
  dividir_em_chunks (py "  a b c d e ") (-1) (-3)
  = Ok [Chunk.mk (py "a b c d") 0 0].
Proof. vm_compute. reflexivity. Qed.

(** ** Words *)

Lemma espaco_eq : espaco = [32%N].
Proof. reflexivity. Qed.

Lemma rev_nonempty (w : str) : w <> [] -> rev w <> [].
Proof.
  intros Hw E. apply (f_equal (@length N)) in E.
  rewrite length_rev in E. by destruct w.
Qed.

Lemma split_go_palavras (s w : str) :
  Forall (fun c => isspace c = false) w -> Forall palavra (split_go w s).
Proof.
  revert w. induction s as [|c s IH]; intros w Hw; simpl.
  - destruct w as [|x w]; constructor; [|constructor].
    split; [by apply rev_nonempty | by apply Forall_rev].
  - destruct (isspace c) eqn:Hc.
    + destruct w as [|x w]; [by apply IH|].
      constructor; [|by apply IH].
      split; [by apply rev_nonempty | by apply Forall_rev].
    + apply IH. by constructor.
Qed.

Lemma split_palavras (s : str) : Forall palavra (split s).
Proof. apply split_go_palavras. constructor. Qed.

Lemma split_go_app (x s w : str) :
  Forall (fun c => isspace c = false) x ->
  split_go w (x ++ s) = split_go (rev x ++ w) s.
Proof.
  revert w. induction x as [|c x IH]; intros w Hx; simpl; [done|].
  inversion Hx as [|? ? Hc Hx']; subst. rewrite Hc, IH by done.
  by rewrite <- app_assoc.
Qed.

Lemma split_go_end (w : str) : w <> [] -> split_go w [] = [rev w].
Proof. by destruct w. Qed.

Lemma split_go_space (w s : str) :
  w <> [] -> split_go w (32%N :: s) = rev w :: split_go [] s.
Proof. by destruct w. Qed.

Lemma split_join (ws : list str) :
  Forall palavra ws -> split (join espaco ws) = ws.
Proof.
  unfold split. induction 1 as [|w ws [Hne Hw] Hws IH]; [done|].
  destruct ws as [|w2 ws].
  - simpl. rewrite <- (app_nil_r w) at 1.
    rewrite split_go_app, app_nil_r by done.
    rewrite split_go_end by by apply rev_nonempty.
    by rewrite rev_involutive.
  - change (join espaco (w :: w2 :: ws))
      with (w ++ espaco ++ join espaco (w2 :: ws)).
    rewrite split_go_app, app_nil_r, espaco_eq by done.
    change ([32%N] ++ ?r) with (32%N :: r).
    rewrite split_go_space by by apply rev_nonempty.
    rewrite rev_involutive. f_equal. exact IH.
Qed.

Lemma lstrip_nonspace (s : str) :
  Exists (fun c => isspace c = false) s ->
  Exists (fun c => isspace c = false) (lstrip s).
Proof.
  induction s as [|c s IH]; intros Hs; simpl; [done|].
  destruct (isspace c) eqn:Hc; [|done].
  apply IH. inversion Hs; subst; [congruence | done].
Qed.

Lemma strip_truthy (s : str) :
  Exists (fun c => isspace c = false) s -> truthy (strip s) = true.
Proof.
  intros Hs. unfold strip.
  assert (H : Exists (fun c => isspace c = false)
                (rev (lstrip (rev (lstrip s))))).
  { apply Exists_rev, lstrip_nonspace, Exists_rev, lstrip_nonspace, Hs. }
  destruct H; done.
Qed.

Lemma join_nonspace (ws : list str) :
  ws <> [] -> Forall palavra ws ->
  Exists (fun c => isspace c = false) (join espaco ws).
Proof.
  intros Hne Hws. destruct Hws as [|w ws [Hw Hc] Hws]; [done|].
  assert (Hex : Exists (fun c => isspace c = false) w).
  { destruct Hc; [done | by constructor]. }
  destruct ws; simpl; [done|]. apply Exists_app. by left.
Qed.

(** ** Chunker *)

Lemma range_positive (n passo : Z) :
  0 < passo ->
  range 0 n passo
  = Ok (map (fun k : nat => 0 + Z.of_nat k * passo) (seq 0 (n_janelas n passo))).
Proof.
  intros Hp. unfold range, n_janelas.
  destruct (Z.eqb_spec passo 0); [lia|].
  destruct (Z.ltb_spec 0 passo); [|lia].
  by rewrite Z.sub_0_r.
Qed.

Lemma n_janelas_bound (n passo : Z) (k : nat) :
  0 < passo -> (k < n_janelas n passo)%nat -> Z.of_nat k * passo < n.
Proof.
  intros Hp Hk. unfold n_janelas in Hk.
  assert (H1 : passo * ((n + passo - 1) / passo) <= n + passo - 1)
    by (apply Z.mul_div_le; lia).
  assert (H2 : Z.of_nat k + 1 <= (n + passo - 1) / passo) by lia.
  nia.
Qed.

Lemma n_janelas_complete (n passo : Z) (k : nat) :
  0 < passo -> Z.of_nat k * passo < n -> (k < n_janelas n passo)%nat.
Proof.
  intros Hp Hk. unfold n_janelas.
  assert (H1 : Z.of_nat k + 1 <= (n + passo - 1) / passo).
  { apply Z.div_le_lower_bound; lia. }
  lia.
Qed.

(** [n_janelas n passo] counts the multiples of [passo] below [n]. *)
Lemma n_janelas_spec (n passo : Z) (k : nat) :
  0 < passo -> (k < n_janelas n passo)%nat <-> Z.of_nat k * passo < n.
Proof.
  intros Hp. split; [by apply n_janelas_bound | by apply n_janelas_complete].
Qed.

Lemma chunk_passo_emits (palavras : list str) (t i : Z) (chunks : list Chunk.t) :
  Forall palavra palavras -> 1 <= t -> 0 <= i < len palavras ->
  chunk_passo palavras t chunks i
  = chunks ++ [ {| Chunk.texto := join espaco (slice palavras i (i + t));
                   Chunk.indice := len chunks;
                   Chunk.posicao_inicial := i |} ].
Proof.
  intros Hp Ht Hi. unfold chunk_passo.
  rewrite strip_truthy; [done|].
  apply join_nonspace.
  - intros E. apply (f_equal len) in E.
    rewrite slice_length in E by lia. change (len []) with 0 in E. lia.
  - rewrite slice_take_drop by lia.
    apply Forall_take, Forall_drop, Hp.
Qed.

Lemma fold_janelas (palavras : list str) (t passo : Z) (m : nat) :
  Forall palavra palavras -> 1 <= t -> 0 < passo ->
  (m <= n_janelas (len palavras) passo)%nat ->
  fold_left (chunk_passo palavras t)
    (map (fun k : nat => 0 + Z.of_nat k * passo) (seq 0 m)) []
  = map (janela palavras t passo) (seq 0 m).
Proof.
  intros Hp Ht Hs. induction m as [|m IH]; intros Hm; [done|].
  rewrite seq_S, !map_app, fold_left_app, IH by lia. simpl.
  rewrite chunk_passo_emits; try done.
  - unfold janela, len. by rewrite length_map, length_seq.
  - split; [lia|]. apply n_janelas_bound; lia.
Qed.

Lemma chunk_passo_indices (palavras : list str) (t i : Z) (chunks : list Chunk.t) :
  (forall k c, chunks !! k = Some c -> Chunk.indice c = Z.of_nat k) ->
  forall k c, chunk_passo palavras t chunks i !! k = Some c ->
              Chunk.indice c = Z.of_nat k.
Proof.
  intros Hinv k c. unfold chunk_passo.
  destruct (truthy _); [|apply Hinv].
  intros Hk. apply lookup_app_Some in Hk as [Hk|[Hle Hk]]; [by apply Hinv|].
  apply list_lookup_singleton_Some in Hk as [Hk <-]. simpl. unfold len. lia.
Qed.

Lemma fold_chunk_passo_indices (palavras : list str) (t : Z) (ps : list Z)
    (chunks : list Chunk.t) :
  (forall k c, chunks !! k = Some c -> Chunk.indice c = Z.of_nat k) ->
  forall k c, fold_left (chunk_passo palavras t) ps chunks !! k = Some c ->
              Chunk.indice c = Z.of_nat k.
Proof.
  revert chunks. induction ps as [|p ps IH]; intros chunks Hinv; simpl; [done|].
  apply IH. by apply chunk_passo_indices.
Qed.

Lemma range_negative (n passo : Z) :
  0 <= n -> passo < 0 -> range 0 n passo = Ok [].
Proof.
  intros Hn Hp. unfold range.
  destruct (Z.eqb_spec passo 0); [lia|].
  destruct (Z.ltb_spec 0 passo); [lia|].
  assert (Hdiv : (0 - n - passo - 1) / - passo < 1)
    by (apply Z.div_lt_upper_bound; lia).
  replace (Z.to_nat ((0 - n - passo - 1) / - passo)) with O by lia.
  reflexivity.
Qed.

Lemma dividir_em_chunks_janelas (texto : str) (t o : Z) :
  o < t -> 1 <= t ->
  dividir_em_chunks texto t o
  = Ok (map (janela (split texto) t (t - o))
          (seq 0 (n_janelas (len (split texto)) (t - o)))).
Proof.
  intros Hot Ht. unfold dividir_em_chunks.
  rewrite range_positive by lia. simpl. unfold mret, result_ret. f_equal.
  apply fold_janelas; try lia. apply split_palavras.
Qed.

(** C2, counterexample. With overlap equal to the chunk size the stride is
    zero and [range] raises ValueError; with a larger overlap the stride is
    negative and no chunk is emitted, where a stride of 1 would have
    emitted one chunk per word. *)
Lemma dividir_em_chunks_stride_not_guarded :
  dividir_em_chunks (py "a b") 2 2 = Raise ValueError
  /\ dividir_em_chunks (py "a b") 1 2 = Ok [].
Proof. split; reflexivity. Qed.

(** C2, amended. The stride of the chunker is [tamanho_chunk -
    sobreposicao], without a guard: when the overlap equals the chunk size
    the call raises ValueError, when it is larger the chunk list is empty,
    and when it is smaller (and the chunk size is at least 1) the stride
    is [max 1 (tamanho_chunk - sobreposicao)] and the chunker returns
    normally with one chunk for each of the positions 0, stride,
    2 stride, ... below the number of words, numbered from 0. *)
Theorem dividir_em_chunks_stride (texto : str) (t o : Z) :
  (o = t -> dividir_em_chunks texto t o = Raise ValueError)
  /\ (t < o -> dividir_em_chunks texto t o = Ok [])
  /\ (o < t -> 1 <= t ->
      dividir_em_chunks texto t o
      = Ok (map (janela (split texto) t (Z.max 1 (t - o)))
              (seq 0 (n_janelas (len (split texto)) (Z.max 1 (t - o)))))
      /\ forall k : nat,
           (k < n_janelas (len (split texto)) (Z.max 1 (t - o)))%nat
           <-> Z.of_nat k * Z.max 1 (t - o) < len (split texto)).
Proof.
  split; [|split].
  - intros ->. unfold dividir_em_chunks, range.
    by rewrite Z.sub_diag.
  - intros Hto. unfold dividir_em_chunks.
    rewrite range_negative; [done | apply len_nonneg | lia].
  - intros Hot Ht. rewrite Z.max_r by lia. split.
    + by apply dividir_em_chunks_janelas.
    + intros k. apply n_janelas_spec. lia.
Qed.

Lemma dividir_em_chunks_stride_witness :
  dividir_em_chunks (py "a b c d e") 2 2 = Raise ValueError
  /\ dividir_em_chunks (py "a b c d e") 2 3 = Ok []
  /\ dividir_em_chunks (py "a b c d e") 3 1
     = Ok [ Chunk.mk (py "a b c") 0 0; Chunk.mk (py "c d e") 1 2;
            Chunk.mk (py "e") 2 4 ].
Proof.
  split; [|split].
  - apply (proj1 (dividir_em_chunks_stride (py "a b c d e") 2 2)). reflexivity.
  - apply (proj1 (proj2 (dividir_em_chunks_stride (py "a b c d e") 2 3))). lia.
  - rewrite (proj1 (proj2 (proj2 (dividir_em_chunks_stride (py "a b c d e") 3 1))
                      ltac:(lia) ltac:(lia))).
    reflexivity.
Defined.

Lemma janela_posicao_final (palavras : list str) (t passo : Z) (k : nat) :
  Forall palavra palavras -> 0 < passo -> 0 <= t ->
  posicao_final (janela palavras t passo k)
  = Z.max (Z.of_nat k * passo) (Z.min (Z.of_nat k * passo + t) (len palavras)).
Proof.
  intros Hp Hs Ht. unfold posicao_final, janela. simpl.
  rewrite split_join.
  - rewrite slice_length by lia. lia.
  - rewrite slice_take_drop by lia. apply Forall_take, Forall_drop, Hp.
Qed.

Lemma janela_palavras (palavras : list str) (t passo : Z) (k : nat) :
  Forall palavra palavras -> 0 < passo -> 0 <= t ->
  split (Chunk.texto (janela palavras t passo k))
  = take (Z.to_nat t) (drop (Z.to_nat (Z.of_nat k * passo)) palavras).
Proof.
  intros Hp Hs Ht. unfold janela. simpl.
  rewrite slice_take_drop by lia.
  rewrite split_join by apply Forall_take, Forall_drop, Hp.
  do 2 f_equal. lia.
Qed.

(** C5, counterexample. Three words, chunks of 3 words overlapping by 2:
    the second chunk is cut short by the end of the text, and shares one
    word, not two, with the third. *)
Lemma dividir_em_chunks_short_overlap :
  dividir_em_chunks (py "a b c") 3 2
  = Ok [ Chunk.mk (py "a b c") 0 0; Chunk.mk (py "b c") 1 1;
         Chunk.mk (py "c") 2 2 ]
  /\ palavras_comuns (Chunk.mk (py "b c") 1 1) (Chunk.mk (py "c") 2 2) = 1
  /\ palavras_comuns (Chunk.mk (py "b c") 1 1) (Chunk.mk (py "c") 2 2) <> 2.
Proof. repeat split. by vm_compute. Qed.

(** C5, amended. The chunks of a returned list are numbered 0, 1, 2, ...
    in order. When 0 < overlap < chunk size, two consecutive chunks share
    [min overlap (words left from the start of the later chunk)] word
    positions, which is exactly the overlap whenever the earlier chunk is
    a full window; the shared words close the earlier chunk and open the
    later one. *)
Theorem dividir_em_chunks_indices_overlap (texto : str) (t o : Z)
    (chunks : list Chunk.t) :
  dividir_em_chunks texto t o = Ok chunks ->
  (forall (k : nat) c, chunks !! k = Some c -> Chunk.indice c = Z.of_nat k)
  /\ (0 < o < t ->
      forall (k : nat) c1 c2,
        chunks !! k = Some c1 -> chunks !! S k = Some c2 ->
        palavras_comuns c1 c2
        = Z.min o (len (split texto) - Chunk.posicao_inicial c2)
        /\ (Chunk.posicao_inicial c1 + t <= len (split texto) ->
            palavras_comuns c1 c2 = o)
        /\ drop (Z.to_nat (t - o)) (split (Chunk.texto c1))
           = take (Z.to_nat (palavras_comuns c1 c2)) (split (Chunk.texto c2))).
Proof.
  intros Hd. split.
  - unfold dividir_em_chunks in Hd.
    destruct (range _ _ _) as [ps|e] eqn:Hr; [|discriminate].
    injection Hd as <-. by apply fold_chunk_passo_indices.
  - intros Hot k c1 c2 H1 H2.
    rewrite dividir_em_chunks_janelas in Hd by lia. injection Hd as <-.
    pose proof (split_palavras texto) as Hp.
    set (P := split texto) in *. set (s := t - o) in *.
    apply list_lookup_fmap_Some in H1 as (k1 & -> & E1).
    apply list_lookup_fmap_Some in H2 as (k2 & -> & E2).
    apply lookup_seq in E1 as [-> Hk1]. apply lookup_seq in E2 as [-> Hk2].
    cbn [Nat.add] in *.
    apply n_janelas_bound in Hk2; [|lia].
    assert (Hc : palavras_comuns (janela P t s k) (janela P t s (S k))
                 = Z.min o (len P - Z.of_nat (S k) * s)).
    { unfold palavras_comuns. rewrite !janela_posicao_final by (done || lia).
      simpl Chunk.posicao_inicial. lia. }
    split; [exact Hc | split].
    + intros Hfull. rewrite Hc. simpl Chunk.posicao_inicial in Hfull. lia.
    + rewrite Hc, !janela_palavras by (done || lia).
      rewrite take_drop_commute, drop_drop, skipn_firstn_comm, take_take.
      subst s.
      assert (0 <= Z.of_nat k * (t - o)) by nia.
      replace (Z.to_nat (Z.of_nat k * (t - o)) + Z.to_nat (t - o))%nat
        with (Z.to_nat (Z.of_nat (S k) * (t - o))) by lia.
      destruct (Z.le_gt_cases o (len P - Z.of_nat (S k) * (t - o))).
      * f_equal. lia.
      * rewrite !take_ge; [done| |]; rewrite length_drop; unfold len in *; lia.
Qed.

Lemma dividir_em_chunks_indices_overlap_witness :
  Chunk.indice (Chunk.mk (py "c d e") 1 2) = 1
  /\ palavras_comuns (Chunk.mk (py "a b c") 0 0) (Chunk.mk (py "c d e") 1 2) = 1.
Proof.
  pose proof (dividir_em_chunks_indices_overlap (py "a b c d e") 3 1
                [ Chunk.mk (py "a b c") 0 0; Chunk.mk (py "c d e") 1 2;
                  Chunk.mk (py "e") 2 4 ] eq_refl) as [Hi Ho].
  split.
  - exact (Hi 1%nat _ eq_refl).
  - exact (proj1 (proj2 (Ho ltac:(lia) 0%nat _ _ eq_refl eq_refl)) ltac:(vm_compute; discriminate)).
Defined.

(** ** Table extractor *)

Lemma slice_to_take {A} (l : list A) (n : Z) : 0 <= n -> slice_to l n = take (Z.to_nat n) l.
Proof.
  intros Hn. unfold slice_to. rewrite slice_take_drop by lia.
  rewrite Z.sub_0_r. reflexivity.
Qed.

Lemma slice_from_last {A} (l : list A) (n : Z) :
  0 < n -> n < len l -> slice_from l (- n) = drop (length l - Z.to_nat n) l.
Proof.
  intros Hn Hl. unfold slice_from, slice, clamp_index, len in *.
  destruct (Z.ltb_spec (- n) 0); [|lia].
  destruct (Z.ltb_spec (Z.of_nat (length l)) 0); [lia|].
  rewrite take_ge by (rewrite length_drop; lia).
  f_equal. lia.
Qed.

Section TableProperties.
Context `{Lib}.

Lemma ultimas_secoes_last (texto_md : str) :
  ultimas_secoes texto_md
  = drop (length (split_sep texto_md delimitador) - 5)
      (split_sep texto_md delimitador).
Proof.
  unfold ultimas_secoes.
  destruct (Z.ltb_spec 5 (len (split_sep texto_md delimitador))) as [Hl|Hl].
  - by rewrite (slice_from_last _ 5) by lia.
  - unfold len in Hl.
    replace (length (split_sep texto_md delimitador) - 5)%nat with O by lia.
    reflexivity.
Qed.

Lemma fold_tabela_passo (secoes : list str) (acc : list Tabela.t) :
  exists novas,
    fold_left tabela_passo secoes acc = acc ++ novas
    /\ (length novas <= length secoes)%nat
    /\ Forall (fun t => exists secao, secao ∈ secoes /\ candidata secao t) novas.
Proof.
  revert acc. induction secoes as [|secao secoes IH]; intros acc; simpl.
  - exists []. by rewrite app_nil_r.
  - unfold tabela_passo at 2.
    destruct (findall padrao_tabela secao) as [|m ms] eqn:Hm; simpl.
    + destruct (IH acc) as (novas & -> & Hlen & Hall).
      exists novas. split; [done | split; [lia|]].
      eapply Forall_impl; [exact Hall|].
      intros t (s & Hs & Ht). exists s. split; [by right | done].
    + match goal with |- context [fold_left _ _ (acc ++ [?t])] =>
        destruct (IH (acc ++ [t])) as (novas & -> & Hlen & Hall);
        exists (t :: novas)
      end.
      split; [by rewrite <- app_assoc | split; [simpl; lia|]].
      constructor.
      * exists secao. split; [by left|].
        unfold candidata. rewrite Hm, !slice_to_take by lia. simpl.
        split; [done|]. by split.
      * eapply Forall_impl; [exact Hall|].
        intros t (s & Hs & Ht). exists s. split; [by right | done].
Qed.

End TableProperties.

(** C9, counterexample. A single section of 201 characters with one
    number: the excerpt is the first 200 characters followed by three
    dots, 203 characters that do not occur in the section. *)
Lemma extrair_tabelas_do_md_excerpt_203 :
  extrair_tabelas_do_md (H := SmallLib.lib) secao_201
  = Ok [ {| Tabela.conteudo := py "Dados numéricos encontrados: 7";
            Tabela.secao := take 200 secao_201 ++ py "...";
            Tabela.dados_numericos := [py "7"] |} ]
  /\ ultimas_secoes secao_201 = [secao_201]
  /\ len (take 200 secao_201 ++ py "...") = 203
  /\ contains (take 200 secao_201 ++ py "...") secao_201 = false.
Proof. repeat split; vm_compute; reflexivity. Qed.

(** C9, amended. Only the last five pieces of the text split at the
    delimiter are inspected. Each candidate comes from one of them that
    has a match, holds its first ten matches at most, and its excerpt is
    the section itself when that has at most 200 characters and otherwise
    the first 200 characters of the section followed by ["..."], 203
    characters in all. *)
Theorem extrair_tabelas_do_md_candidates `{Lib} (texto_md : str) :
  ultimas_secoes texto_md
  = drop (length (split_sep texto_md delimitador) - 5)
      (split_sep texto_md delimitador)
  /\ (length (ultimas_secoes texto_md) <= 5)%nat
  /\ exists tabelas,
       extrair_tabelas_do_md texto_md = Ok tabelas
       /\ (length tabelas <= length (ultimas_secoes texto_md))%nat
       /\ Forall (fun t => exists secao,
            secao ∈ ultimas_secoes texto_md
            /\ Tabela.dados_numericos t = take 10 (findall padrao_tabela secao)
            /\ (1 <= length (Tabela.dados_numericos t) <= 10)%nat
            /\ Tabela.secao t
               = (if 200 <? len secao then take 200 secao ++ py "..." else secao)
            /\ len (Tabela.secao t)
               = (if 200 <? len secao then 203 else len secao)) tabelas.
Proof.
  split; [apply ultimas_secoes_last | split].
  - rewrite ultimas_secoes_last, length_drop. lia.
  - unfold extrair_tabelas_do_md. simpl.
    destruct (fold_tabela_passo (ultimas_secoes texto_md) [])
      as (novas & -> & Hlen & Hall).
    exists novas. split; [done | split; [done|]].
    eapply Forall_impl; [exact Hall|].
    intros t (secao & Hin & Hne & Hd & _ & Hs).
    exists secao. repeat split; try done.
    + rewrite Hd. destruct (findall padrao_tabela secao); [done | simpl; lia].
    + rewrite Hd, length_take. lia.
    + rewrite Hs. destruct (Z.ltb_spec 200 (len secao)) as [Hl|Hl]; [|done].
      unfold len in *. rewrite length_app, length_take.
      change (length (py "...")) with 3%nat. lia.
Qed.

(** ** Section extractor *)

Section SectionProperties.
Context `{Lib}.

Lemma secao_passo_lookup (texto_md nome : str) (secoes : gmap str (list str))
    (m : Z * Z) :
  secao_passo texto_md nome secoes m !! nome
  = Some (default [] (secoes !! nome) ++ [contexto texto_md m]).
Proof.
  unfold secao_passo. rewrite lookup_alter_eq.
  destruct (secoes !! nome) as [l|] eqn:E.
  - by rewrite E.
  - by rewrite lookup_insert_eq.
Qed.

Lemma secao_passo_lookup_ne (texto_md nome outro : str)
    (secoes : gmap str (list str)) (m : Z * Z) :
  nome <> outro ->
  secao_passo texto_md nome secoes m !! outro = secoes !! outro.
Proof.
  intros Hne. unfold secao_passo. rewrite lookup_alter_ne by done.
  destruct (secoes !! nome); [done|]. by rewrite lookup_insert_ne.
Qed.

Lemma fold_secao_passo_lookup (texto_md nome : str) (ms : list (Z * Z))
    (secoes : gmap str (list str)) :
  fold_left (secao_passo texto_md nome) ms secoes !! nome
  = match ms with
    | [] => secoes !! nome
    | _ => Some (default [] (secoes !! nome) ++ map (contexto texto_md) ms)
    end.
Proof.
  revert secoes. induction ms as [|m ms IH]; intros secoes; [done|].
  simpl. rewrite IH, secao_passo_lookup. destruct ms as [|m' ms]; [done|].
  simpl. by rewrite <- app_assoc.
Qed.

Lemma fold_secao_passo_lookup_ne (texto_md nome outro : str)
    (ms : list (Z * Z)) (secoes : gmap str (list str)) :
  nome <> outro ->
  fold_left (secao_passo texto_md nome) ms secoes !! outro = secoes !! outro.
Proof.
  intros Hne. revert secoes. induction ms as [|m ms IH]; intros secoes; [done|].
  simpl. by rewrite IH, secao_passo_lookup_ne.
Qed.

Lemma percorre_cons (texto_md nome padrao : str) (padroes : list (str * str))
    (secoes : gmap str (list str)) :
  percorre texto_md ((nome, padrao) :: padroes) secoes
  = percorre texto_md padroes
      (fold_left (secao_passo texto_md nome) (finditer padrao texto_md) secoes).
Proof. reflexivity. Qed.

Lemma percorre_lookup_other (texto_md : str) (padroes : list (str * str))
    (secoes : gmap str (list str)) (nome : str) :
  nome ∉ padroes.*1 -> percorre texto_md padroes secoes !! nome = secoes !! nome.
Proof.
  revert secoes. induction padroes as [|[n p] padroes IH]; intros secoes Hn; [done|].
  simpl in Hn. apply not_elem_of_cons in Hn as [Hne Hn].
  rewrite percorre_cons, IH by done.
  by apply fold_secao_passo_lookup_ne.
Qed.

Lemma percorre_lookup (texto_md : str) (padroes : list (str * str))
    (secoes : gmap str (list str)) :
  NoDup padroes.*1 ->
  Forall (fun nome => secoes !! nome = None) padroes.*1 ->
  Forall (fun '(nome, padrao) =>
            percorre texto_md padroes secoes !! nome
            = match finditer padrao texto_md with
              | [] => None
              | ms => Some (map (contexto texto_md) ms)
              end) padroes.
Proof.
  revert secoes.
  induction padroes as [|[n p] padroes IH]; intros secoes Hnd Hnone; [done|].
  simpl in Hnd, Hnone. apply NoDup_cons in Hnd as [Hn Hnd].
  apply Forall_cons in Hnone as [Hsn Hnone].
  constructor.
  - rewrite percorre_cons, percorre_lookup_other by done.
    rewrite fold_secao_passo_lookup, Hsn.
    by destruct (finditer p texto_md).
  - assert (Hrest : Forall (fun nome =>
        fold_left (secao_passo texto_md n) (finditer p texto_md) secoes !! nome
        = None) padroes.*1).
    { rewrite Forall_forall in Hnone |- *. intros nome Hin.
      rewrite fold_secao_passo_lookup_ne; [by apply Hnone|].
      intros ->. done. }
    specialize (IH _ Hnd Hrest).
    eapply Forall_impl; [exact IH|].
    intros [n' p'] Hx. by rewrite percorre_cons.
Qed.

Lemma padroes_secoes_NoDup : NoDup padroes_secoes.*1.
Proof. apply (bool_decide_unpack _). by vm_compute. Qed.

End SectionProperties.

Lemma extrair_secoes_importantes_lookup `{Lib} (texto_md : str) :
  Forall (fun '(nome, padrao) =>
            extrair_secoes_importantes texto_md !! nome
            = match finditer padrao texto_md with
              | [] => None
              | ms => Some (map (contexto texto_md) ms)
              end) padroes_secoes.
Proof.
  apply (percorre_lookup texto_md padroes_secoes ∅).
  - apply padroes_secoes_NoDup.
  - apply Forall_forall. intros nome _. apply lookup_empty.
Qed.

Lemma extrair_secoes_importantes_dom `{Lib} (texto_md : str) :
  dom (extrair_secoes_importantes texto_md) ⊆ list_to_set padroes_secoes.*1.
Proof.
  intros nome Hin. apply elem_of_dom in Hin.
  apply elem_of_list_to_set.
  destruct (decide (nome ∈ padroes_secoes.*1)) as [|Hn]; [done|].
  unfold extrair_secoes_importantes in Hin.
  rewrite percorre_lookup_other, lookup_empty in Hin by done.
  by destruct Hin.
Qed.

(** A text without any match yields the empty mapping. *)
Lemma extrair_secoes_importantes_no_match `{Lib} (texto_md : str) :
  Forall (fun np : str * str => finditer np.2 texto_md = []) padroes_secoes ->
  extrair_secoes_importantes texto_md = ∅.
Proof.
  intros Hno. apply map_eq. intros nome. rewrite lookup_empty.
  pose proof (extrair_secoes_importantes_lookup texto_md) as Hall.
  pose proof (extrair_secoes_importantes_dom texto_md) as Hdom.
  destruct (decide (nome ∈ padroes_secoes.*1)) as [Hin|Hn].
  - apply list_elem_of_fmap in Hin as ([n p] & -> & Hin).
    rewrite Forall_forall in Hall, Hno.
    specialize (Hall _ Hin). specialize (Hno _ Hin). simpl in *.
    by rewrite Hall, Hno.
  - apply not_elem_of_dom. intros Hd. apply Hdom in Hd.
    by apply elem_of_list_to_set in Hd.
Qed.

Lemma extrair_secoes_importantes_no_match_witness :
  extrair_secoes_importantes (H := SmallLib.lib) (py "xyz 123") = ∅.
Proof.
  apply extrair_secoes_importantes_no_match.
  apply (bool_decide_unpack _). by vm_compute.
Defined.

Example extrair_secoes_importantes_two_topics :
  map_to_list
    (extrair_secoes_importantes (H := SmallLib.lib)
       (py "A Metodologia e o método; dados"))
  = [ (py "tabelas", [py "A Metodologia e o método; dados"]);
      (py "metodologia", [py "A Metodologia e o método; dados";
                          py "A Metodologia e o método; dados"]) ].
Proof. vm_compute. reflexivity. Qed.

(** C8. For every topic of the table, the entry of the returned mapping is
    absent when the pattern has no match in the text, and is otherwise the
    list, in match order, of the windows [texto_md[max(0, start-500) :
    min(len(texto_md), end+500)]] of its matches; the mapping has no other
    keys, and it is empty when no pattern has a match. *)
Theorem extrair_secoes_importantes_windows `{Lib} (texto_md : str) :
  Forall (fun '(nome, padrao) =>
            extrair_secoes_importantes texto_md !! nome
            = match finditer padrao texto_md with
              | [] => None
              | ms =>
                  Some (map (fun m : Z * Z =>
                               slice texto_md (Z.max 0 (fst m - 500))
                                 (Z.min (len texto_md) (snd m + 500))) ms)
              end) padroes_secoes
  /\ dom (extrair_secoes_importantes texto_md) ⊆ list_to_set padroes_secoes.*1
  /\ (Forall (fun np : str * str => finditer np.2 texto_md = []) padroes_secoes ->
      extrair_secoes_importantes texto_md = ∅).
Proof.
  split; [|split].
  - apply extrair_secoes_importantes_lookup.
  - apply extrair_secoes_importantes_dom.
  - apply extrair_secoes_importantes_no_match.
Qed.

Lemma extrair_secoes_importantes_windows_witness :
  extrair_secoes_importantes (H := SmallLib.lib) (py "sem nada 123") = ∅.
Proof.
  apply (proj2 (proj2 (extrair_secoes_importantes_windows
                         (H := SmallLib.lib) (py "sem nada 123")))).
  apply (bool_decide_unpack _). by vm_compute.
Defined.

(** ** Indexer *)

Section IndexerProperties.
Context `{Lib}.

Lemma criar_indice_similaridade_cases (chunks : list Chunk.t) :
  criar_indice_similaridade chunks
  = match chunks with
    | [] => Ok None
    | _ =>
        match fit_transform (map Chunk.texto chunks) with
        | Ok (vectorizer, tfidf_matrix) =>
            Ok (Some {| Indice.vectorizer := vectorizer;
                        Indice.tfidf_matrix := tfidf_matrix;
                        Indice.chunks := chunks |})
        | Raise _ => Ok None
        end
    end.
Proof.
  unfold criar_indice_similaridade. destruct chunks as [|c chunks]; [done|].
  simpl. by destruct (fit_transform _) as [[v m]|e].
Qed.

Lemma buscar_sem_indice (consulta : str) (top_k : Z) (dados_rag : option DadosRag.t) :
  dados_rag ≫= DadosRag.indice_similaridade = None ->
  buscar_informacoes_relevantes consulta dados_rag top_k = Ok [].
Proof. intros E. unfold buscar_informacoes_relevantes. by rewrite E. Qed.

End IndexerProperties.

(** C4, counterexample. The corpus ["a b c"] yields one chunk, yet the
    vectorizer finds no token of two or more characters in it: it raises
    ValueError for an empty vocabulary, the handler takes over and the
    indexer returns [None]. *)
Lemma criar_indice_similaridade_none_for_one_chunk :
  dividir_em_chunks (py "a b c") 1000 200 = Ok [Chunk.mk (py "a b c") 0 0]
  /\ fit_transform (Lib := SmallLib.lib) [py "a b c"] = Raise ValueError
  /\ criar_indice_similaridade (H := SmallLib.lib) [Chunk.mk (py "a b c") 0 0]
     = Ok None.
Proof. repeat split; vm_compute; reflexivity. Qed.

(** C4, amended. The indexer never raises. It returns [None] exactly when
    the chunk sequence is empty or the vectorizer raises on the chunk
    texts, the exception being caught by the handler of the indexer. *)
Theorem criar_indice_similaridade_sentinel `{Lib} (chunks : list Chunk.t) :
  (exists r, criar_indice_similaridade chunks = Ok r)
  /\ (criar_indice_similaridade chunks = Ok None
      <-> chunks = []
          \/ exists e, fit_transform (map Chunk.texto chunks) = Raise e).
Proof.
  rewrite criar_indice_similaridade_cases.
  destruct chunks as [|c chunks].
  - split; [by eexists | split; [by left | done]].
  - destruct (fit_transform _) as [[v m]|e]; (split; [by eexists|]).
    + split; [done | intros [?|[e ?]]; done].
    + split; [intros _; right; by exists e | done].
Qed.

(** C3. For the empty corpus the chunker returns the empty list (for the
    chunk size and overlap the loader uses, and for every other pair with a
    non-zero stride), the indexer returns [None] for the empty chunk list,
    the loader returns a session without index, and a query against a
    session without index, or against no session, returns the empty list;
    none of them raises. *)
Theorem empty_corpus_retrieval `{Lib} (consulta : str) (top_k : Z) :
  dividir_em_chunks [] 1000 200 = Ok []
  /\ (forall t o : Z,
        dividir_em_chunks [] t o = if t - o =? 0 then Raise ValueError else Ok [])
  /\ criar_indice_similaridade [] = Ok None
  /\ (exists tabelas secoes,
        processar_md_com_rag []
        = Ok (Some {| DadosRag.chunks := [];
                      DadosRag.tabelas := tabelas;
                      DadosRag.secoes_importantes := secoes;
                      DadosRag.indice_similaridade := None;
                      DadosRag.texto_completo := [] |}))
  /\ (forall chunks tabelas secoes texto,
        buscar_informacoes_relevantes consulta
          (Some {| DadosRag.chunks := chunks;
                   DadosRag.tabelas := tabelas;
                   DadosRag.secoes_importantes := secoes;
                   DadosRag.indice_similaridade := None;
                   DadosRag.texto_completo := texto |}) top_k
        = Ok [])
  /\ buscar_informacoes_relevantes consulta None top_k = Ok [].
Proof.
  split; [done | split; [|split; [done | split; [|split; done]]]].
  - intros t o. unfold dividir_em_chunks, range. change (len (split [])) with 0.
    destruct (Z.eqb_spec (t - o) 0); [done|].
    destruct (Z.ltb_spec 0 (t - o)) as [Hp|Hp].
    + assert (Hd : (0 - 0 + (t - o) - 1) / (t - o) < 1)
        by (apply Z.div_lt_upper_bound; lia).
      assert (0 <= (0 - 0 + (t - o) - 1) / (t - o))
        by (apply Z.div_pos; lia).
      replace (Z.to_nat ((0 - 0 + (t - o) - 1) / (t - o))) with O by lia.
      reflexivity.
    + assert (Hd : (0 - 0 - (t - o) - 1) / - (t - o) < 1)
        by (apply Z.div_lt_upper_bound; lia).
      replace (Z.to_nat ((0 - 0 - (t - o) - 1) / - (t - o))) with O by lia.
      reflexivity.
  - exists (fold_left tabela_passo (ultimas_secoes []) []),
      (extrair_secoes_importantes []).
    reflexivity.
Qed.

(** ** Retriever: scores and provenance *)

Lemma bind_Ok {A B} (m : result A) (f : A -> result B) (b : B) :
  m ≫= f = Ok b -> exists a, m = Ok a /\ f a = Ok b.
Proof. destruct m as [a|e]; [by exists a | done]. Qed.

Lemma index_Ok {A} (l : list A) (i : nat) (x : A) :
  index l i = Ok x <-> l !! i = Some x.
Proof. unfold index. destruct (l !! i); split; congruence. Qed.

Lemma Qgtb_spec (a b : Q) : Qgtb a b = true <-> (b < a)%Q.
Proof.
  unfold Qgtb. rewrite negb_true_iff. split.
  - intros Hle. apply Qnot_le_lt. intros Hab.
    apply Qle_bool_iff in Hab. congruence.
  - intros Hlt. destruct (Qle_bool a b) eqn:E; [|done].
    apply Qle_bool_iff in E. by apply Qlt_not_le in Hlt.
Qed.

Lemma sim_habilidade_range : (limiar < sim_habilidade)%Q /\ (sim_habilidade <= 1)%Q.
Proof. split; by vm_compute. Qed.

Lemma sim_palavra_chave_range :
  (limiar < sim_palavra_chave)%Q /\ (sim_palavra_chave <= 1)%Q.
Proof. split; by vm_compute. Qed.

Section RetrieverProperties.
Context `{Lib}.

Lemma fonte_paridade_rotulo (idx : nat) : rotulo (Some (fonte_paridade idx)).
Proof. unfold fonte_paridade, rotulo. destruct (Nat.even idx); auto. Qed.

Lemma fonte_documento_rotulo (chunk_texto : str) (idx : nat) :
  rotulo (Some (fonte_documento chunk_texto idx)).
Proof.
  unfold fonte_documento.
  repeat match goal with
         | |- context [if ?b then _ else _] => destruct b
         end;
    [by left | by right | apply fonte_paridade_rotulo].
Qed.

Lemma fonte_habilidade_rotulo (chunk_texto : str) (i : nat) :
  rotulo (Some (fonte_habilidade chunk_texto i)).
Proof.
  unfold fonte_habilidade.
  repeat match goal with
         | |- context [if ?b then _ else _] => destruct b
         end;
    [by left | by right | apply fonte_paridade_rotulo].
Qed.

Lemma ranking_ok (similaridades : list Q) (chunks : list Chunk.t)
    (top : list nat) (acc out : list Resultado.t) :
  ranking similaridades chunks top acc = Ok out ->
  exists rs,
    out = acc ++ rs
    /\ Forall2 (do_ranking similaridades chunks)
         (filter (fun idx => acima_do_limiar similaridades idx = true) top) rs.
Proof.
  revert acc. induction top as [|idx top IH]; intros acc Hr; simpl in Hr.
  - injection Hr as <-. exists []. by rewrite app_nil_r.
  - apply bind_Ok in Hr as (s & Es & Hr). apply index_Ok in Es.
    assert (Ha : acima_do_limiar similaridades idx = Qgtb s limiar)
      by (unfold acima_do_limiar; by rewrite Es).
    rewrite filter_cons.
    destruct (Qgtb s limiar) eqn:Eg.
    + apply bind_Ok in Hr as (c & Ec & Hr). apply index_Ok in Ec.
      apply IH in Hr as (rs & -> & Hall).
      eexists (_ :: rs). split; [by rewrite <- app_assoc|].
      rewrite decide_True by done. constructor; [|done].
      repeat split; simpl; try done. by apply Qgtb_spec.
    + apply IH in Hr as (rs & -> & Hall). exists rs.
      rewrite decide_False by congruence. done.
Qed.

Lemma ranking_total (similaridades : list Q) (chunks : list Chunk.t)
    (top : list nat) (acc : list Resultado.t) :
  Forall (fun idx => (idx < length similaridades)%nat
                     /\ (idx < length chunks)%nat) top ->
  exists out, ranking similaridades chunks top acc = Ok out.
Proof.
  revert acc. induction top as [|idx top IH]; intros acc Hv; [by eexists|].
  apply Forall_cons in Hv as [[Hs Hc] Hv]. simpl.
  apply lookup_lt_is_Some in Hs as [s Es]. apply lookup_lt_is_Some in Hc as [c Ec].
  unfold index. rewrite Es. simpl. destruct (Qgtb s limiar); [|by apply IH].
  rewrite Ec. simpl. by apply IH.
Qed.

Lemma busca_habilidades_ok (top_k : Z) (chunks : list Chunk.t) (i : nat)
    (acc : list Resultado.t) :
  exists rs,
    busca_habilidades top_k i chunks acc = acc ++ rs
    /\ Forall (fun r => Resultado.similaridade r = sim_habilidade
                        /\ rotulo (Resultado.fonte r)) rs.
Proof.
  revert i acc. induction chunks as [|c chunks IH]; intros i acc; simpl.
  - exists []. by rewrite app_nil_r.
  - destruct (_ && _).
    + destruct (_ <=? _).
      * eexists [_]. split; [done|]. constructor; [|done].
        split; [done | apply fonte_habilidade_rotulo].
      * match goal with |- context [busca_habilidades _ _ _ (acc ++ [?r])] =>
          destruct (IH (S i) (acc ++ [r])) as (rs & -> & Hall);
          exists (r :: rs)
        end.
        split; [by rewrite <- app_assoc|]. constructor; [|done].
        split; [done | apply fonte_habilidade_rotulo].
    + apply IH.
Qed.

Lemma busca_palavras_chave_ok (top_k : Z) (palavras_chave : list str)
    (chunks : list Chunk.t) (acc : list Resultado.t) :
  exists rs,
    busca_palavras_chave top_k palavras_chave chunks acc = acc ++ rs
    /\ Forall (fun r => Resultado.similaridade r = sim_palavra_chave
                        /\ Resultado.fonte r = None) rs.
Proof.
  revert acc. induction chunks as [|c chunks IH]; intros acc; simpl.
  - exists []. by rewrite app_nil_r.
  - destruct (alguma_palavra _ _).
    + destruct (_ <=? _).
      * eexists [_]. split; [done|]. by constructor.
      * match goal with |- context [busca_palavras_chave _ _ _ (acc ++ [?r])] =>
          destruct (IH (acc ++ [r])) as (rs & -> & Hall);
          exists (r :: rs)
        end.
        split; [by rewrite <- app_assoc|]. by constructor.
    + apply IH.
Qed.

(** The results of the three passes: either all come from the ranking and
    topic passes, with a score that is a cosine above the threshold or
    0.4 and with a source label, or all come from the keyword pass, with
    score 0.3 and without the entry ['fonte']. *)
Lemma passes_ok (consulta : str) (chunks : list Chunk.t)
    (similaridades : list Q) (top_k : Z) (out : list Resultado.t) :
  passes consulta chunks similaridades top_k = Ok out ->
  Forall (fun r =>
            ((∃ idx, similaridades !! idx = Some (Resultado.similaridade r)
                     /\ (limiar < Resultado.similaridade r)%Q)
             \/ Resultado.similaridade r = sim_habilidade)
            /\ rotulo (Resultado.fonte r)) out
  \/ Forall (fun r => Resultado.similaridade r = sim_palavra_chave
                      /\ Resultado.fonte r = None) out.
Proof.
  unfold passes. intros Hp.
  apply bind_Ok in Hp as (rs & Hr & Hp). injection Hp as <-.
  apply ranking_ok in Hr as (rs' & -> & Hrank). simpl in *.
  assert (Hrs : Forall (fun r =>
            ((∃ idx, similaridades !! idx = Some (Resultado.similaridade r)
                     /\ (limiar < Resultado.similaridade r)%Q)
             \/ Resultado.similaridade r = sim_habilidade)
            /\ rotulo (Resultado.fonte r)) rs').
  { clear -Hrank. induction Hrank as [|idx r idxs rs [[_ Hs] [Hl [_ Hf]]] _ IH];
      constructor; [|done].
    split; [left; by exists idx|]. rewrite Hf. apply fonte_documento_rotulo. }
  set (rs2 := if consulta_habilidade consulta
              then busca_habilidades top_k 0 chunks rs' else rs').
  assert (Hrs2 : Forall (fun r =>
            ((∃ idx, similaridades !! idx = Some (Resultado.similaridade r)
                     /\ (limiar < Resultado.similaridade r)%Q)
             \/ Resultado.similaridade r = sim_habilidade)
            /\ rotulo (Resultado.fonte r)) rs2).
  { subst rs2. destruct (consulta_habilidade consulta); [|done].
    destruct (busca_habilidades_ok top_k chunks 0 rs') as (rs3 & -> & H3).
    apply Forall_app. split; [done|].
    eapply Forall_impl; [exact H3|]. intros r [Hs Hf]. split; [by right|done]. }
  destruct rs2 as [|r rs2]; simpl.
  - right.
    destruct (busca_palavras_chave_ok top_k (split (lower consulta)) chunks [])
      as (rs4 & -> & H4).
    done.
  - by left.
Qed.

Lemma buscar_total (consulta : str) (dados_rag : option DadosRag.t) (top_k : Z) :
  exists out, buscar_informacoes_relevantes consulta dados_rag top_k = Ok out.
Proof. apply try_except_total. Qed.

(** The results of a query either all carry a source label or all come
    from the keyword pass and carry none. *)
Lemma buscar_fonte (consulta : str) (dados_rag : option DadosRag.t) (top_k : Z) :
  exists out,
    buscar_informacoes_relevantes consulta dados_rag top_k = Ok out
    /\ (Forall (fun r => rotulo (Resultado.fonte r)) out
        \/ Forall (fun r => Resultado.similaridade r = sim_palavra_chave
                            /\ Resultado.fonte r = None) out).
Proof.
  unfold buscar_informacoes_relevantes.
  destruct (dados_rag ≫= DadosRag.indice_similaridade) as [indice|];
    [|exists []; split; [done | by left]].
  destruct (transform _ _) as [qv|e]; [|exists []; split; [done | by left]].
  simpl. destruct (cosine_similarity _ _) as [linhas|e];
    [|exists []; split; [done | by left]].
  simpl. destruct (passes _ _ _ _) as [out|e] eqn:Hp;
    [|exists []; split; [done | by left]].
  exists out. split; [done|].
  apply passes_ok in Hp as [Hp|Hp]; [left | by right].
  eapply Forall_impl; [exact Hp|]. by intros r [_ Hf].
Qed.

End RetrieverProperties.

(** C1, failing input. The index holds the single chunk ["zebras"] and the
    query is ["zebra"]: no term of the expanded query is in the
    vocabulary, the ranking pass keeps nothing, the topic pass does not
    apply, and the keyword pass returns the chunk in a result without the
    entry ['fonte']. *)
Lemma buscar_keyword_result_without_fonte :
  buscar_informacoes_relevantes (H := SmallLib.lib) (py "zebra")
    (carregar (H := SmallLib.lib) (py "zebras") 1000 200) 5
  = Ok [ {| Resultado.chunk := Chunk.mk (py "zebras") 0 0;
            Resultado.similaridade := sim_palavra_chave;
            Resultado.texto := py "zebras";
            Resultado.fonte := None |} ].
Proof. vm_compute. reflexivity. Qed.

(** C10, amended. Every score of a result list is strictly greater than
    0.05, and it is 0.4, 0.3 or one of the cosines the library returned
    for the query, as the library returned it: the code does not clip a
    cosine. So the scores are at most 1 whenever those cosines are. *)
Theorem buscar_scores `{Lib} (consulta : str)
    (dados_rag : option DadosRag.t) (top_k : Z) :
  exists out,
    buscar_informacoes_relevantes consulta dados_rag top_k = Ok out
    /\ Forall (fun r =>
                 (limiar < Resultado.similaridade r)%Q
                 /\ (Resultado.similaridade r = sim_habilidade
                     \/ Resultado.similaridade r = sim_palavra_chave
                     \/ cosseno_da_consulta consulta dados_rag
                          (Resultado.similaridade r))) out
    /\ ((forall s, cosseno_da_consulta consulta dados_rag s -> (s <= 1)%Q) ->
        Forall (fun r => (Resultado.similaridade r <= 1)%Q) out).
Proof.
  unfold buscar_informacoes_relevantes, cosseno_da_consulta.
  destruct (dados_rag ≫= DadosRag.indice_similaridade) as [indice|];
    [|by exists []].
  destruct (transform _ _) as [qv|e] eqn:Ht; [|by exists []].
  simpl. destruct (cosine_similarity _ _) as [linhas|e] eqn:Hc; [|by exists []].
  simpl. destruct (passes _ _ _ _) as [out|e] eqn:Hp; [|by exists []].
  exists out. split; [done|].
  assert (Hall : Forall (fun r =>
                 (limiar < Resultado.similaridade r)%Q
                 /\ (Resultado.similaridade r = sim_habilidade
                     \/ Resultado.similaridade r = sim_palavra_chave
                     \/ Resultado.similaridade r ∈ concat linhas)) out).
  { apply passes_ok in Hp as [Hp|Hp]; (eapply Forall_impl; [exact Hp|]);
      simpl; intros r.
    - intros [[(idx & Hidx & Hl)| ->] _].
      + split; [done|]. right. right. by eapply list_elem_of_lookup_2.
      + split; [apply sim_habilidade_range | by left].
    - intros [-> _]. split; [apply sim_palavra_chave_range | right; by left]. }
  split.
  - eapply Forall_impl; [exact Hall|]. intros r [Hl Hs]. split; [done|].
    destruct Hs as [Hs|[Hs|Hs]]; [by left | right; by left |].
    right. right. by exists indice, qv, linhas.
  - intros Hle. eapply Forall_impl; [exact Hall|]. intros r [_ Hs].
    destruct Hs as [->|[->|Hs]].
    + apply sim_habilidade_range.
    + apply sim_palavra_chave_range.
    + apply Hle. by exists indice, qv, linhas.
Qed.

(** ** Retriever: the ranking pass *)

Lemma StronglySorted_sublist {A} (R : A -> A -> Prop) (l1 l2 : list A) :
  l1 `sublist_of` l2 -> StronglySorted R l2 -> StronglySorted R l1.
Proof.
  induction 1 as [|x l1 l2 Hs IH|x l1 l2 Hs IH]; intros H2; [done| |].
  - apply StronglySorted_inv in H2 as [H2 Hx].
    constructor; [by apply IH|].
    rewrite Forall_forall in Hx |- *. intros y Hy. apply Hx.
    by eapply elem_of_sublist.
  - apply StronglySorted_inv in H2 as [H2 _]. by apply IH.
Qed.

Lemma StronglySorted_rev {A} (R : A -> A -> Prop) (l : list A) :
  StronglySorted R l -> StronglySorted (fun x y => R y x) (rev l).
Proof.
  induction 1 as [|x l Hl IH Hx]; simpl; [constructor|].
  apply StronglySorted_app. split; [|split; [done | repeat constructor]].
  intros y z Hy Hz. apply list_elem_of_singleton in Hz as ->.
  rewrite Forall_forall in Hx. apply Hx.
  by rewrite list_elem_of_In, in_rev, <- list_elem_of_In.
Qed.

Lemma StronglySorted_Forall2 {A B} (R : A -> A -> Prop) (S : B -> B -> Prop)
    (T : A -> B -> Prop) (l : list A) (k : list B) :
  (forall x y x' y', R x y -> T x x' -> T y y' -> S x' y') ->
  Forall2 T l k -> StronglySorted R l -> StronglySorted S k.
Proof.
  intros HT. induction 1 as [|x x' l k Hx Hlk IH]; intros Hs; [constructor|].
  apply StronglySorted_inv in Hs as [Hs Hall].
  constructor; [by apply IH|].
  clear IH Hs. induction Hlk as [|y y' l k Hy Hlk IH]; [done|].
  apply Forall_cons in Hall as [Hxy Hall].
  constructor; [by eapply HT | by apply IH].
Qed.

Lemma slice_to_clamp {A} (l : list A) (k : Z) :
  slice_to l k = take (Z.to_nat (clamp_index (len l) k)) l.
Proof.
  unfold slice_to, slice. simpl.
  replace (clamp_index (len l) 0) with 0.
  - by rewrite Z.sub_0_r.
  - unfold clamp_index, len. simpl. lia.
Qed.

Section RankingProperties.
Context `{Lib} `{!ArgsortOk}.

Lemma top_indices_sublist (similaridades : list Q) (top_k : Z) :
  top_indices similaridades top_k `sublist_of` rev (argsort similaridades).
Proof. unfold top_indices. rewrite slice_to_clamp. apply sublist_take. Qed.

Lemma rev_argsort_perm (similaridades : list Q) :
  Permutation (rev (argsort similaridades)) (seq 0 (length similaridades)).
Proof. rewrite <- Permutation_rev. apply argsort_perm. Qed.

Lemma top_indices_valid (similaridades : list Q) (top_k : Z) (idx : nat) :
  idx ∈ top_indices similaridades top_k -> (idx < length similaridades)%nat.
Proof.
  intros Hin. eapply elem_of_sublist in Hin; [|apply top_indices_sublist].
  rewrite rev_argsort_perm in Hin. apply elem_of_seq in Hin. lia.
Qed.

Lemma top_indices_NoDup (similaridades : list Q) (top_k : Z) :
  NoDup (top_indices similaridades top_k).
Proof.
  eapply sublist_NoDup; [|apply top_indices_sublist].
  rewrite rev_argsort_perm. apply NoDup_seq.
Qed.

Lemma top_indices_length (similaridades : list Q) (top_k : Z) :
  0 <= top_k ->
  length (top_indices similaridades top_k)
  = Nat.min (Z.to_nat top_k) (length similaridades).
Proof.
  intros Hk. unfold top_indices. rewrite slice_to_take by done.
  rewrite length_take, length_rev.
  by rewrite (Permutation_length (argsort_perm similaridades)), length_seq.
Qed.

Lemma rev_argsort_sorted (similaridades : list Q) :
  StronglySorted
    (fun p q => (valor similaridades q <= valor similaridades p)%Q)
    (rev (argsort similaridades)).
Proof.
  apply (StronglySorted_rev
           (fun p q => (valor similaridades p <= valor similaridades q)%Q)).
  apply argsort_sorted.
Qed.

Lemma top_indices_sorted (similaridades : list Q) (top_k : Z) :
  StronglySorted
    (fun p q => (valor similaridades q <= valor similaridades p)%Q)
    (top_indices similaridades top_k).
Proof.
  eapply StronglySorted_sublist; [apply top_indices_sublist|].
  apply rev_argsort_sorted.
Qed.

(** No position left out of [top_indices] has a higher score than a
    position in it. *)
Lemma top_indices_best (similaridades : list Q) (top_k : Z) (p q : nat) :
  p ∈ top_indices similaridades top_k ->
  (q < length similaridades)%nat ->
  q ∉ top_indices similaridades top_k ->
  (valor similaridades q <= valor similaridades p)%Q.
Proof.
  unfold top_indices. rewrite slice_to_clamp.
  set (m := Z.to_nat (clamp_index (len (rev (argsort similaridades))) top_k)).
  intros Hp Hq Hnq.
  pose proof (rev_argsort_sorted similaridades) as Hs.
  rewrite <- (take_drop m (rev (argsort similaridades))) in Hs.
  apply StronglySorted_app in Hs as [Hs _]. apply Hs; [done|].
  assert (Hin : q ∈ rev (argsort similaridades)).
  { rewrite rev_argsort_perm. apply elem_of_seq. lia. }
  rewrite <- (take_drop m (rev (argsort similaridades))) in Hin.
  apply elem_of_app in Hin as [Hin|Hin]; done.
Qed.

Lemma ranking_top_indices (similaridades : list Q) (chunks : list Chunk.t)
    (top_k : Z) :
  length similaridades = length chunks ->
  exists rs,
    ranking similaridades chunks (top_indices similaridades top_k) [] = Ok rs
    /\ Forall2 (do_ranking similaridades chunks)
         (filter (fun idx => acima_do_limiar similaridades idx = true)
            (top_indices similaridades top_k)) rs.
Proof.
  intros Hlen.
  destruct (ranking_total similaridades chunks
              (top_indices similaridades top_k) []) as [out Hout].
  { apply Forall_forall. intros idx Hin. apply top_indices_valid in Hin. lia. }
  exists out. split; [done|].
  apply ranking_ok in Hout as (rs & -> & Hall). done.
Qed.

Lemma acima_do_limiar_spec (similaridades : list Q) (idx : nat) :
  acima_do_limiar similaridades idx = true
  <-> exists s, similaridades !! idx = Some s /\ (limiar < s)%Q.
Proof.
  unfold acima_do_limiar. destruct (similaridades !! idx) as [s|].
  - rewrite Qgtb_spec. split; [by exists s | by intros (s' & [= <-] & Hs)].
  - split; [done | by intros (s & ? & _)].
Qed.

Lemma do_ranking_valor (similaridades : list Q) (chunks : list Chunk.t)
    (idx : nat) (r : Resultado.t) :
  do_ranking similaridades chunks idx r ->
  valor similaridades idx = Resultado.similaridade r.
Proof. intros [[_ Hs] _]. unfold valor. by rewrite Hs. Qed.

End RankingProperties.

(** ** The small library meets the contracts *)

Module SmallLibLaws.
Import SmallLib.

Lemma insere_perm (x : Q * nat) (l : list (Q * nat)) :
  Permutation (insere x l) (x :: l).
Proof.
  induction l as [|y l IH]; simpl; [done|].
  destruct (Qgtb (fst x) (fst y)); [|done].
  rewrite IH. apply perm_swap.
Qed.

Lemma ordena_perm (l : list (Q * nat)) : Permutation (ordena l) l.
Proof.
  induction l as [|x l IH]; simpl; [done|].
  rewrite insere_perm. by constructor.
Qed.

Lemma insere_antes (x : Q * nat) (l : list (Q * nat)) :
  StronglySorted antes l ->
  Forall (fun y => (snd x < snd y)%nat) l ->
  StronglySorted antes (insere x l).
Proof.
  induction 1 as [|y l Hl IH Hy]; intros Hx; simpl; [repeat constructor|].
  apply Forall_cons in Hx as [Hxy Hx].
  destruct (Qgtb (fst x) (fst y)) eqn:Hg.
  - apply Qgtb_spec in Hg. constructor; [by apply IH|].
    rewrite insere_perm. constructor; [|done].
    split; [by apply Qlt_le_weak|].
    intros Heq. rewrite Heq in Hg. by apply Qlt_irrefl in Hg.
  - assert (Hle : (fst x <= fst y)%Q).
    { apply Qnot_lt_le. intros Hlt. apply Qgtb_spec in Hlt. congruence. }
    constructor; [by constructor|].
    constructor; [by split|].
    rewrite Forall_forall in Hy, Hx |- *. intros z Hz.
    split; [|intros _; by apply Hx].
    eapply Qle_trans; [exact Hle|]. by apply Hy.
Qed.

Lemma ordena_antes (l : list (Q * nat)) :
  StronglySorted (fun x y => (snd x < snd y)%nat) l ->
  StronglySorted antes (ordena l).
Proof.
  induction 1 as [|x l Hl IH Hx]; simpl; [constructor|].
  apply insere_antes; [done|]. by rewrite ordena_perm.
Qed.

Lemma combine_seq (a : list Q) (s : nat) :
  StronglySorted (fun x y => (snd x < snd y)%nat) (combine a (seq s (length a)))
  /\ Forall (fun x => (s <= snd x)%nat /\ a !! (snd x - s)%nat = Some (fst x))
       (combine a (seq s (length a)))
  /\ map snd (combine a (seq s (length a))) = seq s (length a).
Proof.
  revert s. induction a as [|v a IH]; intros s; simpl.
  - repeat split; constructor.
  - destruct (IH (S s)) as (Hs & Hall & Hmap). split; [|split].
    + constructor; [done|].
      eapply Forall_impl; [exact Hall|]. simpl. lia.
    + constructor; [simpl; split; [lia | by rewrite Nat.sub_diag]|].
      eapply Forall_impl; [exact Hall|]. simpl. intros [w i] [Hi Hw].
      simpl in *. split; [lia|].
      replace (i - s)%nat with (S (i - S s)) by lia. done.
    + by rewrite Hmap.
Qed.

Lemma ordena_combine (a : list Q) :
  StronglySorted antes (ordena (combine a (seq 0 (length a))))
  /\ Forall (fun x => valor a (snd x) = fst x)
       (ordena (combine a (seq 0 (length a)))).
Proof.
  destruct (combine_seq a 0) as (Hs & Hall & _). split.
  - by apply ordena_antes.
  - rewrite ordena_perm. eapply Forall_impl; [exact Hall|].
    intros [v i] [_ Hv]. simpl in *. unfold valor.
    by rewrite Nat.sub_0_r in Hv; rewrite Hv.
Qed.

Lemma Forall2_map_snd (a : list Q) (l : list (Q * nat)) :
  Forall (fun x => valor a (snd x) = fst x) l ->
  Forall2 (fun x p => snd x = p /\ valor a p = fst x) l (map snd l).
Proof. induction 1; constructor; auto. Qed.

#[export] Instance argsort_ok : ArgsortOk (H := lib).
Proof.
  split; intros a; simpl; unfold argsort.
  - rewrite ordena_perm. by rewrite (proj2 (proj2 (combine_seq a 0))).
  - destruct (ordena_combine a) as [Hs Hv].
    eapply StronglySorted_Forall2; [|by apply Forall2_map_snd|exact Hs].
    intros x y p q [Hle _] [<- Hp] [<- Hq]. by rewrite Hp, Hq.
Qed.

Lemma jaccard_le_1 (x y : list str) : (jaccard x y <= 1)%Q.
Proof.
  unfold jaccard. set (u := remove_dups (x ++ y)).
  pose proof (length_filter (fun t => t ∈ x ∧ t ∈ y) u) as Hf.
  destruct (length u) as [|n] eqn:Hu; [done|].
  unfold Qle. simpl Qnum. simpl Qden. lia.
Qed.

End SmallLibLaws.

(** ** Retriever: threshold, truncation and order of the ranking pass *)

(** C6, counterexample. Two chunks ["spaece dcrc bncc"], query ["zebra"]:
    both chunks share every term with the expanded query and score 1.
    With [top_k = 5] the ranking pass returns both; with [top_k = 1] it
    returns one of them only, so the other is left out although its score
    is above 0.05. *)
Lemma ranking_pass_leaves_out_score_above_threshold :
  dividir_em_chunks corpus_par 3 0 = Ok [chunk_par 0; chunk_par 1]
  /\ buscar_informacoes_relevantes (py "zebra")
       (carregar (H := SmallLib.lib) corpus_par 3 0) 5
     = Ok [resultado_par 1; resultado_par 0]
  /\ buscar_informacoes_relevantes (py "zebra")
       (carregar (H := SmallLib.lib) corpus_par 3 0) 1
     = Ok [resultado_par 1]
  /\ (limiar < Resultado.similaridade (resultado_par 0))%Q.
Proof. repeat split; vm_compute; reflexivity. Qed.

(** C6, amended. For [top_k >= 0] the ranking pass looks at the
    [min top_k n] positions that [argsort] ranks best, none of which
    scores below a position left out. A chunk is in the result list of
    the pass if and only if its position is one of these and its score is
    strictly greater than 0.05. The results are at most [top_k], each
    position at most once, in descending order of score. *)
Theorem ranking_pass_threshold `{Lib} `{!ArgsortOk} (similaridades : list Q)
    (chunks : list Chunk.t) (top_k : Z) :
  length similaridades = length chunks ->
  exists idxs rs,
    ranking similaridades chunks (top_indices similaridades top_k) [] = Ok rs
    /\ Forall2 (resultado_de similaridades chunks) idxs rs
    /\ NoDup idxs
    /\ (forall idx,
          idx ∈ idxs
          <-> idx ∈ top_indices similaridades top_k
              /\ exists s, similaridades !! idx = Some s /\ (limiar < s)%Q)
    /\ (forall idx s,
          similaridades !! idx = Some s -> (s == limiar)%Q -> idx ∉ idxs)
    /\ (forall p q,
          p ∈ top_indices similaridades top_k ->
          (q < length similaridades)%nat ->
          q ∉ top_indices similaridades top_k ->
          (valor similaridades q <= valor similaridades p)%Q)
    /\ (0 <= top_k ->
        length (top_indices similaridades top_k)
        = Nat.min (Z.to_nat top_k) (length similaridades)
        /\ len rs <= top_k)
    /\ StronglySorted
         (fun r1 r2 => (Resultado.similaridade r2 <= Resultado.similaridade r1)%Q)
         rs.
Proof.
  intros Hlen.
  destruct (ranking_top_indices similaridades chunks top_k Hlen)
    as (rs & Hrs & Hall).
  set (idxs := filter (fun idx => acima_do_limiar similaridades idx = true)
                 (top_indices similaridades top_k)) in *.
  exists idxs, rs. split; [done|].
  split; [|split; [|split; [|split; [|split; [|split]]]]].
  - eapply Forall2_impl; [exact Hall|]. by intros idx r [Hr _].
  - apply NoDup_filter, top_indices_NoDup.
  - intros idx. subst idxs. rewrite list_elem_of_filter, acima_do_limiar_spec.
    tauto.
  - intros idx s Hs Heq Hin. subst idxs.
    apply list_elem_of_filter in Hin as [Hin _].
    apply acima_do_limiar_spec in Hin as (s' & Hs' & Hlt).
    rewrite Hs in Hs'. injection Hs' as <-.
    rewrite Heq in Hlt. by apply Qlt_irrefl in Hlt.
  - apply top_indices_best.
  - intros Hk. split; [by apply top_indices_length|].
    apply Forall2_length in Hall. unfold len. rewrite <- Hall.
    pose proof (length_filter
                  (fun idx => acima_do_limiar similaridades idx = true)
                  (top_indices similaridades top_k)) as Hf.
    fold idxs in Hf. rewrite top_indices_length in Hf by done. lia.
  - eapply (StronglySorted_Forall2
              (fun p q => (valor similaridades q <= valor similaridades p)%Q));
      [|exact Hall|].
    + intros p q r1 r2 Hpq H1 H2. simpl in Hpq.
      apply do_ranking_valor in H1, H2. by rewrite <- H1, <- H2.
    + eapply StronglySorted_sublist; [apply sublist_filter; apply _|].
      apply top_indices_sorted.
Qed.

Lemma ranking_pass_threshold_witness :
  exists idxs rs,
    ranking (H := SmallLib.lib) [1 # 20; 1 # 2; 9 # 10]
      [Chunk.mk (py "a") 0 0; Chunk.mk (py "b") 1 1; Chunk.mk (py "c") 2 2]
      (top_indices (H := SmallLib.lib) [1 # 20; 1 # 2; 9 # 10] 2) [] = Ok rs
    /\ Forall2 (resultado_de [1 # 20; 1 # 2; 9 # 10]
                  [Chunk.mk (py "a") 0 0; Chunk.mk (py "b") 1 1;
                   Chunk.mk (py "c") 2 2]) idxs rs
    /\ len rs <= 2.
Proof.
  destruct (@ranking_pass_threshold SmallLib.lib SmallLibLaws.argsort_ok
              [1 # 20; 1 # 2; 9 # 10]
              [Chunk.mk (py "a") 0 0; Chunk.mk (py "b") 1 1;
               Chunk.mk (py "c") 2 2] 2 eq_refl)
    as (idxs & rs & Hr & Hall & _ & _ & _ & _ & Hk & _).
  exists idxs, rs. split; [exact Hr | split; [exact Hall|]].
  apply Hk. lia.
Defined.

(** C7, counterexample. Two chunks with the same text, hence the same
    score; [argsort] gives their positions as 0, 1, the reversal turns
    that into 1, 0, and the ranking pass returns the later chunk
    first. *)
Lemma ranking_pass_tie_later_chunk_first :
  buscar_informacoes_relevantes (py "zebra")
    (carregar (H := SmallLib.lib) corpus_par 3 0) 5
  = Ok [resultado_par 1; resultado_par 0]
  /\ Resultado.similaridade (resultado_par 1)
     = Resultado.similaridade (resultado_par 0)
  /\ Chunk.indice (Resultado.chunk (resultado_par 0))
     < Chunk.indice (Resultado.chunk (resultado_par 1)).
Proof. repeat split; vm_compute; reflexivity. Qed.


(* ===================================================================== *)
(** * Scores and order of equal scores *)
(* ===================================================================== *)

(** ** Retriever: the scores under binary64 arithmetic *)

(** C10, counterexample. Two chunks ["spaece dcrc bncc"], query
    ["habilidade"], [top_k = 1]: every term of the corpus occurs in both
    chunks and once in the expanded query, so the three rows are equal,
    five equal weights each, and the exact cosine is 1. Computed in
    binary64 as the library computes it, the score of the chunk the
    ranking pass returns is 1 + 2^-52 (printed 1.0000000000000002), which
    is greater than 1. *)
Lemma buscar_score_above_one :
  dividir_em_chunks corpus_par 3 0 = Ok [chunk_par 0; chunk_par 1]
  /\ Binary64.pesos_iguais (map Chunk.texto [chunk_par 0; chunk_par 1]) = true
  /\ map (fun t =>
            Binary64.contagem t
              (SmallLib.termos
                 (consulta_expandida (H := Binary64.lib) (py "habilidade"))))
       [py "bncc"; py "dcrc"; py "dcrc bncc"; py "spaece"; py "spaece dcrc"]
     = [1; 1; 1; 1; 1]%nat
  /\ buscar_informacoes_relevantes (H := Binary64.lib) (py "habilidade")
       (carregar (H := Binary64.lib) corpus_par 3 0) 1
     = Ok [ {| Resultado.chunk := chunk_par 1;
               Resultado.similaridade := 4503599627370497 # 4503599627370496;
               Resultado.texto := py "spaece dcrc bncc";
               Resultado.fonte := Some (py "DCRC") |};
            {| Resultado.chunk := chunk_par 0;
               Resultado.similaridade := sim_habilidade;
               Resultado.texto := py "spaece dcrc bncc";
               Resultado.fonte := Some (py "BNCC") |} ]
  /\ (1 < 4503599627370497 # 4503599627370496)%Q.
Proof. repeat split; vm_compute; reflexivity. Qed.

Lemma buscar_scores_witness :
  exists out,
    buscar_informacoes_relevantes (H := SmallLib.lib) (py "habilidade")
      (carregar (H := SmallLib.lib) corpus_par 3 0) 1 = Ok out
    /\ Forall (fun r => (Resultado.similaridade r <= 1)%Q) out.
Proof.
  destruct (@buscar_scores SmallLib.lib (py "habilidade")
              (carregar (H := SmallLib.lib) corpus_par 3 0) 1)
    as (out & Hb & _ & Hle).
  exists out. split; [exact Hb|]. apply Hle.
  intros s (indice & cv & linhas & _ & _ & Hc & Hs).
  injection Hc as <-.
  apply list_elem_of_In, in_concat in Hs as (linha & Hl & Hs).
  apply list_elem_of_In, list_elem_of_fmap in Hl as (x & -> & _).
  apply list_elem_of_In, list_elem_of_fmap in Hs as (y & -> & _).
  apply SmallLibLaws.jaccard_le_1.
Defined.

(** ** Retriever: what the order of equal scores depends on *)

Lemma StronglySorted_lookup_lt {A} (R : A -> A -> Prop) (l : list A)
    (i j : nat) (x y : A) :
  StronglySorted R l -> l !! i = Some x -> l !! j = Some y -> (i < j)%nat ->
  R x y.
Proof.
  intros Hs. revert i j.
  induction Hs as [|z l Hs IH Hz]; intros i j Hi Hj Hij; [done|].
  destruct i as [|i], j as [|j]; try lia; simpl in *.
  - injection Hi as ->. rewrite Forall_forall in Hz. apply Hz.
    by eapply list_elem_of_lookup_2.
  - eapply IH; [exact Hi | exact Hj | lia].
Qed.

#[local] Instance Qlt_decision (a b : Q) : Decision (a < b)%Q.
Proof.
  destruct (Qlt_le_dec a b) as [Hlt|Hle]; [by left | right; by apply Qle_not_lt].
Defined.

Lemma filter_none {A} (P : A -> Prop) `{forall x, Decision (P x)} (l : list A) :
  Forall (fun x => ~ P x) l -> filter P l = [].
Proof.
  induction 1 as [|x l Hx _ IH]; [done|]. by rewrite filter_cons_False.
Qed.

Lemma filter_all {A} (P : A -> Prop) `{forall x, Decision (P x)} (l : list A) :
  Forall P l -> filter P l = l.
Proof.
  induction 1 as [|x l Hx _ IH]; [done|]. by rewrite filter_cons_True, IH.
Qed.

Lemma Forall2_filter {A} (R : A -> A -> Prop) (P : A -> Prop)
    `{forall x, Decision (P x)} (l k : list A) :
  (forall x y, R x y -> P x <-> P y) ->
  Forall2 R l k -> Forall2 R (filter P l) (filter P k).
Proof.
  intros HP. induction 1 as [|x y l k Hxy Hlk IH]; [constructor|].
  destruct (decide (P x)) as [Hx|Hx].
  - rewrite (filter_cons_True P x) by done.
    rewrite (filter_cons_True P y) by (by apply (HP x y)).
    by constructor.
  - rewrite (filter_cons_False P x) by done.
    rewrite (filter_cons_False P y) by (by rewrite <- (HP x y)).
    done.
Qed.

(** Two lists of the same positions, both in descending order of the
    values, have at each place a value that is not smaller in the one
    than in the other: otherwise the values greater than the smaller one
    would be more in one list than in the other. *)
Lemma desc_sorted_lookup_le (a : list Q) (l1 l2 : list nat) (i p q : nat) :
  Permutation l1 l2 ->
  StronglySorted (fun x y => (valor a y <= valor a x)%Q) l1 ->
  StronglySorted (fun x y => (valor a y <= valor a x)%Q) l2 ->
  l1 !! i = Some p -> l2 !! i = Some q ->
  (valor a q <= valor a p)%Q.
Proof.
  intros Hperm H1 H2 Hp Hq.
  destruct (Qlt_le_dec (valor a p) (valor a q)) as [Hlt|Hle]; [exfalso|done].
  set (P := fun x : nat => (valor a p < valor a x)%Q).
  assert (Hc : length (filter P l1) = length (filter P l2))
    by apply Permutation_length, (filter_Permutation P), Hperm.
  assert (Hc1 : (length (filter P l1) <= i)%nat).
  { rewrite <- (take_drop i l1), filter_app, length_app.
    rewrite (filter_none P (drop i l1)).
    - simpl. pose proof (length_filter P (take i l1)) as Hf.
      rewrite length_take in Hf. lia.
    - apply Forall_forall. intros x Hx.
      apply list_elem_of_lookup in Hx as [j Hj].
      rewrite lookup_drop in Hj. unfold P. apply Qle_not_lt.
      destruct j as [|j].
      + rewrite Nat.add_0_r, Hp in Hj. injection Hj as <-. apply Qle_refl.
      + apply (StronglySorted_lookup_lt _ l1 i (i + S j) p x H1 Hp Hj). lia. }
  assert (Hc2 : (S i <= length (filter P l2))%nat).
  { rewrite <- (take_drop (S i) l2), filter_app, length_app.
    rewrite (filter_all P (take (S i) l2)).
    - rewrite length_take. apply lookup_lt_Some in Hq. lia.
    - apply Forall_forall. intros x Hx.
      apply list_elem_of_lookup in Hx as [j Hj].
      apply lookup_take_Some in Hj as [Hj Hji]. unfold P.
      eapply Qlt_le_trans; [exact Hlt|].
      destruct (decide (j = i)) as [->|Hne].
      + rewrite Hq in Hj. injection Hj as <-. apply Qle_refl.
      + apply (StronglySorted_lookup_lt _ l2 j i x q H2 Hj Hq). lia. }
  lia.
Qed.

Lemma desc_sorted_Forall2 (a : list Q) (l1 l2 : list nat) :
  Permutation l1 l2 ->
  StronglySorted (fun x y => (valor a y <= valor a x)%Q) l1 ->
  StronglySorted (fun x y => (valor a y <= valor a x)%Q) l2 ->
  Forall2 (fun p q => (valor a p == valor a q)%Q) l1 l2.
Proof.
  intros Hperm H1 H2. apply Forall2_same_length_lookup.
  split; [by apply Permutation_length|]. intros i p q Hp Hq.
  apply Qle_antisym.
  - by apply (desc_sorted_lookup_le a l2 l1 i q p).
  - by apply (desc_sorted_lookup_le a l1 l2 i p q).
Qed.

Lemma acima_do_limiar_valor (similaridades : list Q) (idx : nat) :
  acima_do_limiar similaridades idx = Qgtb (valor similaridades idx) limiar.
Proof.
  unfold acima_do_limiar, valor. by destruct (similaridades !! idx).
Qed.

Lemma Qgtb_Qeq (a b c : Q) : (a == b)%Q -> Qgtb a c = Qgtb b c.
Proof.
  intros Hab.
  destruct (Qgtb a c) eqn:Ea, (Qgtb b c) eqn:Eb; try done.
  - apply Qgtb_spec in Ea. rewrite Hab in Ea. apply Qgtb_spec in Ea. congruence.
  - apply Qgtb_spec in Eb. rewrite <- Hab in Eb. apply Qgtb_spec in Eb.
    congruence.
Qed.

Section TieOrder.
Context (L : Lib) (f : list Q -> list nat).
Context (ok1 : ArgsortOk (H := L)) (ok2 : ArgsortOk (H := com_argsort L f)).

(** The two sorts rank the same values at the same places. *)
Lemma rev_argsort_valores (a : list Q) :
  Forall2 (fun p q => (valor a p == valor a q)%Q)
    (rev (argsort (Lib := L) a)) (rev (f a)).
Proof.
  apply desc_sorted_Forall2.
  - rewrite (rev_argsort_perm (H := L) a).
    symmetry. apply (rev_argsort_perm (H := com_argsort L f) a).
  - apply (rev_argsort_sorted (H := L) a).
  - apply (rev_argsort_sorted (H := com_argsort L f) a).
Qed.

Lemma top_indices_valores (a : list Q) (top_k : Z) :
  Forall2 (fun p q => (valor a p == valor a q)%Q)
    (filter (fun idx => acima_do_limiar a idx = true)
       (top_indices (H := L) a top_k))
    (filter (fun idx => acima_do_limiar a idx = true)
       (top_indices (H := com_argsort L f) a top_k)).
Proof.
  pose proof (rev_argsort_valores a) as Hall.
  apply Forall2_filter.
  - intros p q Hpq. rewrite !acima_do_limiar_valor.
    by rewrite (Qgtb_Qeq _ _ _ Hpq).
  - unfold top_indices. rewrite !slice_to_clamp. unfold len.
    change (argsort (Lib := com_argsort L f) a) with (f a).
    rewrite <- (Forall2_length _ _ _ Hall). by apply Forall2_take.
Qed.

(** Without equal values the two sorts return the same positions. *)
Lemma rev_argsort_sem_empates (a : list Q) :
  sem_empates a -> rev (argsort (Lib := L) a) = rev (f a).
Proof.
  intros Hsem.
  pose proof (rev_argsort_valores a) as Hall.
  assert (Hv1 : forall p, p ∈ rev (argsort (Lib := L) a) -> (p < length a)%nat).
  { intros p. rewrite (rev_argsort_perm (H := L) a), elem_of_seq. lia. }
  assert (Hv2 : forall q, q ∈ rev (f a) -> (q < length a)%nat).
  { intros q. rewrite (rev_argsort_perm (H := com_argsort L f) a), elem_of_seq.
    lia. }
  apply list_eq_same_length with (length (rev (f a)));
    [done | by apply Forall2_length in Hall |].
  intros i p q _ Hp Hq.
  rewrite Forall2_same_length_lookup in Hall. destruct Hall as [_ Hall].
  specialize (Hall i p q Hp Hq).
  apply list_elem_of_lookup_2, Hv1 in Hp. apply list_elem_of_lookup_2, Hv2 in Hq.
  destruct (Nat.lt_trichotomy p q) as [Hlt|[->|Hlt]]; [|done|].
  - exfalso. by apply (Hsem p q).
  - exfalso. apply (Hsem q p); [lia|]. by symmetry.
Qed.

End TieOrder.

(** C7, amended. Let [f] be any function that meets the contract of
    [np.argsort], in the place of the library's. The results of the
    ranking pass are in the reverse of the order [argsort] gives the
    positions, cut at [top_k] and filtered by the threshold, so that
    equal scores come out in the order the sort gives them, not in
    first-seen order. With [f] the pass returns the same scores in the
    same order; and when no two chunks have equal scores it returns the
    same list, and so do the three passes together. *)
Theorem ranking_pass_up_to_tie_order (L : Lib) (f : list Q -> list nat)
    (consulta : str) (similaridades : list Q) (chunks : list Chunk.t)
    (top_k : Z) :
  ArgsortOk (H := L) ->
  ArgsortOk (H := com_argsort L f) ->
  length similaridades = length chunks ->
  exists rs1 rs2,
    ranking (H := L) similaridades chunks
      (top_indices (H := L) similaridades top_k) [] = Ok rs1
    /\ ranking (H := com_argsort L f) similaridades chunks
         (top_indices (H := com_argsort L f) similaridades top_k) [] = Ok rs2
    /\ Forall2 (resultado_de similaridades chunks)
         (filter (fun idx => acima_do_limiar similaridades idx = true)
            (slice_to (rev (argsort (Lib := L) similaridades)) top_k)) rs1
    /\ Forall2 (resultado_de similaridades chunks)
         (filter (fun idx => acima_do_limiar similaridades idx = true)
            (slice_to (rev (f similaridades)) top_k)) rs2
    /\ Forall2 (fun r1 r2 =>
                  (Resultado.similaridade r1 == Resultado.similaridade r2)%Q)
         rs1 rs2
    /\ (sem_empates similaridades ->
        rs1 = rs2
        /\ passes (H := com_argsort L f) consulta chunks similaridades top_k
           = passes (H := L) consulta chunks similaridades top_k).
Proof.
  intros ok1 ok2 Hlen.
  destruct (ranking_top_indices (H := L) similaridades chunks top_k Hlen)
    as (rs1 & Hr1 & Hall1).
  destruct (ranking_top_indices (H := com_argsort L f) similaridades chunks
              top_k Hlen) as (rs2 & Hr2 & Hall2).
  exists rs1, rs2. split; [exact Hr1|]. split; [exact Hr2|].
  split; [|split; [|split]].
  - eapply Forall2_impl; [exact Hall1|]. by intros idx r [Hr _].
  - eapply Forall2_impl; [exact Hall2|]. by intros idx r [Hr _].
  - pose proof (top_indices_valores L f ok1 ok2 similaridades top_k) as Hv.
    apply Forall2_same_length_lookup. split.
    + apply Forall2_length in Hall1, Hall2, Hv. congruence.
    + intros i r1 r2 Hi1 Hi2.
      destruct (Forall2_lookup_r _ _ _ _ _ Hall1 Hi1) as (p & Hp & Hd1).
      destruct (Forall2_lookup_r _ _ _ _ _ Hall2 Hi2) as (q & Hq & Hd2).
      rewrite Forall2_same_length_lookup in Hv. destruct Hv as [_ Hv].
      specialize (Hv i p q Hp Hq).
      rewrite <- (do_ranking_valor (H := L) _ _ _ _ Hd1).
      by rewrite <- (do_ranking_valor (H := com_argsort L f) _ _ _ _ Hd2).
  - intros Hsem.
    assert (Et : top_indices (H := com_argsort L f) similaridades top_k
                 = top_indices (H := L) similaridades top_k).
    { unfold top_indices.
      change (argsort (Lib := com_argsort L f) similaridades)
        with (f similaridades).
      by rewrite (rev_argsort_sem_empates L f ok1 ok2 similaridades Hsem). }
    split.
    + rewrite Et in Hr2.
      change (ranking (H := L) similaridades chunks
                (top_indices (H := L) similaridades top_k) [] = Ok rs2) in Hr2.
      congruence.
    + unfold passes. by rewrite Et.
Qed.

(** The second sort meets the contract of [np.argsort]. *)
Lemma insere_apos_perm (x : Q * nat) (l : list (Q * nat)) :
  Permutation (insere_apos x l) (x :: l).
Proof.
  induction l as [|y l IH]; simpl; [done|].
  destruct (Qgtb (fst y) (fst x)); [done|].
  rewrite IH. apply perm_swap.
Qed.

Lemma ordena_apos_perm (l : list (Q * nat)) : Permutation (ordena_apos l) l.
Proof.
  induction l as [|x l IH]; simpl; [done|].
  rewrite insere_apos_perm. by constructor.
Qed.

Lemma insere_apos_sorted (x : Q * nat) (l : list (Q * nat)) :
  StronglySorted (fun y z => (fst y <= fst z)%Q) l ->
  StronglySorted (fun y z => (fst y <= fst z)%Q) (insere_apos x l).
Proof.
  induction 1 as [|y l Hl IH Hy]; simpl; [repeat constructor|].
  destruct (Qgtb (fst y) (fst x)) eqn:Hg.
  - apply Qgtb_spec in Hg. constructor; [by constructor|].
    constructor; [by apply Qlt_le_weak|].
    eapply Forall_impl; [exact Hy|]. intros z Hz. simpl in Hz.
    eapply Qle_trans; [apply Qlt_le_weak, Hg | exact Hz].
  - assert (Hle : (fst y <= fst x)%Q).
    { apply Qnot_lt_le. intros Hlt. apply Qgtb_spec in Hlt. congruence. }
    constructor; [done|]. rewrite insere_apos_perm. by constructor.
Qed.

Lemma ordena_apos_sorted (l : list (Q * nat)) :
  StronglySorted (fun y z => (fst y <= fst z)%Q) (ordena_apos l).
Proof.
  induction l as [|x l IH]; simpl; [constructor|]. by apply insere_apos_sorted.
Qed.

Lemma argsort_inverso_ok :
  ArgsortOk (H := com_argsort SmallLib.lib argsort_inverso).
Proof.
  split; intros a; simpl; unfold argsort_inverso.
  - rewrite ordena_apos_perm.
    by rewrite (proj2 (proj2 (SmallLibLaws.combine_seq a 0))).
  - assert (Hv : Forall (fun x => valor a (snd x) = fst x)
                   (ordena_apos (combine a (seq 0 (length a))))).
    { rewrite ordena_apos_perm.
      destruct (SmallLibLaws.combine_seq a 0) as (_ & Hall & _).
      eapply Forall_impl; [exact Hall|].
      intros [v i] [_ Hi]. simpl in *. unfold valor.
      by rewrite Nat.sub_0_r in Hi; rewrite Hi. }
    eapply (StronglySorted_Forall2 (fun y z => (fst y <= fst z)%Q));
      [|by apply SmallLibLaws.Forall2_map_snd | apply ordena_apos_sorted].
    intros x y p q Hle [<- Hp] [<- Hq]. by rewrite Hp, Hq.
Qed.

Lemma ranking_pass_up_to_tie_order_witness :
  exists rs1 rs2,
    ranking (H := SmallLib.lib) [1 # 2; 1]%Q [chunk_par 0; chunk_par 1]
      (top_indices (H := SmallLib.lib) [1 # 2; 1]%Q 5) [] = Ok rs1
    /\ ranking (H := com_argsort SmallLib.lib argsort_inverso) [1 # 2; 1]%Q
         [chunk_par 0; chunk_par 1]
         (top_indices (H := com_argsort SmallLib.lib argsort_inverso)
            [1 # 2; 1]%Q 5) [] = Ok rs2
    /\ Forall2 (resultado_de [1 # 2; 1]%Q [chunk_par 0; chunk_par 1])
         (filter (fun idx => acima_do_limiar [1 # 2; 1]%Q idx = true)
            (slice_to (rev (SmallLib.argsort [1 # 2; 1]%Q)) 5)) rs1
    /\ Forall2 (resultado_de [1 # 2; 1]%Q [chunk_par 0; chunk_par 1])
         (filter (fun idx => acima_do_limiar [1 # 2; 1]%Q idx = true)
            (slice_to (rev (argsort_inverso [1 # 2; 1]%Q)) 5)) rs2
    /\ Forall2 (fun r1 r2 =>
                  (Resultado.similaridade r1 == Resultado.similaridade r2)%Q)
         rs1 rs2
    /\ rs1 = rs2
    /\ passes (H := com_argsort SmallLib.lib argsort_inverso) (py "zebra")
         [chunk_par 0; chunk_par 1] [1 # 2; 1]%Q 5
       = passes (H := SmallLib.lib) (py "zebra")
           [chunk_par 0; chunk_par 1] [1 # 2; 1]%Q 5.
Proof.
  destruct (ranking_pass_up_to_tie_order SmallLib.lib argsort_inverso
              (py "zebra") [1 # 2; 1]%Q [chunk_par 0; chunk_par 1] 5
              SmallLibLaws.argsort_ok argsort_inverso_ok eq_refl)
    as (rs1 & rs2 & H1 & H2 & H3 & H4 & H5 & H6).
  exists rs1, rs2. repeat split; try assumption; apply H6;
    intros p q Hpq; simpl in Hpq;
    (assert (Hp : p = 0%nat) by lia); (assert (Hq : q = 1%nat) by lia);
    subst p q; by vm_compute.
Defined.

(** With equal scores the order of the results is the order of the sort:
    on the input of the counterexample the second sort, which meets the
    same contract, gives the positions of the two equal scores as 1, 0,
    and the two chunks come back in the other order, with the same
    scores. *)
Lemma buscar_tie_order_follows_the_sort :
  SmallLib.argsort [1; 1]%Q = [0; 1]%nat
  /\ argsort_inverso [1; 1]%Q = [1; 0]%nat
  /\ buscar_informacoes_relevantes
       (H := com_argsort SmallLib.lib argsort_inverso) (py "zebra")
       (carregar (H := com_argsort SmallLib.lib argsort_inverso) corpus_par 3 0)
       5
     = Ok [resultado_par 0; resultado_par 1].
Proof. repeat split; vm_compute; reflexivity. Qed.

(* ===================================================================== *)
(** * Further properties of the code *)
(* ===================================================================== *)

(** ** Chunker: coverage and shape of the chunks *)

Lemma concat_blocos {A} (l : list A) (s m : nat) :
  concat (map (fun k : nat => take s (drop (k * s) l)) (seq 0 m)) = take (m * s) l.
Proof.
  induction m as [|m IH]; [done|].
  rewrite seq_S, map_app, concat_app, IH. simpl. rewrite app_nil_r.
  rewrite take_take_drop. f_equal. lia.
Qed.

Lemma n_janelas_reaches (n passo : Z) :
  0 < passo -> n <= Z.of_nat (n_janelas n passo) * passo.
Proof.
  intros Hp. destruct (Z.le_gt_cases n (Z.of_nat (n_janelas n passo) * passo))
    as [|Hlt]; [done|].
  apply n_janelas_complete in Hlt; lia.
Qed.

(** X1. With an overlap [0 <= sobreposicao < tamanho_chunk] no word is
    lost and the order is kept: the first [tamanho_chunk - sobreposicao]
    words of each chunk, put one after the other, are the words of the
    text. *)
Theorem dividir_em_chunks_covers_words (texto : str) (t o : Z)
    (chunks : list Chunk.t) :
  0 <= o < t ->
  dividir_em_chunks texto t o = Ok chunks ->
  concat (map (fun c => take (Z.to_nat (t - o)) (split (Chunk.texto c))) chunks)
  = split texto.
Proof.
  intros Hot Hd.
  rewrite dividir_em_chunks_janelas in Hd by lia. injection Hd as <-.
  pose proof (split_palavras texto) as Hp.
  set (P := split texto) in *.
  rewrite map_map.
  rewrite (map_ext_in _
             (fun k : nat => take (Z.to_nat (t - o))
                               (drop (k * Z.to_nat (t - o)) P))).
  - rewrite concat_blocos. apply take_ge.
    pose proof (n_janelas_reaches (len P) (t - o)) as Hr. unfold len in *. nia.
  - intros k _. rewrite janela_palavras by (done || lia).
    rewrite take_take. f_equal; [lia|]. f_equal. nia.
Qed.

Lemma dividir_em_chunks_covers_words_witness :
  concat (map (fun c => take (Z.to_nat (3 - 1)) (split (Chunk.texto c)))
            [ Chunk.mk (py "a b c") 0 0; Chunk.mk (py "c d e") 1 2;
              Chunk.mk (py "e") 2 4 ])
  = split (py "a b c d e").
Proof.
  apply (dividir_em_chunks_covers_words (py "a b c d e") 3 1); [lia|].
  reflexivity.
Defined.

Lemma range_posicoes (n passo : Z) (ps : list Z) :
  0 <= n ->
  range 0 n passo = Ok ps ->
  Forall (fun i => 0 <= i < n /\ (passo | i)) ps.
Proof.
  intros Hn Hr.
  destruct (Z.lt_trichotomy passo 0) as [Hneg|[->|Hpos]].
  - rewrite range_negative in Hr by done. injection Hr as <-. constructor.
  - discriminate.
  - rewrite range_positive in Hr by done. injection Hr as <-.
    apply Forall_forall. intros i Hi.
    apply list_elem_of_fmap in Hi as (k & -> & Hk).
    apply elem_of_seq in Hk as [_ Hk]. simpl in Hk.
    apply n_janelas_bound in Hk; [|done].
    split; [lia|]. exists (Z.of_nat k). lia.
Qed.

Lemma slice_from_position {A} (l : list A) (i hi : Z) :
  0 <= i < len l ->
  exists m, slice l i hi = take m (drop (Z.to_nat i) l).
Proof.
  intros Hi. unfold slice. eexists. f_equal. f_equal.
  unfold clamp_index. destruct (Z.ltb_spec i 0); lia.
Qed.

(** What holds of every chunk of a text with the words [palavras], for
    the chunk size [t] and the stride [passo]. *)
Lemma chunk_passo_shape (palavras : list str) (t passo i : Z)
    (chunks : list Chunk.t) (P : Chunk.t -> Prop) :
  Forall palavra palavras ->
  0 <= i < len palavras -> (passo | i) ->
  (forall c,
     0 <= Chunk.posicao_inicial c < len palavras ->
     (passo | Chunk.posicao_inicial c) ->
     split (Chunk.texto c) <> [] ->
     Chunk.texto c = join espaco (split (Chunk.texto c)) ->
     (exists m, split (Chunk.texto c)
                = take m (drop (Z.to_nat (Chunk.posicao_inicial c)) palavras)) ->
     (0 <= t -> len (split (Chunk.texto c)) <= t) ->
     P c) ->
  Forall P chunks -> Forall P (chunk_passo palavras t chunks i).
Proof.
  intros Hp Hi Hdiv HP Hall. unfold chunk_passo.
  destruct (truthy (strip _)) eqn:Ht; [|done].
  apply Forall_app. split; [done|]. constructor; [|done].
  destruct (slice_from_position palavras i (i + t) Hi) as [m Hm].
  assert (Hw : Forall palavra (slice palavras i (i + t))).
  { rewrite Hm. apply Forall_take, Forall_drop, Hp. }
  apply HP; simpl; rewrite ?split_join by done; try done.
  - intros E. rewrite E in Ht. discriminate.
  - by exists m.
  - intros Ht0. rewrite slice_length by lia. lia.
Qed.

(** X2. For every chunk size and overlap for which the chunker returns,
    each chunk starts at a word position of the text that is a multiple
    of the stride, holds at least one word and (for a chunk size that is
    not negative) at most [tamanho_chunk] words, its words are
    consecutive words of the text from that position, and its text is
    these words joined by single spaces. *)
Theorem dividir_em_chunks_chunk_shape (texto : str) (t o : Z)
    (chunks : list Chunk.t) :
  dividir_em_chunks texto t o = Ok chunks ->
  Forall (fun c =>
            0 <= Chunk.posicao_inicial c < len (split texto)
            /\ (t - o | Chunk.posicao_inicial c)
            /\ split (Chunk.texto c) <> []
            /\ Chunk.texto c = join espaco (split (Chunk.texto c))
            /\ (exists m,
                  split (Chunk.texto c)
                  = take m (drop (Z.to_nat (Chunk.posicao_inicial c))
                              (split texto)))
            /\ (0 <= t -> len (split (Chunk.texto c)) <= t)) chunks.
Proof.
  unfold dividir_em_chunks. intros Hd.
  apply bind_Ok in Hd as (ps & Hr & Hd). injection Hd as <-.
  apply range_posicoes in Hr; [|apply len_nonneg].
  pose proof (split_palavras texto) as Hp.
  set (P := split texto) in *.
  assert (Hgen : forall acc,
             Forall (fun c =>
               0 <= Chunk.posicao_inicial c < len P
               /\ (t - o | Chunk.posicao_inicial c)
               /\ split (Chunk.texto c) <> []
               /\ Chunk.texto c = join espaco (split (Chunk.texto c))
               /\ (exists m, split (Chunk.texto c)
                     = take m (drop (Z.to_nat (Chunk.posicao_inicial c)) P))
               /\ (0 <= t -> len (split (Chunk.texto c)) <= t)) acc ->
             Forall (fun c =>
               0 <= Chunk.posicao_inicial c < len P
               /\ (t - o | Chunk.posicao_inicial c)
               /\ split (Chunk.texto c) <> []
               /\ Chunk.texto c = join espaco (split (Chunk.texto c))
               /\ (exists m, split (Chunk.texto c)
                     = take m (drop (Z.to_nat (Chunk.posicao_inicial c)) P))
               /\ (0 <= t -> len (split (Chunk.texto c)) <= t))
               (fold_left (chunk_passo P t) ps acc)).
  { induction Hr as [|i ps [Hi Hdiv] Hr IH]; intros acc Hacc; [done|].
    simpl. apply IH.
    apply (chunk_passo_shape P t (t - o) i acc); done. }
  apply Hgen. constructor.
Qed.

Lemma dividir_em_chunks_chunk_shape_witness :
  Forall (fun c =>
            0 <= Chunk.posicao_inicial c < len (split (py "a b c d e"))
            /\ (3 - 1 | Chunk.posicao_inicial c)
            /\ split (Chunk.texto c) <> []
            /\ Chunk.texto c = join espaco (split (Chunk.texto c))
            /\ (exists m,
                  split (Chunk.texto c)
                  = take m (drop (Z.to_nat (Chunk.posicao_inicial c))
                              (split (py "a b c d e"))))
            /\ (0 <= 3 -> len (split (Chunk.texto c)) <= 3))
    [ Chunk.mk (py "a b c") 0 0; Chunk.mk (py "c d e") 1 2;
      Chunk.mk (py "e") 2 4 ].
Proof.
  apply (dividir_em_chunks_chunk_shape (py "a b c d e") 3 1). reflexivity.
Defined.

(** ** Loader *)

Lemma dividir_em_chunks_padrao_vazio (texto : str) (chunks : list Chunk.t) :
  dividir_em_chunks texto 1000 200 = Ok chunks ->
  chunks = [] <-> split texto = [].
Proof.
  rewrite dividir_em_chunks_janelas by lia. intros [= <-].
  change (1000 - 200) with 800. split.
  - intros E. apply (f_equal (@length _)) in E.
    rewrite length_map, length_seq in E. simpl in E.
    destruct (split texto) as [|w ws] eqn:Hw; [done|].
    assert (Hk : (0 < n_janelas (len (w :: ws)) 800)%nat).
    { apply n_janelas_complete; [lia|]. unfold len. simpl. lia. }
    lia.
  - intros ->. reflexivity.
Qed.

(** X3. The loader never fails: for every text it returns a session. The
    session holds the text, the chunks of the text for chunks of 1000
    words overlapping by 200, its tables and its sections; its index,
    when there is one, is built over exactly these chunks; and there is
    no index exactly when the text has no word or the vectorizer raises
    on the chunk texts. *)
Theorem processar_md_com_rag_session `{Lib} (texto_md : str) :
  exists d,
    processar_md_com_rag texto_md = Ok (Some d)
    /\ dividir_em_chunks texto_md 1000 200 = Ok (DadosRag.chunks d)
    /\ extrair_tabelas_do_md texto_md = Ok (DadosRag.tabelas d)
    /\ DadosRag.secoes_importantes d = extrair_secoes_importantes texto_md
    /\ DadosRag.texto_completo d = texto_md
    /\ criar_indice_similaridade (DadosRag.chunks d)
       = Ok (DadosRag.indice_similaridade d)
    /\ (forall indice,
          DadosRag.indice_similaridade d = Some indice ->
          Indice.chunks indice = DadosRag.chunks d)
    /\ (DadosRag.indice_similaridade d = None
        <-> split texto_md = []
            \/ exists e,
                 fit_transform (map Chunk.texto (DadosRag.chunks d)) = Raise e).
Proof.
  destruct (dividir_em_chunks texto_md 1000 200) as [chunks|e] eqn:Hd.
  2: { rewrite dividir_em_chunks_janelas in Hd by lia. discriminate. }
  pose proof (dividir_em_chunks_padrao_vazio texto_md chunks Hd) as Hvazio.
  pose proof (criar_indice_similaridade_cases chunks) as Hc.
  destruct (criar_indice_similaridade chunks) as [indice|e] eqn:Hi.
  2: { destruct chunks; [done|].
       destruct (fit_transform _) as [[v m]|e']; discriminate. }
  exists {| DadosRag.chunks := chunks;
            DadosRag.tabelas := fold_left tabela_passo (ultimas_secoes texto_md) [];
            DadosRag.secoes_importantes := extrair_secoes_importantes texto_md;
            DadosRag.indice_similaridade := indice;
            DadosRag.texto_completo := texto_md |}.
  split.
  { unfold processar_md_com_rag. rewrite Hd. simpl. by rewrite Hi. }
  simpl. repeat split; try done.
  - intros i ->. destruct chunks; [done|].
    destruct (fit_transform _) as [[v m]|e']; [|done]. by injection Hc as ->.
  - intros ->. destruct chunks as [|c chunks]; [left; by apply Hvazio|].
    right. destruct (fit_transform _) as [[v m]|e']; [done|]. by exists e'.
  - intros [Hs|[e He]].
    + apply Hvazio in Hs. subst chunks. by injection Hc as ->.
    + destruct chunks; [by injection Hc as ->|].
      rewrite He in Hc. by injection Hc as ->.
Qed.

(** ** Retriever: what a query returns *)

Section QueryProperties.
Context `{Lib}.

Lemma buscar_passes (consulta : str) (dados_rag : option DadosRag.t) (top_k : Z)
    (indice : Indice.t) (cv : Matrix) (linhas : list (list Q)) :
  dados_rag ≫= DadosRag.indice_similaridade = Some indice ->
  transform (Indice.vectorizer indice) [consulta_expandida consulta] = Ok cv ->
  cosine_similarity cv (Indice.tfidf_matrix indice) = Ok linhas ->
  buscar_informacoes_relevantes consulta dados_rag top_k
  = match passes consulta (Indice.chunks indice) (concat linhas) top_k with
    | Ok out => Ok out
    | Raise _ => Ok []
    end.
Proof.
  intros Hi Ht Hc. unfold buscar_informacoes_relevantes.
  rewrite Hi, Ht. simpl. rewrite Hc. simpl. by destruct (passes _ _ _ _).
Qed.

Lemma buscar_cases (consulta : str) (dados_rag : option DadosRag.t) (top_k : Z)
    (out : list Resultado.t) :
  buscar_informacoes_relevantes consulta dados_rag top_k = Ok out ->
  out = []
  \/ exists indice cv linhas,
       dados_rag ≫= DadosRag.indice_similaridade = Some indice
       /\ transform (Indice.vectorizer indice) [consulta_expandida consulta] = Ok cv
       /\ cosine_similarity cv (Indice.tfidf_matrix indice) = Ok linhas
       /\ passes consulta (Indice.chunks indice) (concat linhas) top_k = Ok out.
Proof.
  unfold buscar_informacoes_relevantes. intros Hb.
  destruct (dados_rag ≫= DadosRag.indice_similaridade) as [indice|] eqn:Hi;
    [|left; by injection Hb].
  destruct (transform _ _) as [cv|e] eqn:Ht; [|left; by injection Hb].
  simpl in Hb. destruct (cosine_similarity _ _) as [linhas|e] eqn:Hc;
    [|left; by injection Hb].
  simpl in Hb. destruct (passes _ _ _ _) as [out'|e] eqn:Hp;
    [|left; by injection Hb].
  injection Hb as <-. right. by exists indice, cv, linhas.
Qed.

Lemma ja_presente_false (resultados : list Resultado.t) (chunk : Chunk.t) :
  ja_presente resultados chunk = false ->
  Chunk.indice chunk ∉ map indice_do_resultado resultados.
Proof.
  unfold ja_presente. intros Hj Hin.
  apply list_elem_of_fmap in Hin as (r & Hr & Hin).
  assert (Ht : existsb
            (fun r => Chunk.indice (Resultado.chunk r) =? Chunk.indice chunk)
            resultados = true).
  { apply existsb_exists. exists r. split; [by apply list_elem_of_In|].
    apply Z.eqb_eq. by rewrite Hr. }
  congruence.
Qed.

Lemma busca_habilidades_cons (top_k : Z) (c : Chunk.t) (chunks : list Chunk.t)
    (i : nat) (acc : list Resultado.t) :
  busca_habilidades top_k i (c :: chunks) acc
  = if casa_habilidade c && negb (ja_presente acc c) then
      if top_k * 2 <=? len (acc ++ [resultado_habilidade c i])
      then acc ++ [resultado_habilidade c i]
      else busca_habilidades top_k (S i) chunks (acc ++ [resultado_habilidade c i])
    else busca_habilidades top_k (S i) chunks acc.
Proof. reflexivity. Qed.

Lemma busca_palavras_chave_cons (top_k : Z) (palavras_chave : list str)
    (c : Chunk.t) (chunks : list Chunk.t) (acc : list Resultado.t) :
  busca_palavras_chave top_k palavras_chave (c :: chunks) acc
  = if alguma_palavra palavras_chave (lower (Chunk.texto c)) then
      if top_k <=? len (acc ++ [resultado_palavra_chave c])
      then acc ++ [resultado_palavra_chave c]
      else busca_palavras_chave top_k palavras_chave chunks
             (acc ++ [resultado_palavra_chave c])
    else busca_palavras_chave top_k palavras_chave chunks acc.
Proof. reflexivity. Qed.

Lemma len_snoc {A} (l : list A) (x : A) : len (l ++ [x]) = len l + 1.
Proof. unfold len. rewrite length_app. simpl. lia. Qed.

(** The topic pass appends entries for chunks taken in the order of the
    corpus, each containing a topic word. *)
Lemma busca_habilidades_extra (top_k : Z) (chunks : list Chunk.t) (i : nat)
    (acc : list Resultado.t) :
  exists extra,
    busca_habilidades top_k i chunks acc = acc ++ extra
    /\ map Resultado.chunk extra `sublist_of` chunks
    /\ Forall (fun r => Resultado.similaridade r = sim_habilidade
                        /\ Resultado.texto r = Chunk.texto (Resultado.chunk r)
                        /\ casa_habilidade (Resultado.chunk r) = true) extra.
Proof.
  revert i acc. induction chunks as [|c chunks IH]; intros i acc.
  - exists []. simpl. by rewrite app_nil_r.
  - rewrite busca_habilidades_cons.
    destruct (casa_habilidade c) eqn:Hm; simpl.
    2: { destruct (IH (S i) acc) as (extra & E & Hs & Hall).
         exists extra. split; [exact E|]. split; [by apply sublist_cons|done]. }
    destruct (negb _); simpl.
    2: { destruct (IH (S i) acc) as (extra & E & Hs & Hall).
         exists extra. split; [exact E|]. split; [by apply sublist_cons|done]. }
    destruct (_ <=? _).
    + exists [resultado_habilidade c i]. split; [done|]. simpl. split.
      * apply sublist_skip, sublist_nil_l.
      * by constructor.
    + destruct (IH (S i) (acc ++ [resultado_habilidade c i]))
        as (extra & -> & Hs & Hall).
      exists (resultado_habilidade c i :: extra).
      split; [by rewrite <- app_assoc|]. simpl. split.
      * by apply sublist_skip.
      * by constructor.
Qed.

Lemma busca_habilidades_len (top_k : Z) (chunks : list Chunk.t) (i : nat)
    (acc : list Resultado.t) :
  len acc < top_k * 2 ->
  len (busca_habilidades top_k i chunks acc) <= top_k * 2.
Proof.
  revert i acc. induction chunks as [|c chunks IH]; intros i acc Hl.
  - simpl. lia.
  - rewrite busca_habilidades_cons.
    destruct (_ && _); [|by apply IH].
    destruct (Z.leb_spec (top_k * 2) (len (acc ++ [resultado_habilidade c i])))
      as [Hge|Hlt].
    + rewrite len_snoc. lia.
    + by apply IH.
Qed.

Lemma busca_habilidades_NoDup (top_k : Z) (chunks : list Chunk.t) (i : nat)
    (acc : list Resultado.t) :
  NoDup (map indice_do_resultado acc) ->
  NoDup (map indice_do_resultado (busca_habilidades top_k i chunks acc)).
Proof.
  revert i acc. induction chunks as [|c chunks IH]; intros i acc Hn.
  - done.
  - rewrite busca_habilidades_cons.
    destruct (casa_habilidade c); simpl; [|by apply IH].
    destruct (ja_presente acc c) eqn:Hj; simpl; [by apply IH|].
    apply ja_presente_false in Hj.
    assert (Hn' : NoDup (map indice_do_resultado
                           (acc ++ [resultado_habilidade c i]))).
    { rewrite map_app. apply NoDup_app. split; [done|]. split.
      - intros x Hx Hx'. simpl in Hx'. apply list_elem_of_singleton in Hx'.
        by subst x.
      - simpl. apply NoDup_singleton. }
    destruct (_ <=? _); [done | by apply IH].
Qed.

(** The keyword pass appends the entries of the first chunks that contain
    a word of the query, until [top_k] results are reached, and at least
    one of them when there is one. *)
Lemma busca_palavras_chave_take (top_k : Z) (palavras_chave : list str)
    (chunks : list Chunk.t) (acc : list Resultado.t) :
  busca_palavras_chave top_k palavras_chave chunks acc
  = acc ++ map resultado_palavra_chave
             (take (Z.to_nat (Z.max 1 (top_k - len acc)))
                (List.filter
                   (fun c => alguma_palavra palavras_chave (lower (Chunk.texto c)))
                   chunks)).
Proof.
  revert acc. induction chunks as [|c chunks IH]; intros acc.
  - simpl. by rewrite take_nil, app_nil_r.
  - rewrite busca_palavras_chave_cons. simpl List.filter.
    destruct (alguma_palavra palavras_chave (lower (Chunk.texto c)));
      [|apply IH].
    destruct (Z.leb_spec top_k (len (acc ++ [resultado_palavra_chave c])))
      as [Hge|Hlt]; rewrite len_snoc in *.
    + replace (Z.to_nat (Z.max 1 (top_k - len acc))) with 1%nat by lia.
      simpl. by destruct (List.filter _ chunks).
    + rewrite IH, len_snoc, <- app_assoc. simpl.
      replace (Z.to_nat (Z.max 1 (top_k - len acc)))
        with (S (Z.to_nat (Z.max 1 (top_k - (len acc + 1))))) by lia.
      done.
Qed.

Lemma filter_sublist {A} (f : A -> bool) (l : list A) :
  List.filter f l `sublist_of` l.
Proof.
  induction l as [|x l IH]; simpl; [done|].
  destruct (f x); [by apply sublist_skip | by apply sublist_cons].
Qed.

Lemma do_ranking_chunks (similaridades : list Q) (chunks : list Chunk.t)
    (idxs : list nat) (rs : list Resultado.t) :
  Forall2 (do_ranking similaridades chunks) idxs rs ->
  Forall (fun r => Resultado.chunk r ∈ chunks
                   /\ Resultado.texto r = Chunk.texto (Resultado.chunk r)) rs.
Proof.
  induction 1 as [|idx r idxs rs [[Hc _] [_ [Ht _]]] _ IH]; constructor; [|done].
  split; [|done]. by eapply list_elem_of_lookup_2.
Qed.

Lemma do_ranking_NoDup (similaridades : list Q) (chunks : list Chunk.t)
    (idxs : list nat) (rs : list Resultado.t) :
  NoDup (map Chunk.indice chunks) -> NoDup idxs ->
  Forall2 (do_ranking similaridades chunks) idxs rs ->
  NoDup (map indice_do_resultado rs).
Proof.
  intros Hn Hi Hall. induction Hall as [|idx r idxs rs [[Hc _] _] Hall IH].
  - constructor.
  - apply NoDup_cons in Hi as [Hidx Hi]. simpl. constructor; [|by apply IH].
    intros Hin. apply list_elem_of_fmap in Hin as (r' & Hr' & Hin).
    apply list_elem_of_lookup in Hin as [k Hk].
    destruct (Forall2_lookup_r _ _ _ _ _ Hall Hk) as (idx' & Hidx' & [[Hc' _] _]).
    assert (idx = idx'); [|subst idx'; apply Hidx; by eapply list_elem_of_lookup_2].
    apply (NoDup_lookup (map Chunk.indice chunks) idx idx' (indice_do_resultado r));
      [done| |]; rewrite list_lookup_fmap.
    + by rewrite Hc.
    + rewrite Hc'. simpl. by rewrite Hr'.
Qed.

Lemma ranking_abaixo_do_limiar (similaridades : list Q) (chunks : list Chunk.t)
    (top : list nat) (acc : list Resultado.t) :
  Forall (fun s => (s <= limiar)%Q) similaridades ->
  Forall (fun idx => (idx < length similaridades)%nat) top ->
  ranking similaridades chunks top acc = Ok acc.
Proof.
  intros Hs Hv. induction Hv as [|idx top Hidx _ IH]; [done|]. simpl.
  apply lookup_lt_is_Some in Hidx as [s Es].
  assert (Hg : Qgtb s limiar = false).
  { destruct (Qgtb s limiar) eqn:Eg; [|done].
    apply Qgtb_spec in Eg. rewrite Forall_forall in Hs.
    apply list_elem_of_lookup_2, Hs in Es. by apply Qle_not_lt in Es. }
  apply index_Ok in Es. rewrite Es. simpl. by rewrite Hg.
Qed.

Lemma ranking_length (similaridades : list Q) (chunks : list Chunk.t)
    (top_k : Z) (rs : list Resultado.t) :
  0 <= top_k ->
  ranking similaridades chunks (top_indices similaridades top_k) [] = Ok rs ->
  len rs <= top_k.
Proof.
  intros Hk Hr. apply ranking_ok in Hr as (rs' & -> & Hall). simpl.
  apply Forall2_length in Hall. unfold len. rewrite <- Hall.
  pose proof (length_filter (fun idx => acima_do_limiar similaridades idx = true)
                (top_indices similaridades top_k)) as Hf.
  unfold top_indices in *. rewrite slice_to_take in * by done.
  rewrite length_take in Hf. lia.
Qed.

Lemma buscar_len (consulta : str) (dados_rag : option DadosRag.t)
    (top_k : Z) (out : list Resultado.t) :
  1 <= top_k ->
  buscar_informacoes_relevantes consulta dados_rag top_k = Ok out ->
  len out <= (if consulta_habilidade consulta then 2 * top_k else top_k).
Proof.
  intros Hk Hb.
  apply buscar_cases in Hb as [->|(indice & cv & linhas & _ & _ & _ & Hp)].
  { unfold len. simpl. destruct (consulta_habilidade consulta); lia. }
  unfold passes in Hp. apply bind_Ok in Hp as (rs & Hr & Hp).
  injection Hp as <-. apply ranking_length in Hr; [|lia].
  destruct (consulta_habilidade consulta).
  - pose proof (busca_habilidades_len top_k (Indice.chunks indice) 0 rs) as Hh.
    destruct (busca_habilidades top_k 0 (Indice.chunks indice) rs) as [|r rs'] eqn:E;
      simpl.
    + rewrite busca_palavras_chave_take. simpl.
      unfold len. rewrite length_map, length_take. simpl. lia.
    + lia.
  - destruct rs as [|r rs]; simpl; [|lia].
    rewrite busca_palavras_chave_take. simpl.
    unfold len. rewrite length_map, length_take. simpl. lia.
Qed.

(** X4. A query for [top_k >= 1] results never fails and returns at most
    [top_k] results, or at most [2 * top_k] when it mentions 'habilidade'
    or 'competência'. *)
Theorem buscar_result_count (consulta : str) (dados_rag : option DadosRag.t)
    (top_k : Z) :
  1 <= top_k ->
  exists out,
    buscar_informacoes_relevantes consulta dados_rag top_k = Ok out
    /\ len out <= (if consulta_habilidade consulta then 2 * top_k else top_k).
Proof.
  intros Hk.
  destruct (buscar_total consulta dados_rag top_k) as [out Hb].
  exists out. split; [done|]. exact (buscar_len consulta dados_rag top_k out Hk Hb).
Qed.

(** X5. Every result of a query is a chunk of the index of the session,
    and the text it carries is the text of that chunk. *)
Theorem buscar_results_from_index (consulta : str)
    (dados_rag : option DadosRag.t) (top_k : Z) :
  exists out,
    buscar_informacoes_relevantes consulta dados_rag top_k = Ok out
    /\ Forall (fun r =>
                 Resultado.texto r = Chunk.texto (Resultado.chunk r)
                 /\ exists indice,
                      dados_rag ≫= DadosRag.indice_similaridade = Some indice
                      /\ Resultado.chunk r ∈ Indice.chunks indice) out.
Proof.
  destruct (buscar_total consulta dados_rag top_k) as [out Hb].
  exists out. split; [done|].
  apply buscar_cases in Hb as [->|(indice & cv & linhas & Hi & _ & _ & Hp)];
    [done|].
  cut (Forall (fun r => Resultado.chunk r ∈ Indice.chunks indice
                        /\ Resultado.texto r = Chunk.texto (Resultado.chunk r))
         out).
  { intros Hall. eapply Forall_impl; [exact Hall|].
    intros r [Hin Ht]. split; [done|]. by exists indice. }
  unfold passes in Hp. apply bind_Ok in Hp as (rs & Hr & Hp). injection Hp as <-.
  apply ranking_ok in Hr as (rs' & -> & Hall). simpl.
  apply do_ranking_chunks in Hall.
  set (rs2 := if consulta_habilidade consulta
              then busca_habilidades top_k 0 (Indice.chunks indice) rs'
              else rs').
  assert (H2 : Forall (fun r => Resultado.chunk r ∈ Indice.chunks indice
                        /\ Resultado.texto r = Chunk.texto (Resultado.chunk r))
                 rs2).
  { subst rs2. destruct (consulta_habilidade consulta); [|done].
    destruct (busca_habilidades_extra top_k (Indice.chunks indice) 0 rs')
      as (extra & -> & Hs & Hx).
    apply Forall_app. split; [done|].
    apply Forall_forall. intros r Hr.
    split.
    - eapply elem_of_sublist; [|exact Hs].
      apply list_elem_of_fmap. by exists r.
    - rewrite Forall_forall in Hx. by apply Hx. }
  destruct rs2 as [|r rs2]; simpl; [|done].
  rewrite busca_palavras_chave_take. simpl.
  apply Forall_forall. intros r Hr.
  apply list_elem_of_fmap in Hr as (c & -> & Hc). split; [|done]. simpl.
  apply elem_of_take in Hc as (k & Hc & _).
  apply list_elem_of_lookup_2 in Hc.
  eapply elem_of_sublist; [exact Hc | apply filter_sublist].
Qed.

(** X6. The results of the ranking pass come first and in the order of
    that pass. What follows them are chunks in the order of the corpus:
    chunks with a topic word, scored 0.4, for a query that mentions
    'habilidade' or 'competência'; or, only when no other result was
    found, the entries of the keyword pass for chunks with a word of the
    query. *)
Theorem buscar_ranked_first (consulta : str) (dados_rag : option DadosRag.t)
    (top_k : Z) (indice : Indice.t) (cv : Matrix) (linhas : list (list Q))
    (rs : list Resultado.t) :
  dados_rag ≫= DadosRag.indice_similaridade = Some indice ->
  transform (Indice.vectorizer indice) [consulta_expandida consulta] = Ok cv ->
  cosine_similarity cv (Indice.tfidf_matrix indice) = Ok linhas ->
  ranking (concat linhas) (Indice.chunks indice)
    (top_indices (concat linhas) top_k) [] = Ok rs ->
  exists extra,
    buscar_informacoes_relevantes consulta dados_rag top_k = Ok (rs ++ extra)
    /\ map Resultado.chunk extra `sublist_of` Indice.chunks indice
    /\ (extra = []
        \/ (consulta_habilidade consulta = true
            /\ Forall (fun r => Resultado.similaridade r = sim_habilidade
                                /\ casa_habilidade (Resultado.chunk r) = true)
                 extra)
        \/ (rs = []
            /\ Forall (fun r => r = resultado_palavra_chave (Resultado.chunk r)
                                /\ casa_consulta consulta (Resultado.chunk r) = true)
                 extra)).
Proof.
  intros Hi Ht Hc Hr.
  rewrite (buscar_passes _ _ _ _ _ _ Hi Ht Hc). unfold passes. rewrite Hr. simpl.
  set (rs2 := if consulta_habilidade consulta
              then busca_habilidades top_k 0 (Indice.chunks indice) rs
              else rs).
  assert (H2 : exists extra,
             rs2 = rs ++ extra
             /\ map Resultado.chunk extra `sublist_of` Indice.chunks indice
             /\ (extra = []
                 \/ (consulta_habilidade consulta = true
                     /\ Forall (fun r => Resultado.similaridade r = sim_habilidade
                                  /\ casa_habilidade (Resultado.chunk r) = true)
                          extra))).
  { subst rs2. destruct (consulta_habilidade consulta).
    - destruct (busca_habilidades_extra top_k (Indice.chunks indice) 0 rs)
        as (extra & -> & Hs & Hx).
      exists extra. split; [done|]. split; [done|]. right. split; [done|].
      eapply Forall_impl; [exact Hx|]. by intros r (? & ? & ?).
    - exists []. rewrite app_nil_r. split; [done|]. split; [|by left].
      apply sublist_nil_l. }
  destruct H2 as (extra & E2 & Hs & Hx).
  destruct rs2 as [|r rs2]; simpl.
  - symmetry in E2. apply app_eq_nil in E2 as [-> ->].
    rewrite busca_palavras_chave_take. simpl.
    eexists. split; [reflexivity|]. split.
    + rewrite map_map. simpl. rewrite map_id.
      etrans; [apply sublist_take | apply filter_sublist].
    + right. right. split; [done|].
      apply Forall_forall. intros r Hr'.
      apply list_elem_of_fmap in Hr' as (c & -> & Hc'). split; [done|]. simpl.
      apply elem_of_take in Hc' as (k & Hc' & _).
      apply list_elem_of_lookup_2, list_elem_of_In, filter_In in Hc' as [_ Hm].
      done.
  - exists extra. rewrite E2. split; [done|]. split; [done|].
    destruct Hx as [Hx|Hx]; [by left | right; by left].
Qed.

End QueryProperties.

Section QueryRankingProperties.
Context `{Lib} `{!ArgsortOk}.

(** X7. When the chunks of the index have distinct numbers, as the
    chunker numbers them, no chunk is returned twice by a query, although
    the topic pass runs over chunks the ranking pass may already have
    returned. *)
Theorem buscar_no_duplicates (consulta : str) (dados_rag : option DadosRag.t)
    (top_k : Z) :
  (forall indice,
     dados_rag ≫= DadosRag.indice_similaridade = Some indice ->
     NoDup (map Chunk.indice (Indice.chunks indice))) ->
  exists out,
    buscar_informacoes_relevantes consulta dados_rag top_k = Ok out
    /\ NoDup (map indice_do_resultado out).
Proof.
  intros Hn.
  destruct (buscar_total consulta dados_rag top_k) as [out Hb].
  exists out. split; [done|].
  apply buscar_cases in Hb as [->|(indice & cv & linhas & Hi & _ & _ & Hp)];
    [constructor|].
  specialize (Hn indice Hi).
  unfold passes in Hp. apply bind_Ok in Hp as (rs & Hr & Hp). injection Hp as <-.
  apply ranking_ok in Hr as (rs' & -> & Hall). simpl.
  apply do_ranking_NoDup in Hall; [|done|].
  2: { apply NoDup_filter, top_indices_NoDup. }
  set (rs2 := if consulta_habilidade consulta
              then busca_habilidades top_k 0 (Indice.chunks indice) rs'
              else rs').
  assert (H2 : NoDup (map indice_do_resultado rs2)).
  { subst rs2. destruct (consulta_habilidade consulta); [|done].
    by apply busca_habilidades_NoDup. }
  destruct rs2 as [|r rs2]; simpl; [|done].
  rewrite busca_palavras_chave_take. simpl.
  rewrite map_map. simpl.
  eapply sublist_NoDup; [exact Hn|].
  apply (fmap_sublist Chunk.indice).
  etrans; [apply sublist_take | apply filter_sublist].
Qed.

(** X8. When no chunk scores above 0.05 and the query mentions neither
    'habilidade' nor 'competência', the results are exactly the entries
    of the keyword pass for the first [max 1 top_k] chunks that contain a
    word of the query: one result comes back even for [top_k <= 0]. *)
Theorem buscar_keyword_fallback (consulta : str) (dados_rag : option DadosRag.t)
    (top_k : Z) (indice : Indice.t) (cv : Matrix) (linhas : list (list Q)) :
  dados_rag ≫= DadosRag.indice_similaridade = Some indice ->
  transform (Indice.vectorizer indice) [consulta_expandida consulta] = Ok cv ->
  cosine_similarity cv (Indice.tfidf_matrix indice) = Ok linhas ->
  Forall (fun s => (s <= limiar)%Q) (concat linhas) ->
  consulta_habilidade consulta = false ->
  buscar_informacoes_relevantes consulta dados_rag top_k
  = Ok (map resultado_palavra_chave
          (take (Z.to_nat (Z.max 1 top_k))
             (List.filter (casa_consulta consulta) (Indice.chunks indice)))).
Proof.
  intros Hi Ht Hc Hs Hq.
  rewrite (buscar_passes _ _ _ _ _ _ Hi Ht Hc). unfold passes.
  rewrite ranking_abaixo_do_limiar; [|done|].
  2: { apply Forall_forall. intros idx. apply top_indices_valid. }
  simpl. rewrite Hq. simpl. rewrite busca_palavras_chave_take.
  change (len (@nil Resultado.t)) with 0. by rewrite Z.sub_0_r.
Qed.

End QueryRankingProperties.

Lemma buscar_result_count_witness :
  exists out,
    buscar_informacoes_relevantes (H := SmallLib.lib) (py "habilidade")
      sessao_topico 1 = Ok out
    /\ len out <= (if consulta_habilidade (H := SmallLib.lib) (py "habilidade")
                   then 2 * 1 else 1).
Proof.
  apply (@buscar_result_count SmallLib.lib (py "habilidade") sessao_topico 1).
  lia.
Defined.

Lemma buscar_ranked_first_witness :
  exists extra,
    buscar_informacoes_relevantes (H := SmallLib.lib) (py "habilidade")
      sessao_topico 5 = Ok ([resultado_par 0] ++ extra)
    /\ map Resultado.chunk extra `sublist_of` Indice.chunks indice_topico
    /\ (extra = []
        \/ (consulta_habilidade (H := SmallLib.lib) (py "habilidade") = true
            /\ Forall (fun r => Resultado.similaridade r = sim_habilidade
                                /\ casa_habilidade (H := SmallLib.lib)
                                     (Resultado.chunk r) = true)
                 extra)
        \/ ([resultado_par 0] = []
            /\ Forall (fun r => r = resultado_palavra_chave (Resultado.chunk r)
                                /\ casa_consulta (H := SmallLib.lib)
                                     (py "habilidade") (Resultado.chunk r) = true)
                 extra)).
Proof.
  apply (@buscar_ranked_first SmallLib.lib (py "habilidade") sessao_topico 5
           indice_topico
           ([ [ py "spaece"; py "dcrc"; py "bncc"; py "spaece dcrc";
                py "dcrc bncc" ] ] : list (list str))
           [ [ 5 # 5; 0 # 8 ] ]%Q
           [ resultado_par 0 ]);
    vm_compute; reflexivity.
Defined.

Lemma buscar_no_duplicates_witness :
  exists out,
    buscar_informacoes_relevantes (H := SmallLib.lib) (py "habilidade")
      sessao_topico 5 = Ok out
    /\ NoDup (map indice_do_resultado out).
Proof.
  apply (@buscar_no_duplicates SmallLib.lib SmallLibLaws.argsort_ok
           (py "habilidade") sessao_topico 5).
  intros indice [= <-]. apply (bool_decide_unpack _). by vm_compute.
Defined.

Lemma buscar_keyword_fallback_witness :
  buscar_informacoes_relevantes (H := SmallLib.lib) (py "zebra") sessao_zebras 0
  = Ok (map resultado_palavra_chave
          (take (Z.to_nat (Z.max 1 0))
             (List.filter (casa_consulta (H := SmallLib.lib) (py "zebra"))
                (Indice.chunks indice_zebras)))).
Proof.
  apply (@buscar_keyword_fallback SmallLib.lib SmallLibLaws.argsort_ok
           (py "zebra") sessao_zebras 0 indice_zebras
           ([ [] ] : list (list str)) [ [ 0 # 1 ] ]%Q);
    try (vm_compute; reflexivity).
  repeat constructor. by vm_compute.
Defined.

(** ** Comparison context *)

Lemma slice_to_len {A} (l : list A) (n : Z) : 0 <= n -> len (slice_to l n) <= n.
Proof.
  intros Hn. unfold slice_to. rewrite slice_length by lia.
  pose proof (len_nonneg l). lia.
Qed.

Lemma len_app {A} (l k : list A) : len (l ++ k) = len l + len k.
Proof. unfold len. rewrite length_app. lia. Qed.

Lemma fonte_secao_len (comp : str) : len (fonte_secao comp) = 4.
Proof. unfold fonte_secao. by destruct (_ || _). Qed.

Lemma item_comparacao_len (i : Z) (comp : str) :
  0 <= i < 10 -> len (item_comparacao i comp) <= 415.
Proof.
  intros Hi. unfold item_comparacao. rewrite !len_app, fonte_secao_len.
  pose proof (slice_to_len comp 400).
  assert (len (str_int i) = 1).
  { assert (Hc : i = 0 \/ i = 1 \/ i = 2 \/ i = 3 \/ i = 4 \/ i = 5 \/ i = 6
                 \/ i = 7 \/ i = 8 \/ i = 9) by lia.
    repeat destruct Hc as [->|Hc]; try subst i; reflexivity. }
  change (len (py ". [")) with 3. change (len (py "] ")) with 2.
  change (len (py "...")) with 3. change (len nl) with 1. lia.
Qed.

Lemma itens_comparacao_len (lista : list str) (n : Z) :
  0 <= n <= 3 -> len (itens_comparacao lista n) <= n * 415.
Proof.
  intros Hn. unfold itens_comparacao.
  pose proof (slice_to_len lista n) as Hl.
  destruct (slice_to lista n) as [|a [|b [|c [|x l]]]].
  - unfold len. simpl. lia.
  - simpl. rewrite app_nil_r.
    pose proof (item_comparacao_len 1 a). unfold len in *. simpl in *. lia.
  - cbn [imap concat compose]. rewrite app_nil_r, !len_app.
    pose proof (item_comparacao_len 1 a). pose proof (item_comparacao_len 2 b).
    unfold len in *. simpl length in *. simpl Z.add in *. lia.
  - cbn [imap concat compose]. rewrite app_nil_r, !len_app.
    pose proof (item_comparacao_len 1 a). pose proof (item_comparacao_len 2 b).
    pose proof (item_comparacao_len 3 c).
    unfold len in *. simpl length in *. simpl Z.add in *. lia.
  - unfold len in Hl. simpl in Hl. lia.
Qed.

Lemma cabecalho_comparacao_len : len cabecalho_comparacao = 84.
Proof. vm_compute. reflexivity. Qed.

Lemma titulo_competencias_len : len titulo_competencias = 68.
Proof. vm_compute. reflexivity. Qed.

Lemma titulo_descricoes_len : len titulo_descricoes = 67.
Proof. vm_compute. reflexivity. Qed.

Lemma titulo_relacoes_len : len titulo_relacoes = 70.
Proof. vm_compute. reflexivity. Qed.

Lemma instrucoes_comparacao_len : len instrucoes_comparacao = 1733.
Proof. vm_compute. reflexivity. Qed.

Lemma cabecalho_comparacao_nonempty (resto : str) :
  cabecalho_comparacao ++ resto <> [].
Proof.
  intros E. apply (f_equal len) in E.
  rewrite len_app, cabecalho_comparacao_len in E.
  pose proof (len_nonneg resto). change (len (@nil N)) with 0 in E. lia.
Qed.

Lemma texto_comparacao_vazio (competencias descricoes relacoes : list str) :
  texto_comparacao competencias descricoes relacoes = []
  <-> competencias = [] /\ descricoes = [].
Proof.
  unfold texto_comparacao. split.
  - destruct competencias as [|c cs], descricoes as [|d ds];
      cbn [truthy orb]; try done;
      intros E; by apply cabecalho_comparacao_nonempty in E.
  - by intros [-> ->].
Qed.

Section ComparisonProperties.
Context `{Lib}.

Lemma comparar_habilidades_competencias_cases (dados_rag : option DadosRag.t)
    (nome_habilidade : str) :
  comparar_habilidades_competencias dados_rag nome_habilidade = Ok []
  \/ exists d,
       dados_rag = Some d
       /\ comparar_habilidades_competencias dados_rag nome_habilidade
          = Ok (texto_comparacao
                  (secao_ou_vazia (DadosRag.secoes_importantes d)
                     (py "dcrc_competencias_especificas"))
                  (secao_ou_vazia (DadosRag.secoes_importantes d)
                     (py "dcrc_descricoes_habilidades"))
                  (secao_ou_vazia (DadosRag.secoes_importantes d)
                     (py "dcrc_relacoes_habilidades"))).
Proof.
  unfold comparar_habilidades_competencias.
  destruct dados_rag as [d|]; [|by left].
  destruct (bool_decide _); [by left|]. right. by exists d.
Qed.

Lemma secao_extraida (texto_md nome padrao : str) (k : nat) :
  padroes_secoes !! k = Some (nome, padrao) ->
  secao_ou_vazia (extrair_secoes_importantes texto_md) nome = []
  <-> finditer padrao texto_md = [].
Proof.
  intros Hk.
  pose proof (extrair_secoes_importantes_lookup texto_md) as Hall.
  rewrite Forall_lookup in Hall. specialize (Hall k _ Hk). simpl in Hall.
  unfold secao_ou_vazia. rewrite Hall.
  by destruct (finditer padrao texto_md).
Qed.

(** X9. For a session whose sections were extracted from a text, the
    comparison context is empty exactly when the text has no match of the
    competence pattern and none of the description pattern: matches of
    the relation pattern alone add nothing, and the name of the ability
    plays no part. *)
Theorem comparar_habilidades_competencias_empty (texto_md : str)
    (d : DadosRag.t) (nome_habilidade : str) :
  DadosRag.secoes_importantes d = extrair_secoes_importantes texto_md ->
  comparar_habilidades_competencias (Some d) nome_habilidade = Ok []
  <-> finditer
        (py "(competência específica|habilidade específica|descrição da habilidade)")
        texto_md = []
      /\ finditer (py "(descrição|caracterização|definição.*habilidade)")
           texto_md = [].
Proof.
  intros Hs.
  rewrite <- (secao_extraida texto_md (py "dcrc_competencias_especificas") _ 21)
    by reflexivity.
  rewrite <- (secao_extraida texto_md (py "dcrc_descricoes_habilidades") _ 22)
    by reflexivity.
  rewrite <- Hs, <- (texto_comparacao_vazio _ _
    (secao_ou_vazia (DadosRag.secoes_importantes d)
       (py "dcrc_relacoes_habilidades"))).
  unfold comparar_habilidades_competencias.
  destruct (bool_decide_reflect (DadosRag.secoes_importantes d = ∅)) as [E|E].
  - rewrite E. unfold secao_ou_vazia. rewrite !lookup_empty. simpl.
    split; [done|]. done.
  - simpl. split; [by intros [= ->] | by intros ->].
Qed.

(** X10. The comparison context never fails. It is empty, or it starts
    with the header and ends with the block of instructions; and however
    long the document is, it has at most 5342 characters: at most three
    competences, three descriptions and two relations are quoted, each
    cut at 400 characters. *)
Theorem comparar_habilidades_competencias_bounded
    (dados_rag : option DadosRag.t) (nome_habilidade : str) :
  exists out,
    comparar_habilidades_competencias dados_rag nome_habilidade = Ok out
    /\ (out = []
        \/ exists meio, out = cabecalho_comparacao ++ meio ++ instrucoes_comparacao)
    /\ len out <= 5342.
Proof.
  assert (H0 : len (@nil N) <= 5342) by (unfold len; simpl; lia).
  destruct (comparar_habilidades_competencias_cases dados_rag nome_habilidade)
    as [E|(d & _ & E)]; rewrite E.
  { exists []. split; [done|]. split; [by left | done]. }
  eexists. split; [reflexivity|].
  set (cs := secao_ou_vazia _ (py "dcrc_competencias_especificas")).
  set (ds := secao_ou_vazia _ (py "dcrc_descricoes_habilidades")).
  set (rs := secao_ou_vazia _ (py "dcrc_relacoes_habilidades")).
  unfold texto_comparacao.
  destruct (truthy cs || truthy ds); [|split; [by left | done]].
  set (A := if truthy cs then titulo_competencias ++ itens_comparacao cs 3 else []).
  set (B := if truthy ds then titulo_descricoes ++ itens_comparacao ds 3 else []).
  set (C := if truthy rs then titulo_relacoes ++ itens_comparacao rs 2 else []).
  split.
  - right. exists (A ++ B ++ C). by rewrite <- !app_assoc.
  - rewrite !len_app, cabecalho_comparacao_len, instrucoes_comparacao_len.
    pose proof (itens_comparacao_len cs 3). pose proof (itens_comparacao_len ds 3).
    pose proof (itens_comparacao_len rs 2).
    assert (len A <= 68 + 3 * 415).
    { subst A. destruct (truthy cs); [|unfold len; simpl; lia].
      rewrite len_app, titulo_competencias_len. lia. }
    assert (len B <= 67 + 3 * 415).
    { subst B. destruct (truthy ds); [|unfold len; simpl; lia].
      rewrite len_app, titulo_descricoes_len. lia. }
    assert (len C <= 70 + 2 * 415).
    { subst C. destruct (truthy rs); [|unfold len; simpl; lia].
      rewrite len_app, titulo_relacoes_len. lia. }
    lia.
Qed.

End ComparisonProperties.

Lemma comparar_habilidades_competencias_empty_witness :
  comparar_habilidades_competencias (H := SmallLib.lib) (Some sessao_relacoes)
    (py "H01") = Ok []
  <-> finditer (Lib := SmallLib.lib)
        (py "(competência específica|habilidade específica|descrição da habilidade)")
        texto_relacoes = []
      /\ finditer (Lib := SmallLib.lib)
           (py "(descrição|caracterização|definição.*habilidade)")
           texto_relacoes = [].
Proof.
  apply (@comparar_habilidades_competencias_empty SmallLib.lib texto_relacoes
           sessao_relacoes (py "H01")).
  reflexivity.
Defined.

(** ** Hierarchy codes *)

Lemma str_leb_total (a b : str) : str_leb a b = true \/ str_leb b a = true.
Proof.
  revert b. induction a as [|x a IH]; intros [|y b]; simpl; auto.
  destruct (N.ltb_spec x y), (N.ltb_spec y x), (N.eqb_spec x y),
    (N.eqb_spec y x); auto; lia.
Qed.

Lemma str_leb_trans (a b c : str) :
  str_leb a b = true -> str_leb b c = true -> str_leb a c = true.
Proof.
  revert b c. induction a as [|x a IH]; intros [|y b] [|z c]; simpl; try done.
  destruct (N.ltb_spec x y), (N.ltb_spec y z), (N.ltb_spec x z),
    (N.eqb_spec x y), (N.eqb_spec y z), (N.eqb_spec x z);
    try done; try lia.
  apply IH.
Qed.

#[local] Instance str_le_total : Total str_le.
Proof. intros a b. apply str_leb_total. Qed.

#[local] Instance str_le_trans : Transitive str_le.
Proof. intros a b c. apply str_leb_trans. Qed.

Lemma elem_of_sorted (xs : list str) (c : str) : c ∈ sorted xs <-> c ∈ xs.
Proof. unfold sorted. by rewrite merge_sort_Permutation. Qed.

Lemma lstrip_Forall (P : N -> Prop) (s : str) : Forall P s -> Forall P (lstrip s).
Proof.
  induction 1 as [|c s Hc Hs IH]; simpl; [done|].
  destruct (isspace c); [done | by constructor].
Qed.

Lemma strip_Forall (P : N -> Prop) (s : str) : Forall P s -> Forall P (strip s).
Proof.
  intros Hs. unfold strip.
  apply Forall_rev, lstrip_Forall, Forall_rev, lstrip_Forall, Hs.
Qed.

Lemma lstrip_sem_espaco_inicial (s : str) : sem_espaco_inicial (lstrip s).
Proof.
  induction s as [|c s IH]; simpl; [done|].
  by destruct (isspace c) eqn:E.
Qed.

Lemma lstrip_id (s : str) : sem_espaco_inicial s -> lstrip s = s.
Proof. destruct s as [|c s]; simpl; [done|]. by intros ->. Qed.

Lemma lstrip_suffix (s : str) : exists p, s = p ++ lstrip s.
Proof.
  induction s as [|c s [p IH]]; simpl; [by exists []|].
  destruct (isspace c); [|by exists []].
  exists (c :: p). simpl. by rewrite <- IH.
Qed.

Lemma strip_sem_espaco_inicial (s : str) : sem_espaco_inicial (strip s).
Proof.
  unfold strip.
  pose proof (lstrip_sem_espaco_inicial s) as HL.
  destruct (lstrip_suffix (rev (lstrip s))) as [p Hp].
  set (R := lstrip (rev (lstrip s))) in *.
  apply (f_equal (@rev N)) in Hp. rewrite rev_involutive, rev_app_distr in Hp.
  destruct (rev R) as [|c r]; [done|].
  rewrite Hp in HL. exact HL.
Qed.

Lemma strip_strip (s : str) : strip (strip s) = strip s.
Proof.
  unfold strip at 1.
  rewrite (lstrip_id (strip s)) by apply strip_sem_espaco_inicial.
  unfold strip. rewrite rev_involutive.
  by rewrite (lstrip_id (lstrip _)) by apply lstrip_sem_espaco_inicial.
Qed.

Lemma startswith_nil (s : str) : startswith s [] = true.
Proof. by destruct s. Qed.

Lemma split_sep_go_char (x : N) (cur s : str) :
  Forall (fun c => c <> x) cur ->
  Forall (Forall (fun c => c <> x)) (split_sep_go [x] 0 cur s).
Proof.
  revert cur. induction s as [|c s IH]; intros cur Hcur; simpl.
  - constructor; [by apply Forall_rev | done].
  - destruct (N.eqb_spec x c) as [->|Hne]; simpl.
    + rewrite startswith_nil.
      constructor; [by apply Forall_rev | by apply IH].
    + apply IH. constructor; [congruence | done].
Qed.

(** No piece of [s.split('/')] contains the separator. *)
Lemma split_sep_char (x : N) (s : str) :
  Forall (Forall (fun c => c <> x)) (split_sep s [x]).
Proof. by apply split_sep_go_char. Qed.

Lemma elem_of_codigos_de (valor c : str) :
  c ∈ codigos_de valor
  <-> c <> [] /\ exists parte, parte ∈ split_sep valor (py "/") /\ c = strip parte.
Proof.
  unfold codigos_de.
  rewrite list_elem_of_In, filter_In, <- list_elem_of_In, list_elem_of_fmap.
  split.
  - intros [(parte & -> & Hp) Ht]. split; [|by exists parte].
    intros E. by rewrite E in Ht.
  - intros [Hc (parte & Hp & ->)]. split; [by exists parte|].
    by destruct (strip parte).
Qed.

Lemma codigos_de_forma (valor c : str) :
  c ∈ codigos_de valor ->
  c <> [] /\ strip c = c /\ Forall (fun x => x <> 47%N) c.
Proof.
  intros Hc. apply elem_of_codigos_de in Hc as [Hne (parte & Hp & ->)].
  split; [done|]. split; [apply strip_strip|].
  apply strip_Forall.
  pose proof (split_sep_char 47%N valor) as Hall.
  rewrite Forall_forall in Hall. by apply Hall.
Qed.

Lemma elem_of_fold_agregados_passo (valores : list Celula) (agregados : gset str)
    (c : str) :
  c ∈ fold_left agregados_passo valores agregados
  <-> c ∈ agregados
      \/ exists valor, Texto valor ∈ valores /\ c ∈ codigos_de valor.
Proof.
  revert agregados. induction valores as [|v valores IH]; intros agregados; simpl.
  - split; [by left|]. intros [H|(valor & H & _)]; [done|].
    by apply elem_of_nil in H.
  - rewrite IH. split.
    + intros [Hc|(valor & Hv & Hc)].
      * destruct v as [s| |]; simpl in Hc; [|by left|by left].
        apply elem_of_union in Hc as [Hc|Hc]; [by left|].
        right. exists s. split; [left|]. by apply elem_of_list_to_set in Hc.
      * right. exists valor. split; [by right|done].
    + intros [Hc|(valor & Hv & Hc)].
      * left. destruct v; simpl; [|done|done]. apply elem_of_union. by left.
      * apply elem_of_cons in Hv as [<-|Hv].
        -- left. simpl. apply elem_of_union. right.
           by apply elem_of_list_to_set.
        -- right. by exists valor.
Qed.

Lemma elem_of_dropna_Texto (serie : list Celula) (s : str) :
  Texto s ∈ dropna serie <-> Texto s ∈ serie.
Proof.
  unfold dropna. rewrite list_elem_of_In, filter_In, <- list_elem_of_In.
  split; [by intros [? _] | done].
Qed.

Lemma elem_of_extrair_agregados_hierarquia (df : DataFrame.t) (c : str) :
  c ∈ extrair_agregados_hierarquia df
  <-> exists serie valor,
        DataFrame.colunas df !! py "DC_HIERARQUIA" = Some serie
        /\ Texto valor ∈ serie
        /\ c ∈ codigos_de valor.
Proof.
  unfold extrair_agregados_hierarquia.
  destruct (DataFrame.colunas df !! py "DC_HIERARQUIA") as [serie|].
  - rewrite elem_of_sorted, elem_of_elements, elem_of_fold_agregados_passo.
    split.
    + intros [H|(valor & Hv & Hc)]; [by apply elem_of_empty in H|].
      rewrite elem_of_dropna_Texto in Hv. by exists serie, valor.
    + intros (serie' & valor & [= <-] & Hv & Hc). right.
      exists valor. split; [by apply elem_of_dropna_Texto | done].
  - split; [by intros H%elem_of_nil | by intros (? & ? & ? & _)].
Qed.

(** X11. The hierarchy codes come back in ascending order of their code
    points and without repetition, however often and in whatever order
    they occur in the column. *)
Theorem extrair_agregados_hierarquia_sorted (df : DataFrame.t) :
  StronglySorted str_le (extrair_agregados_hierarquia df)
  /\ NoDup (extrair_agregados_hierarquia df).
Proof.
  unfold extrair_agregados_hierarquia.
  destruct (DataFrame.colunas df !! py "DC_HIERARQUIA") as [serie|].
  - split.
    + apply (StronglySorted_merge_sort str_le).
    + unfold sorted. rewrite merge_sort_Permutation. apply NoDup_elements.
  - split; constructor.
Qed.

(** X12. A code is returned exactly when the frame has the column
    'DC_HIERARQUIA' and some text cell of it has, between two '/' or
    between a '/' and an end of the cell, a piece that is this code once
    the whitespace around it is removed, the code not being empty.
    Numbers and missing cells contribute nothing, and a frame without
    the column has no code. *)
Theorem extrair_agregados_hierarquia_member (df : DataFrame.t) (c : str) :
  c ∈ extrair_agregados_hierarquia df
  <-> exists serie valor parte,
        DataFrame.colunas df !! py "DC_HIERARQUIA" = Some serie
        /\ Texto valor ∈ serie
        /\ parte ∈ split_sep valor (py "/")
        /\ c = strip parte
        /\ c <> [].
Proof.
  rewrite elem_of_extrair_agregados_hierarquia. split.
  - intros (serie & valor & Hs & Hv & Hc).
    apply elem_of_codigos_de in Hc as [Hne (parte & Hp & ->)].
    by exists serie, valor, parte.
  - intros (serie & valor & parte & Hs & Hv & Hp & -> & Hne).
    exists serie, valor. split; [done|]. split; [done|].
    apply elem_of_codigos_de. split; [done|]. by exists parte.
Qed.

(** X13. No returned code is empty, starts or ends with whitespace, or
    contains a '/'. *)
Theorem extrair_agregados_hierarquia_codes (df : DataFrame.t) :
  Forall (fun c => c <> [] /\ strip c = c /\ Forall (fun x => x <> 47%N) c)
    (extrair_agregados_hierarquia df).
Proof.
  apply Forall_forall. intros c Hc.
  apply elem_of_extrair_agregados_hierarquia in Hc as (serie & valor & _ & _ & Hc).
  by apply codigos_de_forma in Hc.
Qed.

Example extrair_agregados_hierarquia_sample :
  extrair_agregados_hierarquia df_hierarquia = [py "23"; py "2301"; py "230101"]
  /\ agregados_a_consultar df_hierarquia (py "2301") = [py "23"; py "230101"]
  /\ agregados_a_consultar df_hierarquia (py "23") = [].
Proof. repeat split; by vm_compute. Qed.

(** ** Substitutions *)

Lemma procurar_Some (tabela : list (str * str)) (k v : str) :
  procurar tabela k = Some v -> (k, v) ∈ tabela.
Proof.
  induction tabela as [|[k' v'] tabela IH]; simpl; [done|].
  destruct (bool_decide_reflect (k' = k)) as [->|_].
  - intros [= ->]. left.
  - intros Hp. right. by apply IH.
Qed.

Lemma substituir_idem (tabela : list (str * str)) (c : Celula) :
  Forall (fun kv => procurar tabela kv.2 = None) tabela ->
  substituir tabela (substituir tabela c) = substituir tabela c.
Proof.
  intros Hall. destruct c as [s| |]; simpl; try done.
  destruct (procurar tabela s) as [v|] eqn:Hp; simpl; [|by rewrite Hp].
  apply procurar_Some in Hp. rewrite Forall_forall in Hall.
  specialize (Hall _ Hp). simpl in Hall. by rewrite Hall.
Qed.

(** No value of a table is a key of the same table. *)
Lemma tabela_da_coluna_ok (col : str) :
  Forall (fun kv => procurar (tabela_da_coluna col) kv.2 = None)
    (tabela_da_coluna col).
Proof.
  unfold tabela_da_coluna, substituicoes. cbn [tabela_em].
  repeat case_bool_decide; apply (bool_decide_unpack _); by vm_compute.
Qed.

Lemma substituir_nil (c : Celula) : substituir [] c = c.
Proof. by destruct c. Qed.

Lemma substituir_coluna_lookup (col : str) (tabela : list (str * str))
    (df : DataFrame.t) (c : str) :
  DataFrame.colunas (substituir_coluna col tabela df) !! c
  = if bool_decide (col = c)
    then map (substituir tabela) <$> DataFrame.colunas df !! c
    else DataFrame.colunas df !! c.
Proof.
  unfold substituir_coluna.
  destruct (DataFrame.colunas df !! col) as [serie|] eqn:Hs; simpl.
  - destruct (bool_decide_reflect (col = c)) as [<-|Hne].
    + by rewrite lookup_insert_eq, Hs.
    + by rewrite lookup_insert_ne.
  - destruct (bool_decide_reflect (col = c)) as [<-|Hne]; [|done].
    by rewrite Hs.
Qed.

Lemma substituir_coluna_n_linhas (col : str) (tabela : list (str * str))
    (df : DataFrame.t) :
  DataFrame.n_linhas (substituir_coluna col tabela df) = DataFrame.n_linhas df.
Proof. unfold substituir_coluna. by destruct (_ !! _). Qed.

(** The frame after the four replacements. *)
Lemma substituicoes_lookup (d : DataFrame.t) (c : str) :
  DataFrame.colunas
    (substituir_coluna (py "DC_TIPO_ENTIDADE") subst_tipo_entidade
       (substituir_coluna (py "VL_FILTRO_ETAPA") subst_etapa
          (substituir_coluna (py "VL_FILTRO_REDE") subst_rede
             (substituir_coluna (py "VL_FILTRO_DISCIPLINA") subst_disciplina d))))
    !! c
  = map (substituir (tabela_da_coluna c)) <$> DataFrame.colunas d !! c.
Proof.
  rewrite !substituir_coluna_lookup.
  unfold tabela_da_coluna, substituicoes. cbn [tabela_em].
  assert (Hid : forall o : option (list Celula), map (substituir []) <$> o = o).
  { intros [l|]; [|done]. simpl. f_equal.
    rewrite <- (map_id l) at 2. apply map_ext. apply substituir_nil. }
  repeat case_bool_decide; subst; try done; by rewrite ?Hid.
Qed.

Lemma lookup_fmap_empty_dep {B} (m1 m2 : gmap str B) (f : str -> B -> B) :
  (forall c, m1 !! c = f c <$> m2 !! c) -> m1 = ∅ -> m2 = ∅.
Proof.
  intros Hl ->. apply map_empty. intros c.
  specialize (Hl c). rewrite lookup_empty in Hl. by destruct (m2 !! c).
Qed.

Lemma DataFrame_eq (a b : DataFrame.t) :
  DataFrame.n_linhas a = DataFrame.n_linhas b ->
  DataFrame.colunas a = DataFrame.colunas b -> a = b.
Proof. destruct a, b. simpl. by intros -> ->. Qed.

(** X14. The substitutions keep the shape of the frame: the number of
    rows and the columns are the same, and a frame that is not empty has
    every column rewritten cell by cell with the table of that column,
    which is empty for all columns but the four named in the source. An
    empty frame is returned as it is. *)
Theorem aplicar_substituicoes_shape (d : DataFrame.t) :
  exists d',
    aplicar_substituicoes (Some d) = Some d'
    /\ DataFrame.n_linhas d' = DataFrame.n_linhas d
    /\ dom (DataFrame.colunas d') = dom (DataFrame.colunas d)
    /\ (forall c : str, c ∉ substituicoes.*1 -> tabela_da_coluna c = [])
    /\ forall c : str,
         DataFrame.colunas d' !! c
         = (if df_empty d then id else map (substituir (tabela_da_coluna c)))
             <$> DataFrame.colunas d !! c.
Proof.
  unfold aplicar_substituicoes.
  destruct (df_empty d) eqn:He.
  - exists d. repeat split; try done.
    + intros c Hc. unfold tabela_da_coluna, substituicoes in *. cbn [tabela_em].
      repeat case_bool_decide; try done; subst; exfalso; apply Hc;
        apply (bool_decide_unpack _); by vm_compute.
    + intros c. by destruct (_ !! c).
  - eexists. split; [reflexivity|]. split; [by rewrite !substituir_coluna_n_linhas|].
    split; [|split].
    + apply set_eq. intros c. rewrite !elem_of_dom, substituicoes_lookup.
      by rewrite fmap_is_Some.
    + intros c Hc. unfold tabela_da_coluna, substituicoes in *. cbn [tabela_em].
      repeat case_bool_decide; try done; subst; exfalso; apply Hc;
        apply (bool_decide_unpack _); by vm_compute.
    + apply substituicoes_lookup.
Qed.

(** X15. Applying the substitutions twice, as the page does, gives the
    same frame as applying them once: no replacement value is itself
    replaced. *)
Theorem aplicar_substituicoes_idempotent (df : option DataFrame.t) :
  aplicar_substituicoes (aplicar_substituicoes df) = aplicar_substituicoes df.
Proof.
  destruct df as [d|]; [|done]. unfold aplicar_substituicoes at 2.
  destruct (df_empty d) eqn:He; [simpl; by rewrite He|].
  set (d' := substituir_coluna _ _ _).
  assert (Hl : forall c, DataFrame.colunas d' !! c
                         = map (substituir (tabela_da_coluna c))
                             <$> DataFrame.colunas d !! c)
    by apply substituicoes_lookup.
  assert (Hn : DataFrame.n_linhas d' = DataFrame.n_linhas d)
    by (subst d'; by rewrite !substituir_coluna_n_linhas).
  assert (He' : df_empty d' = false).
  { unfold df_empty in *. rewrite Hn.
    apply orb_false_iff in He as [He1 He2]. rewrite He1. simpl.
    apply bool_decide_eq_false. apply bool_decide_eq_false in He2.
    intros E. apply He2.
    by apply (lookup_fmap_empty_dep (DataFrame.colunas d') (DataFrame.colunas d)
                (fun c => map (substituir (tabela_da_coluna c)))). }
  unfold aplicar_substituicoes. rewrite He', He. f_equal. fold d'.
  set (d2 := substituir_coluna _ _ (substituir_coluna _ _ (substituir_coluna _ _
               (substituir_coluna _ _ d')))).
  assert (Hl2 : forall c, DataFrame.colunas d2 !! c
                          = map (substituir (tabela_da_coluna c))
                              <$> DataFrame.colunas d' !! c)
    by apply substituicoes_lookup.
  assert (Hn2 : DataFrame.n_linhas d2 = DataFrame.n_linhas d')
    by (subst d2; by rewrite !substituir_coluna_n_linhas).
  apply DataFrame_eq; [done|].
  apply map_eq. intros c. rewrite Hl2, Hl.
  destruct (DataFrame.colunas d !! c) as [serie|]; [|done]. simpl. f_equal.
  rewrite map_map. apply map_ext. intros x.
  apply substituir_idem, tabela_da_coluna_ok.
Qed.

(** ** Requests to the portal *)

Lemma lstrip_blank (s : str) :
  Forall (fun c => isspace c = true) s -> lstrip s = [].
Proof. induction 1 as [|c s Hc _ IH]; simpl; [done|]. by rewrite Hc. Qed.

Lemma strip_blank (s : str) :
  Forall (fun c => isspace c = true) s -> strip s = [].
Proof. intros Hs. unfold strip. by rewrite (lstrip_blank s Hs). Qed.

Lemma strip_nonempty (s : str) : strip s = s -> s <> [] ->
  Exists (fun c => isspace c = false) s.
Proof.
  intros Hs Hne. destruct s as [|c s]; [done|].
  pose proof (strip_sem_espaco_inicial (c :: s)) as Hi. rewrite Hs in Hi.
  by left.
Qed.

Section ApiProperties.
Context `{Rede}.

Lemma consultar_api_eventos (agregado : str) :
  Exists (fun c => isspace c = false) agregado ->
  exists msgs,
    snd (consultar_api agregado) = Post (payload_de (strip agregado)) :: msgs
    /\ match fst (consultar_api agregado) with
       | Some data =>
           msgs = []
           /\ json_truthy data = true
           /\ exists response,
                requests_post (payload_de (strip agregado)) = inr response
                /\ raise_for_status response = None
                /\ response_json response = inr data
       | None => exists m, msgs = [StError m] \/ msgs = [StWarning m]
       end.
Proof.
  intros Hx. unfold consultar_api.
  assert (Ha : truthy agregado = true) by (by destruct Hx).
  rewrite Ha, (strip_truthy agregado Hx). cbn [negb orb].
  change (criar_payload (Some INDICADORES) (strip agregado) (Some []) None (py "0"))
    with (payload_de (strip agregado)).
  destruct (requests_post _) as [e|response] eqn:Hp; simpl.
  { eexists. split; [done|]. eexists. by left. }
  destruct (raise_for_status response) as [e|] eqn:Hr; simpl.
  { eexists. split; [done|]. eexists. by left. }
  destruct (response_json response) as [e|data] eqn:Hj; simpl.
  { eexists. split; [done|]. eexists. by left. }
  destruct (json_truthy data) eqn:Ht; simpl.
  - exists []. split; [done|]. split; [done|]. split; [done|]. by exists response.
  - eexists. split; [done|]. eexists. by right.
Qed.

(** X16. A code that is empty or all whitespace is rejected before any
    request: the call returns nothing, shows the one error message and
    sends nothing to the portal. *)
Theorem consultar_api_blank (agregado : str) :
  Forall (fun c => isspace c = true) agregado ->
  consultar_api agregado
  = (None, [StError (py "❌ Código da Entidade não pode estar vazio")]).
Proof.
  intros Hb. unfold consultar_api. rewrite (strip_blank agregado Hb).
  simpl. by rewrite orb_true_r.
Qed.

(** X17. For a code with a character that is not whitespace, exactly one
    request is sent, before any message. It carries the code without the
    whitespace around it, which is not empty, the default indicators, no
    filter and level '0'. Data is returned only when the request, the
    status check and the decoding succeed and the data is not empty, and
    then no message is shown; otherwise nothing is returned and exactly
    one error or warning follows the request. *)
Theorem consultar_api_request (agregado : str) :
  Exists (fun c => isspace c = false) agregado ->
  exists msgs,
    snd (consultar_api agregado) = Post (payload_de (strip agregado)) :: msgs
    /\ strip agregado <> []
    /\ payload_de (strip agregado)
       = criar_payload None (strip agregado) None None (py "0")
    /\ Forall mensagem msgs
    /\ match fst (consultar_api agregado) with
       | Some data =>
           msgs = []
           /\ json_truthy data = true
           /\ exists response,
                requests_post (payload_de (strip agregado)) = inr response
                /\ raise_for_status response = None
                /\ response_json response = inr data
       | None => exists m, msgs = [StError m] \/ msgs = [StWarning m]
       end.
Proof.
  intros Hx. destruct (consultar_api_eventos agregado Hx) as (msgs & Hs & Hf).
  exists msgs. split; [done|]. split.
  { intros E. pose proof (strip_truthy agregado Hx) as Ht. by rewrite E in Ht. }
  split; [done|]. split; [|done].
  destruct (fst (consultar_api agregado)).
  - by destruct Hf as [-> _].
  - destruct Hf as [m [->| ->]]; by repeat constructor.
Qed.

(** X18. The hierarchy codes the page goes on to query, for a selected
    code of more than two characters, are distinct and differ from the
    selected code, and none of them is rejected by the validation of
    [consultar_api]: each leads to exactly one request, which carries the
    code as it is. *)
Theorem agregados_a_consultar_requests (df : DataFrame.t) (agregado : str) :
  NoDup (agregados_a_consultar df agregado)
  /\ Forall (fun ag =>
               ag <> agregado
               /\ ag ∈ extrair_agregados_hierarquia df
               /\ exists msgs,
                    snd (consultar_api ag) = Post (payload_de ag) :: msgs
                    /\ Forall mensagem msgs)
       (agregados_a_consultar df agregado).
Proof.
  unfold agregados_a_consultar.
  destruct (2 <? len agregado); [|split; constructor]. split.
  - eapply sublist_NoDup; [|apply filter_sublist].
    unfold extrair_agregados_hierarquia.
    destruct (_ !! _); [|constructor].
    unfold sorted. rewrite merge_sort_Permutation. apply NoDup_elements.
  - apply Forall_forall. intros ag Hag.
    apply list_elem_of_In, filter_In in Hag as [Hin Hne].
    apply list_elem_of_In in Hin.
    split; [|split; [done|]].
    { intros ->. by rewrite bool_decide_eq_true_2 in Hne. }
    apply elem_of_extrair_agregados_hierarquia in Hin
      as (serie & valor & _ & _ & Hc).
    apply codigos_de_forma in Hc as (Hne' & Hs & _).
    destruct (consultar_api_eventos ag (strip_nonempty ag Hs Hne'))
      as (msgs & Hev & Hf).
    rewrite Hs in Hev. exists msgs. split; [done|].
    destruct (fst (consultar_api ag)).
    + by destruct Hf as [-> _].
    + destruct Hf as [m [->| ->]]; by repeat constructor.
Qed.

End ApiProperties.

Lemma consultar_api_blank_witness :
  consultar_api (H0 := PortalTeste.rede) (py "  ")
  = (None, [StError (py "❌ Código da Entidade não pode estar vazio")]).
Proof.
  apply (@consultar_api_blank PortalTeste.config PortalTeste.rede (py "  ")).
  repeat constructor.
Defined.

Lemma consultar_api_request_witness :
  exists msgs,
    snd (consultar_api (H0 := PortalTeste.rede) (py " 23 "))
    = Post (payload_de (strip (py " 23 "))) :: msgs
    /\ strip (py " 23 ") <> []
    /\ payload_de (H := PortalTeste.config) (strip (py " 23 "))
       = criar_payload None (strip (py " 23 ")) None None (py "0")
    /\ Forall mensagem msgs
    /\ match fst (consultar_api (H0 := PortalTeste.rede) (py " 23 ")) with
       | Some data =>
           msgs = []
           /\ json_truthy (Rede := PortalTeste.rede) data = true
           /\ exists response,
                requests_post (Rede := PortalTeste.rede)
                  (payload_de (strip (py " 23 "))) = inr response
                /\ raise_for_status response = None
                /\ response_json response = inr data
       | None => exists m, msgs = [StError m] \/ msgs = [StWarning m]
       end.
Proof.
  apply (@consultar_api_request PortalTeste.config PortalTeste.rede (py " 23 ")).
  apply Exists_cons_tl, Exists_cons_hd. reflexivity.
Defined.

(** ** Learning-path context *)

Section PercursosProperties.
Context `{Lib} `{Maiusculas}.

Lemma trecho_passo_app (contexto : str) (info : Resultado.t) :
  trecho_passo contexto info = contexto ++ trecho_passo [] info.
Proof. reflexivity. Qed.

Lemma fold_trecho_passo (informacoes : list Resultado.t) (contexto : str) :
  fold_left trecho_passo informacoes contexto
  = contexto ++ concat (map (trecho_passo []) informacoes).
Proof.
  revert contexto. induction informacoes as [|info informacoes IH];
    intros contexto.
  - simpl. by rewrite app_nil_r.
  - cbn [fold_left map concat]. rewrite IH, trecho_passo_app.
    by rewrite <- app_assoc.
Qed.

Lemma fonte_ou_documento_rotulo (info : Resultado.t) :
  rotulo (Resultado.fonte info) \/ Resultado.fonte info = None ->
  fonte_ou_documento info ∈ [py "BNCC"; py "DCRC"; py "Documento"].
Proof.
  unfold fonte_ou_documento.
  intros [[-> | ->] | ->]; simpl.
  - left.
  - right. left.
  - right. right. left.
Qed.

Lemma bloco_percurso_cons (consulta : str) (info : Resultado.t)
    (informacoes : list Resultado.t) :
  bloco_percurso consulta (info :: informacoes)
  = nl ++ py "🔍 INFORMAÇÕES SOBRE: " ++ upper consulta ++ nl
    ++ concat (map (trecho_passo []) (info :: informacoes)).
Proof. reflexivity. Qed.

(** What the loop over the queries appends to the context. *)
Lemma percorre_consultas_blocos (dados_rag : option DadosRag.t)
    (consultas : list str) (contexto : str) :
  exists infos,
    Forall2 (fun consulta informacoes =>
               buscar_informacoes_relevantes consulta dados_rag 3 = Ok informacoes
               /\ len informacoes <= 6
               /\ Forall (fun info =>
                            fonte_ou_documento info
                            ∈ [py "BNCC"; py "DCRC"; py "Documento"])
                    informacoes)
      consultas infos
    /\ percorre_consultas dados_rag consultas contexto
       = Ok (contexto ++ concat (zip_with bloco_percurso consultas infos)).
Proof.
  revert contexto. induction consultas as [|consulta consultas IH];
    intros contexto.
  - exists []. split; [constructor|]. simpl. by rewrite app_nil_r.
  - destruct (buscar_fonte consulta dados_rag 3) as (informacoes & Hb & Hf).
    pose proof (buscar_len consulta dados_rag 3 informacoes ltac:(lia) Hb) as Hl.
    assert (Hinfo : len informacoes <= 6
                    /\ Forall (fun info =>
                                 fonte_ou_documento info
                                 ∈ [py "BNCC"; py "DCRC"; py "Documento"])
                         informacoes).
    { split; [destruct (consulta_habilidade consulta); lia|].
      destruct Hf as [Hf|Hf]; (eapply Forall_impl; [exact Hf|]); intros info Hi;
        apply fonte_ou_documento_rotulo; [by left | right; by destruct Hi]. }
    cbn [percorre_consultas]. rewrite Hb. cbn [mbind result_bind].
    destruct informacoes as [|info informacoes].
    + cbn [truthy]. destruct (IH contexto) as (infos & Hall & ->).
      exists ([] :: infos). split; [by constructor|]. done.
    + cbn [truthy].
      match goal with |- context [percorre_consultas _ _ ?c] =>
        destruct (IH c) as (infos & Hall & ->)
      end.
      exists ((info :: informacoes) :: infos). split; [by constructor|].
      f_equal. rewrite fold_trecho_passo.
      cbn [zip_with concat]. rewrite bloco_percurso_cons.
      by rewrite <- !app_assoc.
Qed.

(** X19. The learning-path context never fails. Without an index it is
    empty. With an index it is the header, then for each of the five
    queries, in order, the block of the results of that query for
    [top_k = 3] (nothing for a query without result), then the block of
    instructions; each query contributes at most six excerpts, and each
    excerpt is labelled BNCC, DCRC or, for a result without the entry
    'fonte', Documento. *)
Theorem analisar_percursos_aprendizado_blocks (dados_rag : option DadosRag.t)
    (nome_habilidade : str) :
  exists out,
    analisar_percursos_aprendizado dados_rag nome_habilidade = Ok out
    /\ match dados_rag ≫= DadosRag.indice_similaridade with
       | None => out = []
       | Some _ =>
           exists infos,
             Forall2 (fun consulta informacoes =>
                        buscar_informacoes_relevantes consulta dados_rag 3
                        = Ok informacoes
                        /\ len informacoes <= 6
                        /\ Forall (fun info =>
                                     fonte_ou_documento info
                                     ∈ [py "BNCC"; py "DCRC"; py "Documento"])
                             informacoes)
               (consultas_percurso nome_habilidade) infos
             /\ out = cabecalho_percursos
                      ++ concat (zip_with bloco_percurso
                                   (consultas_percurso nome_habilidade) infos)
                      ++ instrucoes_percursos
       end.
Proof.
  unfold analisar_percursos_aprendizado.
  destruct (dados_rag ≫= DadosRag.indice_similaridade) as [indice|];
    [|by exists []].
  destruct (percorre_consultas_blocos dados_rag
              (consultas_percurso nome_habilidade) cabecalho_percursos)
    as (infos & Hall & ->).
  eexists. split; [reflexivity|]. exists infos. split; [done|].
  by rewrite <- app_assoc.
Qed.

End PercursosProperties.

(** The excerpts of a session whose only results come from the keyword
    pass are labelled Documento. *)
Example analisar_percursos_aprendizado_documento :
  analisar_percursos_aprendizado (H := SmallLib.lib) (H0 := maiusculas_latin1)
    sessao_zebras (py "zebra")
  = Ok (cabecalho_percursos
        ++ concat
             (map (fun consulta =>
                     nl ++ py "🔍 INFORMAÇÕES SOBRE: "
                     ++ upper (Maiusculas := maiusculas_latin1) consulta ++ nl
                     ++ py "[Documento] zebras..." ++ nl ++ nl)
                (consultas_percurso (py "zebra")))
        ++ instrucoes_percursos).
Proof. vm_compute. reflexivity. Qed.
